(** * googlegeocode: the rate and quota gate of the Google Geocode client

    A shallow embedding of [geocode.go] (package [googlegeocode]) and the
    proofs of its specification.  The package keeps one [geocoder] value,
    [geocoderInstance], loads it from the file [.geocoder-data] when the
    package is initialised, and [GetResults] runs one request cycle against
    it.

    The Go standard library is modelled as far as the package uses it: the
    byte strings of [strings] and [strconv], the proleptic Gregorian calendar
    and the two layouts of package [time] that occur in the source, an
    in-memory file system for [os] and [ioutil], and an oracle for the remote
    end of [http.Get]. *)

From Stdlib Require Import ZArith Lia String Ascii List Bool DecimalString.
From stdpp Require Import base gmap strings.

Open Scope Z_scope.

(** Go's [error] values are carried as their message. *)
Definition error := string.

(** ** Package [strings] *)
Module strings.

(** [strings.Split(s, sep)] for a separator of one byte, as the source
    calls it: the pieces of [s] between the separators, one piece more
    than there are separators (so [Split("", sep)] is [[""]]). *)
Fixpoint Split (s : string) (sep : ascii) : list string :=
  match s with
  | EmptyString => [EmptyString]
  | String c rest =>
      if Ascii.eqb c sep then EmptyString :: Split rest sep
      else match Split rest sep with
           | [] => [String c EmptyString]
           | piece :: pieces => String c piece :: pieces
           end
  end.

(** [strings.Join(elems, sep)]. *)
Fixpoint Join (elems : list string) (sep : string) : string :=
  match elems with
  | [] => EmptyString
  | e :: rest =>
      match rest with
      | [] => e
      | _ :: _ => e +:+ sep +:+ Join rest sep
      end
  end.

(** [strings.ContainsRune(s, r)] for a rune of one byte. *)
Fixpoint ContainsRune (s : string) (r : ascii) : bool :=
  match s with
  | EmptyString => false
  | String c rest => Ascii.eqb c r || ContainsRune rest r
  end.

End strings.

(** ** Slices of a byte string: [s[:n]] and [s[n:]], cut off at the end *)
Module slice.

Fixpoint take (n : nat) (s : string) : string :=
  match n, s with
  | S n', String c rest => String c (take n' rest)
  | _, _ => EmptyString
  end.

Fixpoint drop (n : nat) (s : string) : string :=
  match n, s with
  | S n', String _ rest => drop n' rest
  | _, _ => s
  end.

End slice.

(** The line separator of the state file. *)
Definition newline : ascii := "010"%char.

(** ** Package [strconv] *)
Module strconv.

Definition FormatBool (b : bool) : string :=
  if b then "true"%string else "false"%string.

(** [strconv.ParseBool]: the accepted spellings, and [false] with an error
    for anything else. *)
Definition ParseBool (str : string) : bool * option error :=
  if existsb (String.eqb str) ["1"; "t"; "T"; "true"; "TRUE"; "True"]%string
  then (true, None)
  else if existsb (String.eqb str) ["0"; "f"; "F"; "false"; "FALSE"; "False"]%string
  then (false, None)
  else (false, Some ("strconv.ParseBool: parsing " +:+ str +:+ ": invalid syntax")%string).

End strconv.

(** ** Decimal digits, as package [time] prints and reads them *)
Module digits.

Definition digitChar (d : Z) : ascii := ascii_of_nat (48 + Z.to_nat d).

Definition isDigit (c : ascii) : bool :=
  (48 <=? Z.of_nat (nat_of_ascii c)) && (Z.of_nat (nat_of_ascii c) <=? 57).

Definition digitVal (c : ascii) : Z := Z.of_nat (nat_of_ascii c) - 48.

(** The last [width] decimal digits of [u], most significant first. *)
Fixpoint fixedDigits (width : nat) (u : Z) : string :=
  match width with
  | O => EmptyString
  | S w => fixedDigits w (u / 10) +:+ String (digitChar (u mod 10)) EmptyString
  end.

(** [appendInt(b, x, width)] of time/format.go: a sign for negative
    numbers, then the decimal digits padded with zeros to [width]. *)
Definition appendInt (x : Z) (width : nat) : string :=
  let u := Z.abs x in
  (if x <? 0 then "-"%string else EmptyString) +:+
  (if (0 <? Z.of_nat width) && (u <? 10 ^ Z.of_nat width) then fixedDigits width u
   else NilZero.string_of_uint (N.to_uint (Z.to_N u))).

(** The loop of [atoi] and [parseUint]: the value of a string of digits. *)
Fixpoint digitsValue (acc : Z) (s : string) : option Z :=
  match s with
  | EmptyString => Some acc
  | String c rest =>
      if isDigit c then digitsValue (acc * 10 + digitVal c) rest else None
  end.

(** [parseUint(s, min, max)] of [parseRFC3339]. *)
Definition parseUint (s : string) (min max : Z) : option Z :=
  match digitsValue 0 s with
  | Some x => if (x <? min) || (max <? x) then None else Some x
  | None => None
  end.

(** The digits [s] starts with, and what follows them. *)
Fixpoint spanDigits (s : string) : string * string :=
  match s with
  | EmptyString => (EmptyString, EmptyString)
  | String c rest =>
      if isDigit c
      then let '(ds, tl) := spanDigits rest in (String c ds, tl)
      else (EmptyString, s)
  end.

(** [s] does not go on with a digit. *)
Definition nonDigitStart (s : string) : Prop :=
  match s with String c _ => isDigit c = false | EmptyString => True end.

(** Removes the zeros [s] ends with. *)
Fixpoint trimZeros (s : string) : string :=
  match s with
  | EmptyString => EmptyString
  | String c rest =>
      match trimZeros rest with
      | EmptyString => if Ascii.eqb c "0" then EmptyString else String c EmptyString
      | String _ _ as r => String c r
      end
  end.

End digits.

(** ** The proleptic Gregorian calendar of package [time] *)
Module calendar.

Definition isLeap (year : Z) : bool :=
  (year mod 4 =? 0) && (negb (year mod 100 =? 0) || (year mod 400 =? 0)).

(** [daysIn(m, year)] of time/time.go. *)
Definition daysIn (m year : Z) : Z :=
  if m =? 2 then (if isLeap year then 29 else 28)
  else if (m =? 4) || (m =? 6) || (m =? 9) || (m =? 11) then 30
  else 31.

(** The calendar repeats every 400 years, an era of 146097 days that is
    counted from a March 1: the leap day then ends a year. *)

(** The day of the era of the day [d] of month [m] in the year [yoe] of
    the era (a year that starts in March). *)
Definition dayOfEra (yoe m d : Z) : Z :=
  let mp := if 2 <? m then m - 3 else m + 9 in
  let doy := (153 * mp + 2) / 5 + d - 1 in
  yoe * 365 + yoe / 4 - yoe / 100 + doy.

(** Days from 1970-01-01 to the given civil date (month 1..12; the day may
    run over, as [time.Date] normalises it). *)
Definition daysFromCivil (y m d : Z) : Z :=
  let y' := if m <=? 2 then y - 1 else y in
  (y' / 400) * 146097 + dayOfEra (y' mod 400) m d - 719468.

(** The civil year (counted from the start of the era), month and day of
    a day of the era. *)
Definition civilOfEra (doe : Z) : Z * Z * Z :=
  let yoe := (doe - doe / 1460 + doe / 36524 - doe / 146096) / 365 in
  let doy := doe - (365 * yoe + yoe / 4 - yoe / 100) in
  let mp := (5 * doy + 2) / 153 in
  let d := doy - (153 * mp + 2) / 5 + 1 in
  let m := if mp <? 10 then mp + 3 else mp - 9 in
  (yoe + (if m <=? 2 then 1 else 0), m, d).

(** The civil date (year, month, day) of a day number. *)
Definition civilFromDays (z : Z) : Z * Z * Z :=
  let z := z + 719468 in
  let '(y, m, d) := civilOfEra (z mod 146097) in
  (y + (z / 146097) * 400, m, d).

(** Day of the week of a day number, Sunday = 0. *)
Definition weekday (z : Z) : Z := (z + 4) mod 7.

(** The first Sunday on or after day [z]. *)
Definition sundayOnOrAfter (z : Z) : Z := z + (7 - weekday z) mod 7.

End calendar.

(** ** Package [time] *)
Module time.
Import slice digits calendar.

(** A [time.Duration] is an int64 number of nanoseconds. *)
Definition Duration := Z.
Definition Millisecond : Duration := 1000000.
Definition Second : Duration := 1000000000.
Definition Hour : Duration := 3600 * Second.
Definition minDuration : Duration := - 2 ^ 63.
Definition maxDuration : Duration := 2 ^ 63 - 1.

(** int64 arithmetic wraps around. *)
Definition wrap64 (x : Z) : Z := (x + 2 ^ 63) mod 2 ^ 64 - 2 ^ 63.

(** The locations the package meets: UTC, a zone of fixed offset (what
    [Parse] makes of a numeric offset), and America/Los_Angeles.  The
    system's local zone is one of them. *)
Inductive Location : Type :=
| UTC
| FixedZone (offset : Z)
| LosAngeles.

(** America/Los_Angeles in the zone database (the rule in force since
    2007, applied to every year): daylight time from 02:00 PST on the
    second Sunday of March to 02:00 PDT on the first Sunday of
    November.  Both as seconds since the Unix epoch. *)
Definition dstBegins (year : Z) : Z :=
  sundayOnOrAfter (daysFromCivil year 3 8) * 86400 + 10 * 3600.
Definition dstEnds (year : Z) : Z :=
  sundayOnOrAfter (daysFromCivil year 11 1) * 86400 + 9 * 3600.

Definition alpha : Z := - 2 ^ 63.
Definition omega : Z := 2 ^ 63 - 1.

(** [l.lookup(sec)]: the offset in seconds east of UTC in effect at [sec],
    and the interval of instants [start <= t < end] it is in effect for. *)
Definition lookup (l : Location) (sec : Z) : Z * Z * Z :=
  match l with
  | UTC => (0, alpha, omega)
  | FixedZone off => (off, alpha, omega)
  | LosAngeles =>
      let '(year, _, _) := civilFromDays (sec / 86400) in
      if sec <? dstBegins year
      then (-28800, dstEnds (year - 1), dstBegins year)
      else if sec <? dstEnds year
      then (-25200, dstBegins year, dstEnds year)
      else (-28800, dstEnds year, dstBegins (year + 1))
  end.

Definition zoneOffset (l : Location) (sec : Z) : Z := fst (fst (lookup l sec)).

(** [time.LoadLocation(name)]; [zoneinfo] tells whether the system has
    the zone database. *)
Definition LoadLocation (zoneinfo : bool) (name : string) : Location * option error :=
  if String.eqb name "UTC" || String.eqb name "" then (UTC, None)
  else if zoneinfo && String.eqb name "America/Los_Angeles" then (LosAngeles, None)
  else (UTC, Some ("unknown time zone " +:+ name)%string).

(** A [time.Time]: the instant, in nanoseconds since the Unix epoch, and
    the location it is presented in.  The monotonic clock reading is not
    modelled, and the instant is not bounded. *)
Record Time : Type := { unixNano : Z; loc : Location }.

(** [time.Time{}]: January 1, year 1, 00:00:00 UTC. *)
Definition zero : Time := {| unixNano := -62135596800 * 1000000000; loc := UTC |}.

Definition unixSec (t : Time) : Z := unixNano t / 1000000000.
Definition Nanosecond (t : Time) : Z := unixNano t mod 1000000000.

Definition Before (t u : Time) : bool := unixNano t <? unixNano u.
Definition Equal (t u : Time) : bool := unixNano t =? unixNano u.
Definition IsZero (t : Time) : bool := unixNano t =? unixNano zero.

Definition Add (t : Time) (d : Duration) : Time :=
  {| unixNano := unixNano t + d; loc := loc t |}.

(** [t.Sub(u)]: the difference, or the largest or smallest duration when
    it does not fit. *)
Definition Sub (t u : Time) : Duration :=
  let d := unixNano t - unixNano u in
  if d <? minDuration then minDuration
  else if maxDuration <? d then maxDuration
  else d.

Definition In (t : Time) (l : Location) : Time :=
  {| unixNano := unixNano t; loc := l |}.

(** [time.Date(year, month, day, hour, min, sec, nsec, loc)]. *)
Definition Date (year month day hour min sec nsec : Z) (l : Location) : Time :=
  let m := month - 1 in
  let year := year + m / 12 in
  let month := m mod 12 + 1 in
  let unix := daysFromCivil year month day * 86400 + hour * 3600 + min * 60 + sec in
  let '(offset, start, end_) := lookup l unix in
  let unix :=
    if offset =? 0 then unix
    else
      let utc := unix - offset in
      let offset := if (utc <? start) || (end_ <=? utc) then zoneOffset l utc else offset in
      unix - offset in
  {| unixNano := unix * 1000000000 + nsec; loc := l |}.

(** The two layouts the package uses: [time.RFC3339Nano], which is
    "2006-01-02T15:04:05.999999999Z07:00", and "Jan 2 2006". *)
Inductive Layout : Type := RFC3339Nano | MonthDayYear.

Definition shortMonthNames : list string :=
  ["Jan"; "Feb"; "Mar"; "Apr"; "May"; "Jun";
   "Jul"; "Aug"; "Sep"; "Oct"; "Nov"; "Dec"]%string.

(** The date, the second of the day and the offset of [t] in its
    location. *)
Definition localFields (t : Time) : Z * Z * Z * Z * Z :=
  let offset := zoneOffset (loc t) (unixSec t) in
  let abs := unixSec t + offset in
  let '(year, month, day) := civilFromDays (abs / 86400) in
  (year, month, day, abs mod 86400, offset).

(** [appendNano] for ".999999999": the fraction without the zeros it
    ends with, and nothing at all for a whole second. *)
Definition appendNano (nanosec : Z) : string :=
  if nanosec =? 0 then EmptyString
  else String "." (trimZeros (appendInt nanosec 9)).

Definition appendZone (offset : Z) : string :=
  if offset =? 0 then "Z"%string
  else
    let zone := Z.quot offset 60 in
    (if zone <? 0 then "-"%string else "+"%string) +:+
    appendInt (Z.abs zone / 60) 2 +:+ ":" +:+ appendInt (Z.abs zone mod 60) 2.

(** [t.Format(layout)]. *)
Definition Format (t : Time) (layout : Layout) : string :=
  let '(year, month, day, secs, offset) := localFields t in
  match layout with
  | RFC3339Nano =>
      appendInt year 4 +:+ "-" +:+ appendInt month 2 +:+ "-" +:+ appendInt day 2 +:+
      "T" +:+ appendInt (secs / 3600) 2 +:+ ":" +:+ appendInt (secs mod 3600 / 60) 2 +:+
      ":" +:+ appendInt (secs mod 60) 2 +:+ appendNano (Nanosecond t) +:+ appendZone offset
  | MonthDayYear =>
      nth (Z.to_nat (month - 1)) shortMonthNames EmptyString +:+ " " +:+
      appendInt day 0 +:+ " " +:+ appendInt year 4
  end.

Definition charAt (s : string) (i : nat) (c : ascii) : bool :=
  match String.get i s with
  | Some c' => Ascii.eqb c' c
  | None => false
  end.

(** The fractional second [s] starts with, if any, in nanoseconds (digits
    after the ninth are dropped), and the rest of [s]. *)
Definition parseFraction (s : string) : Z * string :=
  match s with
  | String dot (String c _ as ds) =>
      if Ascii.eqb dot "." && isDigit c then
        let '(frac, rest) := spanDigits ds in
        let frac := take 9 frac in
        match digitsValue 0 frac with
        | Some v => (v * 10 ^ (9 - Z.of_nat (String.length frac)), rest)
        | None => (0, rest)
        end
      else (0, s)
  | _ => (0, s)
  end.

(** [s] starts with neither a digit nor a point. *)
Definition noFraction (s : string) : Prop :=
  match s with
  | String c _ => isDigit c = false ∧ Ascii.eqb c "." = false
  | EmptyString => True
  end.

(** [parseRFC3339(s, local)] of time/format_rfc3339.go. *)
Definition parseRFC3339 (s : string) (local : Location) : option Time :=
  if (String.length s <? 19)%nat then None else
  year ← parseUint (substring 0 4 s) 0 9999;
  month ← parseUint (substring 5 2 s) 1 12;
  day ← parseUint (substring 8 2 s) 1 (daysIn month year);
  hour ← parseUint (substring 11 2 s) 0 23;
  min ← parseUint (substring 14 2 s) 0 59;
  sec ← parseUint (substring 17 2 s) 0 59;
  if negb (charAt s 4 "-" && charAt s 7 "-" && charAt s 10 "T" &&
           charAt s 13 ":" && charAt s 16 ":") then None else
  let '(nsec, s) := parseFraction (drop 19 s) in
  let t := Date year month day hour min sec nsec UTC in
  if String.eqb s "Z" then Some t else
  if negb (String.length s =? 6)%nat then None else
  hr ← parseUint (substring 1 2 s) 0 23;
  mm ← parseUint (substring 4 2 s) 0 59;
  if negb ((charAt s 0 "-" || charAt s 0 "+") && charAt s 3 ":") then None else
  let zoneOff := if charAt s 0 "-" then - ((hr * 60 + mm) * 60) else (hr * 60 + mm) * 60 in
  let instant := unixNano t - zoneOff * 1000000000 in
  Some {| unixNano := instant;
          loc := if zoneOffset local (instant / 1000000000) =? zoneOff
                 then local else FixedZone zoneOff |}.

Fixpoint lookupName (names : list string) (v : string) (i : Z) : option Z :=
  match names with
  | [] => None
  | n :: rest => if String.eqb n v then Some i else lookupName rest v (i + 1)
  end.

(** Reading the layout "Jan 2 2006": a month name, a day of one or two
    digits and a year of four, separated by one space each. *)
Definition parseMonthDayYear (s : string) (l : Location) : option Time :=
  month ← lookupName shortMonthNames (take 3 s) 1;
  if negb (charAt s 3 " ") then None else
  let '(ds, s) := spanDigits (drop 4 s) in
  day ← parseUint ds 0 99;
  if negb ((1 <=? Z.of_nat (String.length ds)) && (Z.of_nat (String.length ds) <=? 2)) then None else
  if negb (charAt s 0 " ") then None else
  if negb (String.length s =? 5)%nat then None else
  year ← parseUint (drop 1 s) 0 9999;
  if (day <? 1) || (daysIn month year <? day) then None else
  Some (Date year month day 0 0 0 0 l).

(** [parse(layout, value, defaultLocation, local)]: on an error the zero
    [Time] comes with it.  For [RFC3339Nano] this is the reader
    [parseRFC3339] that [Parse] tries first; the reader driven by the
    layout, which [Parse] falls back to and which takes a few more
    spellings (an hour of one digit, a comma before the fraction), is not
    modelled, and such a value is an error here. *)
Definition parse (layout : Layout) (value : string) (defaultLocation local : Location)
  : Time * option error :=
  match
    match layout with
    | RFC3339Nano => parseRFC3339 value local
    | MonthDayYear => parseMonthDayYear value defaultLocation
    end
  with
  | Some t => (t, None)
  | None => (zero, Some ("parsing time " +:+ value +:+ ": cannot parse")%string)
  end.

(** [time.Parse(layout, value)]; [Local] is the system's local zone. *)
Definition Parse (Local : Location) (layout : Layout) (value : string) : Time * option error :=
  parse layout value UTC Local.

(** [time.ParseInLocation(layout, value, loc)]. *)
Definition ParseInLocation (layout : Layout) (value : string) (l : Location)
  : Time * option error :=
  parse layout value l l.

End time.

(** ** Package [net/url] *)
Module url.

Definition unreserved (c : ascii) : bool :=
  let n := Z.of_nat (nat_of_ascii c) in
  ((48 <=? n) && (n <=? 57)) || ((65 <=? n) && (n <=? 90)) ||
  ((97 <=? n) && (n <=? 122)) ||
  Ascii.eqb c "-" || Ascii.eqb c "_" || Ascii.eqb c "." || Ascii.eqb c "~".

Definition upperhex (d : Z) : ascii :=
  if d <? 10 then ascii_of_nat (48 + Z.to_nat d) else ascii_of_nat (55 + Z.to_nat d).

(** [url.QueryEscape]: a space becomes [+], every byte that is not
    unreserved becomes [%XX]. *)
Fixpoint QueryEscape (s : string) : string :=
  match s with
  | EmptyString => EmptyString
  | String c rest =>
      if unreserved c then String c (QueryEscape rest)
      else if Ascii.eqb c " " then String "+" (QueryEscape rest)
      else
        let n := Z.of_nat (nat_of_ascii c) in
        String "%" (String (upperhex (n / 16)) (String (upperhex (n mod 16)) (QueryEscape rest)))
  end.

End url.

(** ** The environment of the process

    A monad of state and panics over the world the process runs in: the wall
    clock, the files, the terminal and the remote end of the network. *)
Module sys.

(** How a call ends: it returns, it panics, or it never returns (a
    goroutine waiting for a mutex that is never released). *)
Inductive Result (A : Type) : Type :=
| Return (a : A)
| Panic (msg : string)
| Blocked.
Arguments Return {A} a.
Arguments Panic {A} msg.
Arguments Blocked {A}.

Definition M (S A : Type) : Type := S → Result A * S.

Definition ret {S A} (a : A) : M S A := fun s => (Return a, s).

Definition bind {S A B} (c : M S A) (k : A → M S B) : M S B :=
  fun s =>
    match c s with
    | (Return a, s') => k a s'
    | (Panic msg, s') => (Panic msg, s')
    | (Blocked, s') => (Blocked, s')
    end.

Definition panic {S A} (msg : string) : M S A := fun s => (Panic msg, s).

Definition get {S} : M S S := fun s => (Return s, s).
Definition put {S} (s : S) : M S unit := fun _ => (Return tt, s).

(** [defer]: the deferred call runs when the body has returned or
    panicked; a panic of the deferred call replaces the outcome. *)
Definition defer {S A} (deferred : M S unit) (body : M S A) : M S A :=
  fun s =>
    match body s with
    | (Blocked, s') => (Blocked, s')
    | (r, s') =>
        match deferred s' with
        | (Return _, s'') => (r, s'')
        | (Panic msg, s'') => (Panic msg, s'')
        | (Blocked, s'') => (Blocked, s'')
        end
    end.

(** What is on a path of the file system. *)
Inductive Node : Type :=
| File (content : string)
| Dir.

(** An open file: an [*os.File] is an index into the table of these. *)
Record OpenFile : Type := { path : string; offset : nat }.

(** What the remote end does with one GET: the request fails in
    transport, or a response arrives whose body can be read in full or
    breaks off with an error. *)
Inductive Reply : Type :=
| Refused (err : error)
| Answered (body : string)
| Truncated (err : error).

Record Exchange : Type := { latency : time.Duration; reply : Reply }.

(** What the process does that can be seen from outside, or that orders
    its steps. *)
Inductive Event : Type :=
| Locked
| Unlocked
| Slept (d : time.Duration)
| Requested (url : string)
| BodyClosed
| Printed (text : string)
| Wrote (file : string) (bytes : string).

Record World : Type := {
  clock : Z;                      (* wall clock, nanoseconds since the Unix epoch *)
  Local : time.Location;          (* the system's time zone *)
  zoneinfo : bool;                (* is the zone database installed *)
  disk : gmap string Node;
  files : list OpenFile;          (* the open files *)
  stdin : list string;            (* the lines still to be typed *)
  network : list Exchange;        (* what the coming GETs will meet *)
  trace : list Event              (* newest first *)
}.

Definition setClock (w : World) (c : Z) : World :=
  {| clock := c; Local := Local w; zoneinfo := zoneinfo w; disk := disk w;
     files := files w; stdin := stdin w; network := network w; trace := trace w |}.
Definition setDisk (w : World) (d : gmap string Node) : World :=
  {| clock := clock w; Local := Local w; zoneinfo := zoneinfo w; disk := d;
     files := files w; stdin := stdin w; network := network w; trace := trace w |}.
Definition setFiles (w : World) (f : list OpenFile) : World :=
  {| clock := clock w; Local := Local w; zoneinfo := zoneinfo w; disk := disk w;
     files := f; stdin := stdin w; network := network w; trace := trace w |}.
Definition setStdin (w : World) (i : list string) : World :=
  {| clock := clock w; Local := Local w; zoneinfo := zoneinfo w; disk := disk w;
     files := files w; stdin := i; network := network w; trace := trace w |}.
Definition setNetwork (w : World) (n : list Exchange) : World :=
  {| clock := clock w; Local := Local w; zoneinfo := zoneinfo w; disk := disk w;
     files := files w; stdin := stdin w; network := n; trace := trace w |}.
Definition emit (e : Event) (w : World) : World :=
  {| clock := clock w; Local := Local w; zoneinfo := zoneinfo w; disk := disk w;
     files := files w; stdin := stdin w; network := network w; trace := e :: trace w |}.

(** [time.Now()]. *)
Definition Now : M World time.Time :=
  fun w => (Return {| time.unixNano := clock w; time.loc := Local w |}, w).

(** [time.Since(t)] is [time.Now().Sub(t)]. *)
Definition Since (t : time.Time) : M World time.Duration :=
  bind Now (fun now => ret (time.Sub now t)).

(** [time.Sleep(d)] returns at once for a duration that is not positive,
    and after exactly [d] otherwise. *)
Definition Sleep (d : time.Duration) : M World unit :=
  fun w => (Return tt, emit (Slept d) (setClock w (clock w + Z.max 0 d))).

(** [time.LoadLocation(name)]. *)
Definition LoadLocation (name : string) : M World (time.Location * option error) :=
  fun w => (Return (time.LoadLocation (zoneinfo w) name), w).

(** [time.Parse(layout, value)], which consults the local zone. *)
Definition Parse (layout : time.Layout) (value : string) : M World (time.Time * option error) :=
  fun w => (Return (time.Parse (Local w) layout value), w).

End sys.

Declare Scope go_scope.
Delimit Scope go_scope with go.
Notation "x <- c1 ;; c2" := (sys.bind c1 (fun x => c2))
  (at level 20, c1 at level 99, c2 at level 200, right associativity) : go_scope.
Notation "' pat <- c1 ;; c2" := (sys.bind c1 (fun x => match x with pat => c2 end))
  (at level 20, pat pattern, c1 at level 99, c2 at level 200, right associativity) : go_scope.
Notation "c1 ;; c2" := (sys.bind c1 (fun _ => c2))
  (at level 100, c2 at level 200, right associativity) : go_scope.

(** ** Package [os], and [ioutil.ReadFile] *)
Module os.
Import sys.

Inductive Errno : Type := ENOENT | EISDIR | EBADF | EINVAL.

Record PathError : Type := { Op : string; Path : string; Err : Errno }.

Definition message (e : PathError) : error :=
  Op e +:+ " " +:+ Path e +:+ ": " +:+
  match Err e with
  | ENOENT => "no such file or directory"
  | EISDIR => "is a directory"
  | EBADF => "file already closed"
  | EINVAL => "invalid argument"
  end.

Definition IsNotExist (e : PathError) : bool :=
  match Err e with ENOENT => true | _ => false end.

(** [ioutil.ReadFile(filename)]. *)
Definition ReadFile (filename : string) : M World (string * option PathError) :=
  fun w =>
    match disk w !! filename with
    | Some (File content) => (Return (content, None), w)
    | Some Dir => (Return (EmptyString, Some {| Op := "read"; Path := filename; Err := EISDIR |}), w)
    | None => (Return (EmptyString, Some {| Op := "open"; Path := filename; Err := ENOENT |}), w)
    end.

(** [os.Create(name)]: the file is created, or truncated if it exists,
    and opened at offset 0.  An [*os.File] is [Some] index into the open
    files, and [None] is the nil pointer. *)
Definition Create (name : string) : M World (option nat * option PathError) :=
  fun w =>
    match disk w !! name with
    | Some Dir => (Return (None, Some {| Op := "open"; Path := name; Err := EISDIR |}), w)
    | _ =>
        (Return (Some (length (files w)), None),
         setFiles (setDisk w (<[name := File EmptyString]> (disk w)))
                  (files w ++ [{| path := name; offset := 0 |}]))
    end.

(** [f.Seek(offset, 0)]: the offset is taken from the start of the file. *)
Definition Seek (f : option nat) (off : Z) : M World (Z * option PathError) :=
  fun w =>
    match f with
    | None => (Return (0, Some {| Op := "seek"; Path := EmptyString; Err := EINVAL |}), w)
    | Some fd =>
        match files w !! fd with
        | None => (Return (0, Some {| Op := "seek"; Path := EmptyString; Err := EBADF |}), w)
        | Some o =>
            if off <? 0
            then (Return (0, Some {| Op := "seek"; Path := path o; Err := EINVAL |}), w)
            else (Return (off, None),
                  setFiles w (<[fd := {| path := path o; offset := Z.to_nat off |}]> (files w)))
        end
    end.

(** The bytes of a file after [bytes] are written at offset [pos]: what
    lies before [pos] and what lies behind the written bytes stays (a gap
    before [pos] reads as zero bytes). *)
Fixpoint overwrite (pos : nat) (bytes old : string) : string :=
  match pos with
  | O => bytes +:+ slice.drop (String.length bytes) old
  | S p =>
      match old with
      | EmptyString => String zero (overwrite p bytes EmptyString)
      | String c rest => String c (overwrite p bytes rest)
      end
  end.

(** [f.Write(b)]: at the offset of the open file, which then advances. *)
Definition Write (f : option nat) (b : string) : M World (Z * option PathError) :=
  fun w =>
    match f with
    | None => (Return (0, Some {| Op := "write"; Path := EmptyString; Err := EINVAL |}), w)
    | Some fd =>
        match files w !! fd with
        | None => (Return (0, Some {| Op := "write"; Path := EmptyString; Err := EBADF |}), w)
        | Some o =>
            match disk w !! path o with
            | Some (File old) =>
                (Return (Z.of_nat (String.length b), None),
                 emit (Wrote (path o) b)
                   (setFiles
                      (setDisk w (<[path o := File (overwrite (offset o) b old)]> (disk w)))
                      (<[fd := {| path := path o; offset := offset o + String.length b |}]>
                         (files w))))
            | _ => (Return (0, Some {| Op := "write"; Path := path o; Err := EBADF |}), w)
            end
        end
    end.

End os.

(** ** Package [net/http], and [ioutil.ReadAll] on the body *)
Module http.
Import sys.

(** A response: what reading its body to the end gives. *)
Record Response : Type := { Body : string * option error }.

Definition noResponse : Response := {| Body := (EmptyString, None) |}.

(** [http.Get(url)]: the next exchange of the network, after its
    latency; a network with nothing left refuses. *)
Definition Get (url : string) : M World (Response * option error) :=
  fun w =>
    match network w with
    | [] => (Return (noResponse, Some ("Get " +:+ url +:+ ": connection refused")%string),
             emit (Requested url) w)
    | x :: rest =>
        let w' := emit (Requested url)
                    (setNetwork (setClock w (clock w + Z.max 0 (latency x))) rest) in
        match reply x with
        | Refused e => (Return (noResponse, Some e), w')
        | Answered body => (Return ({| Body := (body, None) |}, None), w')
        | Truncated e => (Return ({| Body := (EmptyString, Some e) |}, None), w')
        end
    end.

(** [ioutil.ReadAll(resp.Body)]. *)
Definition ReadAll (resp : Response) : M World (string * option error) :=
  ret (Body resp).

(** [resp.Body.Close()]. *)
Definition Close (resp : Response) : M World unit :=
  fun w => (Return tt, emit BodyClosed w).

End http.

(** ** Package [fmt] *)
Module fmt.
Import sys.

Definition Print (text : string) : M World unit :=
  fun w => (Return tt, emit (Printed text) w).

Fixpoint skipSpaces (s : string) : string :=
  match s with
  | String c rest => if Ascii.eqb c " " then skipSpaces rest else s
  | EmptyString => EmptyString
  end.

(** The bytes of [s] up to the first space, and the rest. *)
Fixpoint token (s : string) : string * string :=
  match s with
  | EmptyString => (EmptyString, EmptyString)
  | String c rest =>
      if Ascii.eqb c " " then (EmptyString, s)
      else let '(t, tl) := token rest in (String c t, tl)
  end.

(** [fmt.Scanln(&v)] for a string operand [v] holding [current]: the
    next line of the terminal must hold one word, which is stored; the
    operand is returned with the error. *)
Definition Scanln (current : string) : M World (string * option error) :=
  fun w =>
    match stdin w with
    | [] => (Return (current, Some "EOF"%string), w)
    | line :: rest =>
        let '(word, tl) := token (skipSpaces line) in
        (Return
           (if String.eqb word "" then (current, Some "unexpected newline"%string)
            else if String.eqb (skipSpaces tl) "" then (word, None)
            else (word, Some "expected newline"%string)),
         setStdin w rest)
    end.

(** [fmt.Println(v)] for one operand: its text and a newline. *)
Definition Println (text : string) : M World unit :=
  Print (text +:+ String newline EmptyString).

(** [fmt.Printf("%s", b)]: the bytes of [b]. *)
Definition Printf (b : string) : M World unit := Print b.

End fmt.

(** ** Package [googlegeocode] (geocode.go) *)
Module googlegeocode.
Import sys.
Local Open Scope go_scope.

Definition geocodeURL : string :=
  "https://maps.googleapis.com/maps/api/geocode/json?address=".

(** [type geocoder struct]; [mutex] tells whether the mutex is held. *)
Record geocoder : Type := {
  mutex : bool;
  apiKey : string;
  lastQuery : time.Time;
  queryLimitReached : bool;
  queryLimitExpiration : time.Time;
  fileStore : option nat
}.

(** [geocoder{}]. *)
Definition zeroGeocoder : geocoder :=
  {| mutex := false; apiKey := EmptyString; lastQuery := time.zero;
     queryLimitReached := false; queryLimitExpiration := time.zero;
     fileStore := None |}.

Definition setMutex (g : geocoder) (b : bool) : geocoder :=
  {| mutex := b; apiKey := apiKey g; lastQuery := lastQuery g;
     queryLimitReached := queryLimitReached g;
     queryLimitExpiration := queryLimitExpiration g; fileStore := fileStore g |}.
Definition setApiKey (g : geocoder) (k : string) : geocoder :=
  {| mutex := mutex g; apiKey := k; lastQuery := lastQuery g;
     queryLimitReached := queryLimitReached g;
     queryLimitExpiration := queryLimitExpiration g; fileStore := fileStore g |}.
Definition setLastQuery (g : geocoder) (t : time.Time) : geocoder :=
  {| mutex := mutex g; apiKey := apiKey g; lastQuery := t;
     queryLimitReached := queryLimitReached g;
     queryLimitExpiration := queryLimitExpiration g; fileStore := fileStore g |}.
Definition setQueryLimitReached (g : geocoder) (b : bool) : geocoder :=
  {| mutex := mutex g; apiKey := apiKey g; lastQuery := lastQuery g;
     queryLimitReached := b;
     queryLimitExpiration := queryLimitExpiration g; fileStore := fileStore g |}.
Definition setQueryLimitExpiration (g : geocoder) (t : time.Time) : geocoder :=
  {| mutex := mutex g; apiKey := apiKey g; lastQuery := lastQuery g;
     queryLimitReached := queryLimitReached g;
     queryLimitExpiration := t; fileStore := fileStore g |}.
Definition setFileStore (g : geocoder) (f : option nat) : geocoder :=
  {| mutex := mutex g; apiKey := apiKey g; lastQuery := lastQuery g;
     queryLimitReached := queryLimitReached g;
     queryLimitExpiration := queryLimitExpiration g; fileStore := f |}.

(** [type Results struct]: the payload of the API.  A float64 is carried
    as its bit pattern; the package never computes with one. *)
Definition float64 := Z.
Record AddressComponent : Type :=
  { LongName : string; ShortName : string; ComponentTypes : list string }.
Record LatLng : Type := { Lat : float64; Lng : float64 }.
Record Bounds : Type := { Northeast : LatLng; Southwest : LatLng }.
Record Geometry : Type :=
  { Location : LatLng; LoctionType : string; Viewport : Bounds }.
Record Result : Type := {
  AddressComponents : list AddressComponent;
  FormattedAddress : string;
  ResultGeometry : Geometry;
  PlaceID : string;
  Types : list string
}.
Record Results : Type := { Results_ : list Result; Status : string }.

(** [Results{}]. *)
Definition zeroResults : Results := {| Results_ := []; Status := EmptyString |}.

(** The state of the package: the world and the package-level variable
    [geocoderInstance]. *)
Record State : Type := { world : World; geocoderInstance : geocoder }.

Definition inWorld {A} (c : M World A) : M State A :=
  fun s =>
    let '(r, w) := c (world s) in
    (r, {| world := w; geocoderInstance := geocoderInstance s |}).

Definition instance : M State geocoder :=
  fun s => (Return (geocoderInstance s), s).

Definition assign (g : geocoder) : M State unit :=
  fun s => (Return tt, {| world := world s; geocoderInstance := g |}).

(** [geocoderInstance.mutex.Lock()]: a goroutine that finds the mutex
    held waits. *)
Definition Lock : M State unit :=
  fun s =>
    if mutex (geocoderInstance s) then (Blocked, s)
    else (Return tt, {| world := emit Locked (world s);
                        geocoderInstance := setMutex (geocoderInstance s) true |}).

Definition Unlock : M State unit :=
  fun s => (Return tt, {| world := emit Unlocked (world s);
                          geocoderInstance := setMutex (geocoderInstance s) false |}).

(** [func (g geocoder) string() string] *)
Definition string (g : geocoder) : String.string :=
  let outputLines :=
    [ apiKey g;
      time.Format (lastQuery g) time.RFC3339Nano;
      strconv.FormatBool (queryLimitReached g);
      time.Format (queryLimitExpiration g) time.RFC3339Nano ] in
  strings.Join outputLines (String newline EmptyString).

(** [func (g geocoder) store()] *)
Definition store (g : geocoder) : M World unit :=
  '(_, err) <- os.Seek (fileStore g) 0 ;;
  match err with
  | Some e =>
      panic ("Error writing buffered geocode information to file (" +:+ os.message e +:+ ")")
  | None =>
      '(_, err) <- os.Write (fileStore g) (string g) ;;
      match err with
      | Some e => panic ("Error writing geocode information to file (" +:+ os.message e +:+ ")")
      | None => ret tt
      end
  end.

(** The switch of [newGeocoderFromFile] over the number of lines, with
    its fallthroughs: a case that is entered runs every case below it.
    [err] is assigned by each conversion and read by nobody. *)
Definition restore (splitConent : list String.string) (geocoderInstance : geocoder)
  : M World (geocoder * option error) :=
  let splitContentLength := Z.of_nat (length splitConent) in
  let line i := nth i splitConent EmptyString in
  let enter := 3 <? splitContentLength in
  '(geocoderInstance, err) <-
    (if enter then
       '(t, err) <- Parse time.RFC3339Nano (line 3%nat) ;;
       ret (setQueryLimitExpiration geocoderInstance t, err)
     else ret (geocoderInstance, None)) ;;
  let enter := enter || (splitContentLength =? 3) in
  '(geocoderInstance, err) <-
    (if enter then
       let '(b, err) := strconv.ParseBool (line 2%nat) in
       ret (setQueryLimitReached geocoderInstance b, err)
     else ret (geocoderInstance, err)) ;;
  let enter := enter || (splitContentLength =? 2) in
  '(geocoderInstance, err) <-
    (if enter then
       '(t, err) <- Parse time.RFC3339Nano (line 1%nat) ;;
       ret (setLastQuery geocoderInstance t, err)
     else ret (geocoderInstance, err)) ;;
  let enter := enter || (splitContentLength =? 1) in
  ret (if enter then setApiKey geocoderInstance (line 0%nat) else geocoderInstance, err).

(** Lines 146 to 176 of [newGeocoderFromFile]: the file is read, created
    anew and opened for writing, and the lines it held are restored. *)
Definition loadState (filename : String.string) : M World (geocoder * option error) :=
  '(content, err) <- os.ReadFile filename ;;
  if match err with Some e => negb (os.IsNotExist e) | None => false end
  then ret (zeroGeocoder, option_map os.message err)
  else
    '(f, err) <- os.Create filename ;;
    match err with
    | Some e => ret (zeroGeocoder, Some (os.message e))
    | None =>
        '(g, _) <- restore (strings.Split content newline) (setFileStore zeroGeocoder f) ;;
        ret (g, None)
    end.

(** The loop [for geocoderInstance.apiKey == ""] of lines 179 to 185;
    every turn reads a line of the terminal, which bounds the turns. *)
Fixpoint acquireKey (turns : nat) (geocoderInstance : geocoder)
  : M World (geocoder * option error) :=
  if String.eqb (apiKey geocoderInstance) "" then
    match turns with
    | O => fun w => (Blocked, w)
    | S turns' =>
        fmt.Print "Enter your API key for the Google Geocoding API: " ;;
        '(key, err) <- fmt.Scanln (apiKey geocoderInstance) ;;
        match err with
        | Some e =>
            ret (zeroGeocoder,
                 Some ("An error occured reading response from the prompt 'Enter your API key for the Google Geocoding API:' (" +:+ e +:+ ")"))
        | None => acquireKey turns' (setApiKey geocoderInstance key)
        end
    end
  else ret (geocoderInstance, None).

(** [func newGeocoderFromFile(filename string) (geocoder, error)] *)
Definition newGeocoderFromFile (filename : String.string) : M World (geocoder * option error) :=
  '(geocoderInstance, err) <- loadState filename ;;
  match err with
  | Some e => ret (zeroGeocoder, Some e)
  | None =>
      w <- get ;;
      acquireKey (S (length (stdin w))) geocoderInstance
  end.

(** [func init()] *)
Definition init : M State unit :=
  '(g, err) <- inWorld (newGeocoderFromFile ".geocoder-data") ;;
  assign g ;;
  match err with
  | Some e => panic e
  | None => ret tt
  end.

Definition quotaError : error :=
  "the maximum daily queries have been exceeded, and the limit will be reset at midnight pacific time".

Section GetResults.

(** [json.Unmarshal(body, &results)], for a [results] that is zero
    before the call: any function of the body. *)
Variable Unmarshal : String.string → Results * option error.

(** Lines 119 to 141: the status of the decoded payload. *)
Definition observe (results : Results) : M State (Results * option error) :=
  if String.eqb (Status results) "OVER_QUERY_LIMIT" then
    g <- instance ;;
    assign (setQueryLimitReached g true) ;;
    '(pacificTimezone, err) <- inWorld (LoadLocation "America/Los_Angeles") ;;
    match err with
    | Some e =>
        panic ("Could not find the timezone for 'America/Los_Angeles' which is needed to set limit expiration (" +:+ e +:+ ")")
    | None =>
        now <- inWorld Now ;;
        let '(beginingOfDayPacific, err) :=
          time.ParseInLocation time.MonthDayYear
            (time.Format (time.In now pacificTimezone) time.MonthDayYear)
            pacificTimezone in
        match err with
        | Some e =>
            panic ("Could not parse date when calculateding query (" +:+ e +:+ ")")
        | None =>
            g <- instance ;;
            assign (setQueryLimitExpiration g (time.Add beginingOfDayPacific (time.Hour * 24))) ;;
            ret (zeroResults, Some quotaError)
        end
    end
  else ret (results, None).

(** Lines 94 to 117: the pause, the request, and the decoding. *)
Definition exchange (address : String.string) : M State (Results * option error) :=
  g <- instance ;;
  elapsed <- inWorld (Since (lastQuery g)) ;;
  inWorld (Sleep (time.wrap64 (20 * time.Millisecond - elapsed))) ;;
  '(resp, err) <-
    inWorld (http.Get (geocodeURL +:+ url.QueryEscape address +:+ "&key=" +:+ apiKey g)) ;;
  match err with
  | Some e => ret (zeroResults, Some ("Error geocoding address: <" +:+ e +:+ ">"))
  | None =>
      defer (inWorld (http.Close resp))
        (now <- inWorld Now ;;
         g <- instance ;;
         assign (setLastQuery g now) ;;
         '(body, err) <- inWorld (http.ReadAll resp) ;;
         match err with
         | Some e => ret (zeroResults, Some ("Error decoding geocoder result: <" +:+ e +:+ ">"))
         | None =>
             let '(results, err) := Unmarshal body in
             match err with
             | Some e =>
                 ret (zeroResults, Some ("Error unmarshaling geocoder result: <" +:+ e +:+ ">"))
             | None => observe results
             end
         end)
  end.

(** Lines 84 to 141: the body of [GetResults] under the mutex. *)
Definition admit_ (address : String.string) : M State (Results * option error) :=
  g <- instance ;;
  if queryLimitReached g then
    now <- inWorld Now ;;
    if time.Before now (queryLimitExpiration g) then ret (zeroResults, Some quotaError)
    else
      assign (setQueryLimitReached g false) ;;
      exchange address
  else exchange address.

(** [func GetResults(address string) (results Results, err error)]

    [defer geocoderInstance.store()] comes first: [store] has a value
    receiver, so the receiver is the copy of [geocoderInstance] made
    when the [defer] statement runs, and the call itself runs last,
    after the deferred [Unlock]. *)
Definition GetResults (address : String.string) : M State (Results * option error) :=
  receiver <- instance ;;
  defer (inWorld (store receiver))
    (Lock ;;
     defer Unlock (admit_ address)).

End GetResults.

End googlegeocode.

(** ** Package [googlegeocode_test] (example_test.go) *)
Module googlegeocode_test.
Import sys googlegeocode.
Local Open Scope go_scope.

(** A set of addresses that we wish to geocode. *)
Definition addresses : list String.string :=
  [ "704 S 2nd St, Minneapolis, MN 55401";
    "200, Tower Ave, St Paul, MN 55111";
    "240 Summit Ave, St Paul, MN 55102";
    "239 Selby Ave, St Paul, MN 55102";
    "75 Rev Dr Martin Luther King Jr Boulevard., St Paul, MN 55155" ]%string.

Section ExampleGetResults.

Variable Unmarshal : String.string → Results * option error.

(** [json.MarshalIndent] with the indentation of the example: any
    function of the results. *)
Variable MarshalIndent : list Results → String.string * option error.

(** The loop [for index, address := range addresses] from [index] on:
    the payload of every call is stored at its index, and an error is
    printed. *)
Fixpoint queries (index : nat) (addresses : list String.string) (results : list Results)
  : M State (list Results) :=
  match addresses with
  | [] => ret results
  | address :: rest =>
      '(r, err) <- GetResults Unmarshal address ;;
      let results := <[index := r]> results in
      match err with
      | Some e => inWorld (fmt.Println e)
      | None => ret tt
      end ;;
      queries (S index) rest results
  end.

(** [func ExampleGetResults()] *)
Definition ExampleGetResults : M State unit :=
  let results := replicate (length addresses) zeroResults in
  results <- queries 0 addresses results ;;
  let '(jsonBytes, err) := MarshalIndent results in
  match err with
  | Some e => panic e
  | None => inWorld (fmt.Printf jsonBytes)
  end.

End ExampleGetResults.

End googlegeocode_test.

(** ** The vocabulary of the specification *)
Module spec.
Import sys googlegeocode.
Local Open Scope go_scope.

(** A time that RFC 3339 can write: a year of four digits in its own
    zone, and an offset of whole minutes within a day. *)
Definition representable (t : time.Time) : bool :=
  let '(year, _, _, _, offset) := time.localFields t in
  (0 <=? year) && (year <=? 9999) && (offset mod 60 =? 0) && (Z.abs offset <? 86400).

(** The same instant, presented with the same offset. *)
Definition sameTime (t u : time.Time) : Prop :=
  time.unixNano t = time.unixNano u ∧
  time.zoneOffset (time.loc t) (time.unixSec t) = time.zoneOffset (time.loc u) (time.unixSec u).

(** The StateRecord of a [geocoder]: its four persisted fields. *)
Definition sameRecord (g g' : geocoder) : Prop :=
  apiKey g = apiKey g' ∧ sameTime (lastQuery g) (lastQuery g') ∧
  queryLimitReached g = queryLimitReached g' ∧
  sameTime (queryLimitExpiration g) (queryLimitExpiration g').

(** The record that the lines of a state file stand for: the credential,
    [lastQuery], [queryLimitReached] and [queryLimitExpiration] in this
    order, the zero value for a line that is missing or does not parse,
    and no meaning for a line after the fourth. *)
Definition recordOfLines (Local : time.Location) (lines : list String.string) : geocoder :=
  {| mutex := false;
     apiKey := nth 0 lines EmptyString;
     lastQuery :=
       match lines with
       | _ :: l2 :: _ => fst (time.Parse Local time.RFC3339Nano l2)
       | _ => time.zero
       end;
     queryLimitReached :=
       match lines with
       | _ :: _ :: l3 :: _ => fst (strconv.ParseBool l3)
       | _ => false
       end;
     queryLimitExpiration :=
       match lines with
       | _ :: _ :: _ :: l4 :: _ => fst (time.Parse Local time.RFC3339Nano l4)
       | _ => time.zero
       end;
     fileStore := None |}.

(** A line of a file: no newline in it. *)
Definition isLine (l : String.string) : bool := negb (strings.ContainsRune l newline).

(** The content of a regular file. *)
Definition fileContent (w : World) (name : String.string) : option String.string :=
  match disk w !! name with
  | Some (File content) => Some content
  | _ => None
  end.

(** The file behind [fileStore]. *)
Definition storeFile (s : State) : option String.string :=
  f ← fileStore (geocoderInstance s);
  o ← files (world s) !! f;
  fileContent (world s) (path o).

(** The package is initialised and idle: the mutex is free and
    [fileStore] is an open regular file. *)
Definition ready (s : State) : bool :=
  negb (mutex (geocoderInstance s)) &&
  match storeFile s with Some _ => true | None => false end.

(** The state in which the body of [GetResults] starts: the mutex has
    just been taken. *)
Definition locked (s : State) : State :=
  {| world := emit Locked (world s);
     geocoderInstance := setMutex (geocoderInstance s) true |}.

(** What the body of [GetResults] leaves alone. *)
Record Frame (s s' : State) : Prop := {
  frame_disk : disk (world s') = disk (world s);
  frame_files : files (world s') = files (world s);
  frame_stdin : stdin (world s') = stdin (world s);
  frame_Local : Local (world s') = Local (world s);
  frame_zoneinfo : zoneinfo (world s') = zoneinfo (world s);
  frame_fileStore : fileStore (geocoderInstance s') = fileStore (geocoderInstance s);
  frame_apiKey : apiKey (geocoderInstance s') = apiKey (geocoderInstance s);
  frame_mutex : mutex (geocoderInstance s') = mutex (geocoderInstance s)
}.

(** The URLs of the GET requests in a trace, newest first. *)
Fixpoint requests (tr : list Event) : list String.string :=
  match tr with
  | [] => []
  | Requested u :: rest => u :: requests rest
  | _ :: rest => requests rest
  end.

(** The durations of the pauses in a trace, newest first. *)
Fixpoint pauses (tr : list Event) : list time.Duration :=
  match tr with
  | [] => []
  | Slept d :: rest => d :: pauses rest
  | _ :: rest => pauses rest
  end.

(** The process does nothing for [d] nanoseconds. *)
Definition idle (d : time.Duration) : M State unit :=
  fun s => (Return tt, {| world := setClock (world s) (clock (world s) + Z.max 0 d);
                          geocoderInstance := geocoderInstance s |}).

(** A run of calls of [GetResults], each after an idle time. *)
Fixpoint session (Unmarshal : String.string → Results * option error)
    (calls : list (time.Duration * String.string))
  : M State (list (Results * option error)) :=
  match calls with
  | [] => ret []
  | (d, address) :: rest =>
      idle d ;;
      r <- GetResults Unmarshal address ;;
      rs <- session Unmarshal rest ;;
      ret (r :: rs)
  end.

(** The idle times of a run, summed. *)
Fixpoint idleTime (calls : list (time.Duration * String.string)) : Z :=
  match calls with
  | [] => 0
  | (d, _) :: rest => Z.max 0 d + idleTime rest
  end.

(** The next local midnight: 00:00 of the day after the calendar day of
    [now] in the location [l]. *)
Definition nextLocalMidnight (l : time.Location) (now : time.Time) : time.Time :=
  let '(year, month, day, _, _) := time.localFields (time.In now l) in
  time.Date year month (day + 1) 0 0 0 0 l.

(** The coming GET is answered, and the answer decodes to a payload
    with the status OVER_QUERY_LIMIT. *)
Definition answersOverLimit (Unmarshal : String.string → Results * option error)
    (w : World) : bool :=
  match network w with
  | x :: _ =>
      match reply x with
      | Answered body =>
          match Unmarshal body with
          | (results, None) => String.eqb (Status results) "OVER_QUERY_LIMIT"
          | (_, Some _) => false
          end
      | _ => false
      end
  | [] => false
  end.

(** The coming GET fails in transport, with this error. *)
Definition transportError (url : String.string) (w : World) : option error :=
  match network w with
  | x :: _ =>
      match reply x with
      | Refused e => Some e
      | _ => None
      end
  | [] => Some ("Get " +:+ url +:+ ": connection refused")
  end.

(** The latency of the coming GET. *)
Definition nextLatency (w : World) : Z :=
  match network w with
  | x :: _ => Z.max 0 (latency x)
  | [] => 0
  end.

(** The URL [GetResults] requests for an address. *)
Definition requestURL (g : geocoder) (address : String.string) : String.string :=
  geocodeURL +:+ url.QueryEscape address +:+ "&key=" +:+ apiKey g.

(** The quota gate is open at the clock of the world: the limit was not
    reached, or it has expired. *)
Definition gateOpen (s : State) : bool :=
  negb (queryLimitReached (geocoderInstance s)) ||
  negb (time.Before {| time.unixNano := clock (world s); time.loc := Local (world s) |}
          (queryLimitExpiration (geocoderInstance s))).

(** The start of the calendar day of [now] in the location [l]. *)
Definition localDayStart (l : time.Location) (now : time.Time) : time.Time :=
  let '(year, month, day, _, _) := time.localFields (time.In now l) in
  time.Date year month day 0 0 0 0 l.

(** The year of [t] in the location [l] has four digits. *)
Definition fourDigitYear (l : time.Location) (t : time.Time) : bool :=
  let '(year, _, _, _, _) := time.localFields (time.In t l) in
  (0 <=? year) && (year <=? 9999).

(** The pause [GetResults] asks for when it finds [lastQuery] at [now]. *)
Definition pacing (lastQuery now : time.Time) : time.Duration :=
  time.wrap64 (20 * time.Millisecond - time.Sub now lastQuery).

(** The prompt of [newGeocoderFromFile], and the error it returns when
    the answer cannot be read. *)
Definition prompt : String.string := "Enter your API key for the Google Geocoding API: ".

Definition promptError (e : error) : error :=
  "An error occured reading response from the prompt 'Enter your API key for the Google Geocoding API:' (" +:+ e +:+ ")".

(** A word: not empty, and no space in it. *)
Definition isWord (s : String.string) : bool :=
  negb (String.eqb s "") && negb (strings.ContainsRune s " ").

(** The state in which the request of a call starts when the quota
    gate is open: the mutex is held and the flag is clear. *)
Definition opened (s : State) : State :=
  {| world := emit Locked (world s);
     geocoderInstance := setQueryLimitReached (setMutex (geocoderInstance s) true) false |}.

(** When the response to the coming request of a call arrives: after
    the pause of the call and the latency of the GET. *)
Definition arrival (s : State) : time.Time :=
  let now := {| time.unixNano := clock (world s); time.loc := Local (world s) |} in
  {| time.unixNano :=
       clock (world s) + Z.max 0 (pacing (lastQuery (geocoderInstance s)) now) +
       nextLatency (world s);
     time.loc := Local (world s) |}.

(** The coming GET gets a response that cannot be used: its body breaks
    off, or it does not decode.  The error [GetResults] makes of it. *)
Definition unusable (Unmarshal : String.string → Results * option error)
    (w : World) : option error :=
  match network w with
  | x :: _ =>
      match reply x with
      | Truncated e => Some ("Error decoding geocoder result: <" +:+ e +:+ ">")
      | Answered body =>
          match Unmarshal body with
          | (_, Some e) => Some ("Error unmarshaling geocoder result: <" +:+ e +:+ ">")
          | (_, None) => None
          end
      | Refused _ => None
      end
  | [] => None
  end.

(** The coming GET is answered with a body that decodes to [results]. *)
Definition answers (Unmarshal : String.string → Results * option error)
    (w : World) (results : Results) : Prop :=
  ∃ x rest body, network w = x :: rest ∧ reply x = Answered body ∧
                 Unmarshal body = (results, None).

(** The calendar day of [t] in the location [l], as a day number. *)
Definition localDay (l : time.Location) (t : time.Time) : Z :=
  (time.unixSec t + time.zoneOffset l (time.unixSec t)) / 86400.

(** The two days of a year on which America/Los_Angeles changes its
    clocks: the second Sunday of March, a day of 23 hours, and the first
    Sunday of November, a day of 25 hours. *)
Definition springForward (day : Z) : bool :=
  let '(year, _, _) := calendar.civilFromDays day in
  day =? calendar.sundayOnOrAfter (calendar.daysFromCivil year 3 8).

Definition fallBack (day : Z) : bool :=
  let '(year, _, _) := calendar.civilFromDays day in
  day =? calendar.sundayOnOrAfter (calendar.daysFromCivil year 11 1).

(** What a trace shows as printed, newest first. *)
Fixpoint printed (tr : list Event) : list String.string :=
  match tr with
  | [] => []
  | Printed text :: rest => text :: printed rest
  | _ :: rest => printed rest
  end.

(** The responses in a trace: each one has its body closed once. *)
Fixpoint responses (tr : list Event) : nat :=
  match tr with
  | [] => 0
  | BodyClosed :: rest => S (responses rest)
  | _ :: rest => responses rest
  end.

End spec.

(** ** Concrete runs, for the examples *)
Module demo.
Import sys googlegeocode.

(** A decoder that takes the body for the status, and fails on one body. *)
Definition decode (body : String.string) : Results * option error :=
  if String.eqb body "garbage" then (zeroResults, Some "invalid character"%string)
  else ({| Results_ := []; Status := body |}, None).

(** A machine in UTC with an empty disk, a user who will type [KEY], and
    the given clock and network. *)
Definition machine (now : Z) (net : list Exchange) : World :=
  {| clock := now; Local := time.UTC; zoneinfo := true; disk := ∅; files := [];
     stdin := ["KEY"%string]; network := net; trace := [] |}.

(** The same machine with a state file left by an earlier process. *)
Definition machineWith (content : String.string) (now : Z) (net : list Exchange) : World :=
  setDisk (machine now net) (<[".geocoder-data"%string := File content]> ∅).

(** The package after [init] in a world. *)
Definition started (w : World) : State :=
  snd (init {| world := w; geocoderInstance := zeroGeocoder |}).

(** The state after a call of [GetResults]. *)
Definition after (address : String.string) (s : State) : State :=
  snd (GetResults decode address s).

(** 2024-11-04T07:30:00Z, which is 23:30 on November 3 in Los Angeles,
    the day daylight time ends. *)
Definition nov3_2330_pst : Z := 1730705400 * 1000000000.

(** 2024-05-01T12:00:00Z. *)
Definition may1_noon : Z := 1714564800 * 1000000000.

Definition answer (lat : Z) (body : String.string) : Exchange :=
  {| latency := lat; reply := Answered body |}.

Definition refuse : Exchange := {| latency := 1000000; reply := Refused "timeout" |}.

Definition address : String.string := "1600 Amphitheatre Parkway, Mountain View, CA".

(** A fresh start, and a first request that will be answered OK after
    5 ms. *)
Definition firstCall : State := started (machine may1_noon [answer 5000000 "OK"]).

(** A fresh start, and a first request that will be refused. *)
Definition refused : State := started (machine may1_noon [refuse]).

(** The package after a request that was answered OVER_QUERY_LIMIT at
    noon UTC of May 1. *)
Definition overLimit : State :=
  after address
    (started (machine may1_noon [answer 0 "OVER_QUERY_LIMIT"; answer 0 "OK"])).

(** A state file that records a quota exceeded on April 30, with a limit
    that expired at 07:00 UTC of May 1. *)
Definition expiredContent : String.string :=
  strings.Join ["KEY"; "2024-04-30T12:00:00Z"; "true"; "2024-05-01T07:00:00Z"]%string
    (String newline EmptyString).

(** A start from that file at noon of May 1, and a request that will be
    refused. *)
Definition expired : State := started (machineWith expiredContent may1_noon [refuse]).

(** A state file of three lines. *)
Definition threeLines : list String.string :=
  ["KEY"; "2024-04-30T12:00:00Z"; "true"]%string.

(** Three requests: the first response arrives at 12:00:00.123456789,
    the second at 12:00:01 sharp. *)
Definition threeCalls : State :=
  started (machine may1_noon [answer 123456789 "OK"; answer 856543211 "OK"; answer 0 "OK"]).

(** A request answered OVER_QUERY_LIMIT at 23:30 Pacific time of the day
    daylight time ends. *)
Definition transitionDay : State :=
  started (machine nov3_2330_pst [answer 0 "OVER_QUERY_LIMIT"]).

(** 2024-03-10T20:00:00Z, which is 13:00 Pacific time of the day daylight
    time begins. *)
Definition mar10_1300_pdt : Z := 1710100800 * 1000000000.

Definition springDay : State :=
  started (machine mar10_1300_pdt [answer 0 "OVER_QUERY_LIMIT"]).

(** A record whose [lastQuery] is the first instant of the year 10000. *)
Definition farFuture : geocoder :=
  {| mutex := false; apiKey := "KEY";
     lastQuery := {| time.unixNano := 253402300800 * 1000000000; time.loc := time.UTC |};
     queryLimitReached := false; queryLimitExpiration := time.zero; fileStore := None |}.

(** The record and the world that [newGeocoderFromFile] gives. *)
Definition loaded (w : World) : geocoder :=
  match fst (newGeocoderFromFile ".geocoder-data" w) with
  | Return (g, _) => g
  | _ => zeroGeocoder
  end.

(** A machine without the zone database. *)
Definition bareMachine (now : Z) (net : list Exchange) : World :=
  {| clock := now; Local := time.UTC; zoneinfo := false; disk := ∅; files := [];
     stdin := ["KEY"%string]; network := net; trace := [] |}.

(** A machine whose terminal is at its end. *)
Definition unattended (now : Z) : World := setStdin (machine now []) [].

(** A stand-in for [json.MarshalIndent]: the statuses of the payloads,
    each on a line. *)
Definition marshal (results : list Results) : String.string * option error :=
  (strings.Join (map Status results) (String newline EmptyString), None).

(** A fresh start, and a first request that will be answered
    OVER_QUERY_LIMIT at noon UTC of May 1. *)
Definition quotaHit : State :=
  started (machine may1_noon [answer 0 "OVER_QUERY_LIMIT"; answer 0 "OK"]).

(** A fresh start, and a first request whose answer does not decode. *)
Definition garbled : State := started (machine may1_noon [answer 0 "garbage"]).

(** A fresh start on a machine without the zone database, and a first
    request that will be answered OVER_QUERY_LIMIT. *)
Definition noZones : State := started (bareMachine may1_noon [answer 0 "OVER_QUERY_LIMIT"]).

(** A start from a state file whose [lastQuery] is in the year 9999, and
    a request that will be answered OK. *)
Definition farAhead : State :=
  started (machineWith
             (strings.Join ["KEY"; "9999-01-01T00:00:00Z"]%string (String newline EmptyString))
             may1_noon [answer 0 "OK"]).

(** The file behind the [fileStore] of a fresh start. *)
Definition stateFile : OpenFile := {| path := ".geocoder-data"; offset := 0 |}.

End demo.

(** * Proofs *)

#[local] Arguments String.append !s1 s2 : simpl nomatch.

(** * Byte strings *)
Section Strings.

Lemma append_nil_r (s : string) : s +:+ "" = s.
Proof. induction s as [|c s IH]; simpl; [reflexivity | now rewrite IH]. Qed.

Lemma append_assoc (s t u : string) : (s +:+ t) +:+ u = s +:+ (t +:+ u).
Proof. induction s as [|c s IH]; simpl; [reflexivity | now rewrite IH]. Qed.

Lemma length_append (s t : string) :
  String.length (s +:+ t) = (String.length s + String.length t)%nat.
Proof. induction s as [|c s IH]; simpl; [reflexivity | now rewrite IH]. Qed.

Lemma drop_append (s t : string) : slice.drop (String.length s) (s +:+ t) = t.
Proof. induction s as [|c s IH]; cbn; [now destruct t | exact IH]. Qed.

Lemma take_append (s t : string) : slice.take (String.length s) (s +:+ t) = s.
Proof. induction s as [|c s IH]; cbn; [now destruct t | now rewrite IH]. Qed.

Lemma take_all (s : string) (n : nat) : (String.length s <= n)%nat → slice.take n s = s.
Proof.
  revert n; induction s as [|c s IH]; intros [|n] H; cbn in *; try reflexivity; try lia.
  rewrite IH; [reflexivity | lia].
Qed.

End Strings.

(** * Decimal digits *)
Section Digits.
Import digits.

Lemma digit_cases d : 0 <= d <= 9 →
  d = 0 ∨ d = 1 ∨ d = 2 ∨ d = 3 ∨ d = 4 ∨ d = 5 ∨ d = 6 ∨ d = 7 ∨ d = 8 ∨ d = 9.
Proof. lia. Qed.

Lemma isDigit_digitChar d : 0 <= d <= 9 → isDigit (digitChar d) = true.
Proof. intros H. destruct (digit_cases d H) as [-> | [-> | [-> | [-> | [-> | [-> | [-> | [-> | [-> | ->]]]]]]]]]; reflexivity. Qed.

Lemma digitVal_digitChar d : 0 <= d <= 9 → digitVal (digitChar d) = d.
Proof. intros H. destruct (digit_cases d H) as [-> | [-> | [-> | [-> | [-> | [-> | [-> | [-> | [-> | ->]]]]]]]]]; reflexivity. Qed.

Lemma digitChar_zero d : 0 <= d <= 9 → Ascii.eqb (digitChar d) "0" = (d =? 0).
Proof. intros H. destruct (digit_cases d H) as [-> | [-> | [-> | [-> | [-> | [-> | [-> | [-> | [-> | ->]]]]]]]]]; reflexivity. Qed.

Lemma digitsValue_append s t acc :
  digitsValue acc (s +:+ t) =
  match digitsValue acc s with Some v => digitsValue v t | None => None end.
Proof.
  revert acc; induction s as [|c s IH]; intros acc; cbn [append digitsValue]; [reflexivity|].
  destruct (isDigit c); [apply IH | reflexivity].
Qed.

Lemma length_fixedDigits w u : String.length (fixedDigits w u) = w.
Proof.
  revert u; induction w as [|w IH]; intros u; cbn [fixedDigits]; [reflexivity|].
  rewrite length_append, IH. cbn. lia.
Qed.

Lemma digitsValue_fixedDigits w : ∀ u acc, 0 <= u < 10 ^ Z.of_nat w →
  digitsValue acc (fixedDigits w u) = Some (acc * 10 ^ Z.of_nat w + u).
Proof.
  induction w as [|w IH]; intros u acc H.
  - cbn in *. f_equal. lia.
  - cbn [fixedDigits]. rewrite Nat2Z.inj_succ, Z.pow_succ_r in * by lia.
    assert (0 <= u mod 10 <= 9) by (pose proof (Z.mod_pos_bound u 10); lia).
    rewrite digitsValue_append, IH by (split; [apply Z.div_pos; lia | apply Z.div_lt_upper_bound; lia]).
    cbn [digitsValue]. rewrite isDigit_digitChar, digitVal_digitChar by assumption.
    f_equal. pose proof (Z.div_mod u 10). lia.
Qed.

Lemma parseUint_fixedDigits w u lo hi : 0 <= u < 10 ^ Z.of_nat w → lo <= u <= hi →
  parseUint (fixedDigits w u) lo hi = Some u.
Proof.
  intros Hu Hr. unfold parseUint. rewrite digitsValue_fixedDigits by assumption.
  replace (0 * 10 ^ Z.of_nat w + u) with u by lia.
  destruct (Z.ltb_spec u lo); [lia|]. destruct (Z.ltb_spec hi u); [lia|]. reflexivity.
Qed.

Lemma fixedDigits_2 u :
  fixedDigits 2 u = String (digitChar (u / 10 mod 10)) (String (digitChar (u mod 10)) "").
Proof. reflexivity. Qed.

Lemma fixedDigits_4 u :
  fixedDigits 4 u =
  String (digitChar (u / 10 / 10 / 10 mod 10)) (String (digitChar (u / 10 / 10 mod 10))
    (String (digitChar (u / 10 mod 10)) (String (digitChar (u mod 10)) ""))).
Proof. reflexivity. Qed.

Lemma spanDigits_append s : ∀ rest acc v, digitsValue acc s = Some v → nonDigitStart rest →
  spanDigits (s +:+ rest) = (s, rest).
Proof.
  induction s as [|c s IH]; intros rest acc v Hv Hr.
  - simpl. destruct rest as [|c r]; [reflexivity|]. simpl in *. now rewrite Hr.
  - simpl in *. destruct (isDigit c); [|discriminate].
    now rewrite (IH rest _ v Hv Hr).
Qed.

Lemma trimZeros_snoc s c :
  trimZeros (s +:+ String c "") =
  if Ascii.eqb c "0" then trimZeros s else s +:+ String c "".
Proof.
  induction s as [|a s IH].
  - reflexivity.
  - change (String a s +:+ String c "") with (String a (s +:+ String c "")).
    cbn [trimZeros]. rewrite IH. destruct (Ascii.eqb c "0"); [reflexivity|].
    destruct s; reflexivity.
Qed.

(** The fraction printed for [u] of [w] digits, read back and scaled to
    [w] digits, is [u]. *)
Lemma trimZeros_fixedDigits w : ∀ u, 0 <= u < 10 ^ Z.of_nat w →
  ∃ v, digitsValue 0 (trimZeros (fixedDigits w u)) = Some v ∧
       (String.length (trimZeros (fixedDigits w u)) <= w)%nat ∧
       v * 10 ^ (Z.of_nat w - Z.of_nat (String.length (trimZeros (fixedDigits w u)))) = u ∧
       (u ≠ 0 → ∃ c r, trimZeros (fixedDigits w u) = String c r ∧ isDigit c = true).
Proof.
  induction w as [|w IH]; intros u Hu.
  - exists 0. cbn in *. repeat split; lia.
  - cbn [fixedDigits]. rewrite Nat2Z.inj_succ, Z.pow_succ_r in Hu by lia.
    assert (Hd : 0 <= u mod 10 <= 9) by (pose proof (Z.mod_pos_bound u 10); lia).
    assert (Hq : 0 <= u / 10 < 10 ^ Z.of_nat w)
      by (split; [apply Z.div_pos; lia | apply Z.div_lt_upper_bound; lia]).
    rewrite trimZeros_snoc, digitChar_zero by assumption.
    destruct (Z.eqb_spec (u mod 10) 0) as [Hz | Hz].
    + destruct (IH _ Hq) as (v & Hv & Hl & Hs & Hn). exists v.
      split; [exact Hv|]. split; [lia|]. split.
      * replace (Z.of_nat (S w) - Z.of_nat (String.length (trimZeros (fixedDigits w (u / 10)))))
          with (Z.succ (Z.of_nat w - Z.of_nat (String.length (trimZeros (fixedDigits w (u / 10))))))
          by lia.
        rewrite Z.pow_succ_r by lia. pose proof (Z.div_mod u 10). lia.
      * intros Hu0. apply Hn. intros Hq0. pose proof (Z.div_mod u 10). lia.
    + exists u. rewrite digitsValue_append, digitsValue_fixedDigits by assumption.
      cbn [digitsValue]. rewrite isDigit_digitChar, digitVal_digitChar by assumption.
      rewrite length_append, length_fixedDigits. cbn [String.length].
      split; [f_equal; pose proof (Z.div_mod u 10); lia|].
      split; [lia|]. split.
      * replace (Z.of_nat (S w) - Z.of_nat (w + 1)) with 0 by lia. lia.
      * intros _. destruct w as [|w'].
        -- cbn [fixedDigits]. simpl. eexists _, _. split; [reflexivity|].
           now apply isDigit_digitChar.
        -- pose proof (length_fixedDigits (S w') (u / 10)) as Hlen.
           destruct (fixedDigits (S w') (u / 10)) as [|c r] eqn:E; [discriminate|].
           simpl. eexists _, _. split; [reflexivity|].
           pose proof (digitsValue_fixedDigits (S w') (u / 10) 0 Hq) as Hdv.
           rewrite E in Hdv. simpl in Hdv. destruct (isDigit c); [reflexivity | discriminate].
Qed.

End Digits.

(** * The calendar *)
Section Calendar.
Import calendar.

Lemma yearOfEra_range doe : 0 <= doe < 146097 →
  let yoe := (doe - doe / 1460 + doe / 36524 - doe / 146096) / 365 in
  let doy := doe - (365 * yoe + yoe / 4 - yoe / 100) in
  0 <= yoe <= 399 ∧ 0 <= doy <= 365 ∧
  (doy = 365 → (yoe + 1) mod 4 = 0 ∧ ((yoe + 1) mod 100 ≠ 0 ∨ (yoe + 1) mod 400 = 0)).
Proof. intros H yoe doy. subst yoe doy. Z.div_mod_to_equations. lia. Qed.

Lemma monthOfYear_range doy : 0 <= doy <= 365 →
  let mp := (5 * doy + 2) / 153 in
  let d := doy - (153 * mp + 2) / 5 + 1 in
  0 <= mp <= 11 ∧ 1 <= d ∧
  (mp = 11 → d <= 29 ∧ (d = 29 → doy = 365)) ∧
  (mp = 1 ∨ mp = 3 ∨ mp = 6 ∨ mp = 8 → d <= 30) ∧ d <= 31.
Proof. intros H mp d. subst mp d. Z.div_mod_to_equations. lia. Qed.

Lemma isLeap_true y : isLeap y = true ↔ y mod 4 = 0 ∧ (y mod 100 ≠ 0 ∨ y mod 400 = 0).
Proof.
  unfold isLeap. rewrite andb_true_iff, orb_true_iff, negb_true_iff.
  rewrite !Z.eqb_eq, Z.eqb_neq. tauto.
Qed.

Lemma isLeap_era y k : isLeap (y + k * 400) = isLeap y.
Proof.
  unfold isLeap.
  replace ((y + k * 400) mod 4) with (y mod 4) by (Z.div_mod_to_equations; lia).
  replace ((y + k * 400) mod 100) with (y mod 100) by (Z.div_mod_to_equations; lia).
  replace ((y + k * 400) mod 400) with (y mod 400) by (Z.div_mod_to_equations; lia).
  reflexivity.
Qed.

Lemma civilOfEra_valid doe y m d : 0 <= doe < 146097 → civilOfEra doe = (y, m, d) →
  1 <= m <= 12 ∧ 1 <= d <= daysIn m y ∧
  0 <= (if m <=? 2 then y - 1 else y) < 400 ∧
  dayOfEra (if m <=? 2 then y - 1 else y) m d = doe.
Proof.
  intros Hdoe. unfold civilOfEra.
  pose proof (yearOfEra_range doe Hdoe) as Hy. cbv zeta in Hy.
  set (yoe := (doe - doe / 1460 + doe / 36524 - doe / 146096) / 365) in *.
  destruct Hy as (Hyoe & Hdoy & Hleap).
  set (doy := doe - (365 * yoe + yoe / 4 - yoe / 100)) in *.
  pose proof (monthOfYear_range doy Hdoy) as Hm. cbv zeta in Hm.
  set (mp := (5 * doy + 2) / 153) in *.
  destruct Hm as (Hmp & Hd1 & Hfeb & H30 & H31).
  cbv zeta. intros E. injection E as <- <- <-.
  destruct (Z.ltb_spec mp 10) as [Hlt | Hge].
  - (* March to December *)
    destruct (Z.leb_spec (mp + 3) 2); [lia|].
    replace (yoe + 0) with yoe by lia.
    split; [lia|]. split.
    + split; [lia|]. unfold daysIn.
      destruct (Z.eqb_spec (mp + 3) 2); [lia|].
      destruct (Z.eqb_spec (mp + 3) 4), (Z.eqb_spec (mp + 3) 6),
               (Z.eqb_spec (mp + 3) 9), (Z.eqb_spec (mp + 3) 11); cbn [orb]; lia.
    + split; [lia|]. unfold dayOfEra.
      destruct (Z.ltb_spec 2 (mp + 3)); [|lia].
      replace (mp + 3 - 3) with mp by lia. subst doy. lia.
  - (* January and February *)
    destruct (Z.leb_spec (mp - 9) 2); [|lia].
    replace (yoe + 1 - 1) with yoe by lia.
    split; [lia|]. split.
    + split; [lia|]. unfold daysIn.
      destruct (Z.eqb_spec (mp - 9) 2) as [Hfebr | Hjan].
      * assert (Hmp11 : mp = 11) by lia. destruct (Hfeb Hmp11) as [H29 Hday].
        destruct (isLeap (yoe + 1)) eqn:El; [lia|].
        assert (doy - (153 * mp + 2) / 5 + 1 ≠ 29); [|lia].
        intros H29'. apply Hday, Hleap in H29'.
        apply isLeap_true in H29'. congruence.
      * destruct (Z.eqb_spec (mp - 9) 4), (Z.eqb_spec (mp - 9) 6),
                 (Z.eqb_spec (mp - 9) 9), (Z.eqb_spec (mp - 9) 11); cbn [orb]; lia.
    + split; [lia|]. unfold dayOfEra.
      destruct (Z.ltb_spec 2 (mp - 9)); [lia|].
      replace (mp - 9 + 9) with mp by lia. subst doy. lia.
Qed.

(** Every day number has a valid civil date, and the date gives the day
    number back. *)
Lemma civilFromDays_valid z y m d : civilFromDays z = (y, m, d) →
  1 <= m <= 12 ∧ 1 <= d <= daysIn m y ∧ daysFromCivil y m d = z.
Proof.
  unfold civilFromDays.
  destruct (civilOfEra ((z + 719468) mod 146097)) as [[y0 m0] d0] eqn:E.
  intros H. injection H as <- <- <-.
  assert (Hr : 0 <= (z + 719468) mod 146097 < 146097) by (apply Z.mod_pos_bound; lia).
  destruct (civilOfEra_valid _ _ _ _ Hr E) as (Hm & Hd & Hy & Hdoe).
  split; [exact Hm|]. split.
  - unfold daysIn in *. rewrite isLeap_era. exact Hd.
  - unfold daysFromCivil.
    set (q := (z + 719468) / 146097) in *.
    assert (Hy' : (if m0 <=? 2 then y0 + q * 400 - 1 else y0 + q * 400) =
                  (if m0 <=? 2 then y0 - 1 else y0) + q * 400)
      by (destruct (m0 <=? 2); lia).
    rewrite Hy'. set (y' := if m0 <=? 2 then y0 - 1 else y0) in *.
    rewrite Z.div_add, Z.mod_add, Z.div_small, Z.mod_small by lia.
    rewrite Hdoe. pose proof (Z.div_mod (z + 719468) 146097). lia.
Qed.

End Calendar.

Section TimeLayout.
Import slice digits calendar time.

Lemma appendInt_fixed x w : (0 < w)%nat → 0 <= x < 10 ^ Z.of_nat w → appendInt x w = fixedDigits w x.
Proof.
  intros Hw Hx. unfold appendInt.
  destruct (Z.ltb_spec x 0); [lia|].
  rewrite Z.abs_eq by lia.
  destruct (Z.ltb_spec 0 (Z.of_nat w)); [|lia].
  destruct (Z.ltb_spec x (10 ^ Z.of_nat w)); [|lia].
  reflexivity.
Qed.

Lemma parseFraction_appendNano ns rest : 0 <= ns < 1000000000 → noFraction rest →
  parseFraction (appendNano ns +:+ rest) = (ns, rest).
Proof.
  intros Hns Hrest. unfold appendNano.
  destruct (Z.eqb_spec ns 0) as [-> | Hnz].
  - simpl. destruct rest as [|c r]; [reflexivity|]. destruct Hrest as [_ Hdot].
    unfold parseFraction. destruct r; rewrite ?Hdot; reflexivity.
  - rewrite appendInt_fixed by (cbn; lia).
    destruct (trimZeros_fixedDigits 9 ns) as (v & Hv & Hl & Hs & Hn); [cbn; lia|].
    destruct (Hn Hnz) as (c & r & E & Hc).
    assert (Hspan : spanDigits (trimZeros (fixedDigits 9 ns) +:+ rest) =
                    (trimZeros (fixedDigits 9 ns), rest)).
    { apply (spanDigits_append _ rest 0 v Hv). destruct rest; [exact I | apply Hrest]. }
    revert Hspan Hv Hl Hs. rewrite E. intros Hspan Hv Hl Hs.
    change (String "." (String c r) +:+ rest) with (String "." (String c (r +:+ rest))).
    unfold parseFraction. rewrite Hc. cbn [Ascii.eqb Bool.eqb andb].
    change (String c (r +:+ rest)) with (String c r +:+ rest). rewrite Hspan.
    rewrite take_all by exact Hl. rewrite Hv. f_equal.
    change (Z.of_nat 9) with 9 in Hs. exact Hs.
Qed.

Lemma Date_UTC y m d h mi s ns : 1 <= m <= 12 →
  Date y m d h mi s ns UTC =
  {| unixNano := (daysFromCivil y m d * 86400 + h * 3600 + mi * 60 + s) * 1000000000 + ns;
     loc := UTC |}.
Proof.
  intros Hm. unfold Date.
  replace ((m - 1) / 12) with 0 by (Z.div_mod_to_equations; lia).
  replace ((m - 1) mod 12 + 1) with m by (Z.div_mod_to_equations; lia).
  replace (y + 0) with y by lia. reflexivity.
Qed.

Lemma appendZone_start off : noFraction (appendZone off).
Proof.
  unfold appendZone. destruct (off =? 0); [split; reflexivity|].
  destruct (Z.quot off 60 <? 0); split; reflexivity.
Qed.

Lemma parseUint_2 u lo hi : 0 <= u < 100 → lo <= u <= hi →
  parseUint (String (digitChar (u / 10 mod 10)) (String (digitChar (u mod 10)) "")) lo hi = Some u.
Proof. intros. rewrite <- fixedDigits_2. apply parseUint_fixedDigits; [cbn; lia | assumption]. Qed.

Lemma parseUint_4 u lo hi : 0 <= u < 10000 → lo <= u <= hi →
  parseUint (String (digitChar (u / 10 / 10 / 10 mod 10)) (String (digitChar (u / 10 / 10 mod 10))
    (String (digitChar (u / 10 mod 10)) (String (digitChar (u mod 10)) "")))) lo hi = Some u.
Proof. intros. rewrite <- fixedDigits_4. apply parseUint_fixedDigits; [cbn; lia | assumption]. Qed.

(** Reading the first nineteen bytes of a printed date and time. *)
Lemma parseRFC3339_dateTime y m d h mi s tail local :
  0 <= y <= 9999 → 1 <= m <= 12 → 1 <= d <= daysIn m y →
  0 <= h <= 23 → 0 <= mi <= 59 → 0 <= s <= 59 →
  parseRFC3339
    (fixedDigits 4 y +:+ "-" +:+ fixedDigits 2 m +:+ "-" +:+ fixedDigits 2 d +:+ "T" +:+
     fixedDigits 2 h +:+ ":" +:+ fixedDigits 2 mi +:+ ":" +:+ fixedDigits 2 s +:+ tail) local =
  let '(nsec, z) := parseFraction tail in
  let t := Date y m d h mi s nsec UTC in
  if String.eqb z "Z" then Some t else
  if negb (String.length z =? 6)%nat then None else
  hr ← parseUint (substring 1 2 z) 0 23;
  mm ← parseUint (substring 4 2 z) 0 59;
  if negb ((charAt z 0 "-" || charAt z 0 "+") && charAt z 3 ":") then None else
  let zoneOff := if charAt z 0 "-" then - ((hr * 60 + mm) * 60) else (hr * 60 + mm) * 60 in
  let instant := unixNano t - zoneOff * 1000000000 in
  Some {| unixNano := instant;
          loc := if zoneOffset local (instant / 1000000000) =? zoneOff
                 then local else FixedZone zoneOff |}.
Proof.
  intros Hy Hm Hd Hh Hmi Hs.
  assert (Hd' : d <= 31).
  { unfold daysIn in Hd. destruct (m =? 2); [destruct (isLeap y); lia|].
    destruct ((m =? 4) || (m =? 6) || (m =? 9) || (m =? 11)); lia. }
  rewrite fixedDigits_4, !fixedDigits_2. simpl append.
  unfold parseRFC3339.
  cbn [String.length Nat.ltb Nat.leb substring String.get charAt slice.drop].
  rewrite parseUint_4 by lia. cbn [mbind option_bind].
  rewrite (parseUint_2 m) by lia. cbn [mbind option_bind].
  rewrite (parseUint_2 d) by lia. cbn [mbind option_bind].
  rewrite (parseUint_2 h) by lia. cbn [mbind option_bind].
  rewrite (parseUint_2 mi) by lia. cbn [mbind option_bind].
  replace (substring 0 0 tail) with EmptyString by (now destruct tail).
  rewrite (parseUint_2 s) by lia. cbn [mbind option_bind].
  reflexivity.
Qed.

Lemma sameOffset_parsed local instant zoneOff :
  zoneOffset (if zoneOffset local instant =? zoneOff then local else FixedZone zoneOff) instant
  = zoneOff.
Proof. destruct (Z.eqb_spec (zoneOffset local instant) zoneOff); [assumption | reflexivity]. Qed.

(** What [Parse] reads from what [Format] printed is the same instant with
    the same offset. *)
Lemma parseRFC3339_Format t local : spec.representable t = true →
  ∃ t', parseRFC3339 (Format t RFC3339Nano) local = Some t' ∧ spec.sameTime t' t.
Proof.
  unfold spec.representable, Format, localFields.
  set (off := zoneOffset (loc t) (unixSec t)).
  set (abs := unixSec t + off).
  destruct (civilFromDays (abs / 86400)) as [[y m] d] eqn:Ec.
  intros H. apply andb_true_iff in H as [H Habs]. apply andb_true_iff in H as [H Hmod].
  apply andb_true_iff in H as [Hy0 Hy1].
  apply Z.leb_le in Hy0, Hy1. apply Z.eqb_eq in Hmod. apply Z.ltb_lt in Habs.
  destruct (civilFromDays_valid _ _ _ _ Ec) as (Hm & Hd & Hdays).
  assert (Hd' : d <= 31).
  { unfold daysIn in Hd. destruct (m =? 2); [destruct (isLeap y); lia|].
    destruct ((m =? 4) || (m =? 6) || (m =? 9) || (m =? 11)); lia. }
  set (secs := abs mod 86400).
  assert (Hsecs : 0 <= secs < 86400) by (apply Z.mod_pos_bound; lia).
  assert (Hh : 0 <= secs / 3600 <= 23) by (Z.div_mod_to_equations; lia).
  assert (Hmi : 0 <= secs mod 3600 / 60 <= 59) by (Z.div_mod_to_equations; lia).
  assert (Hs : 0 <= secs mod 60 <= 59) by (Z.div_mod_to_equations; lia).
  assert (Hns : 0 <= Nanosecond t < 1000000000) by (apply Z.mod_pos_bound; lia).
  rewrite (appendInt_fixed y 4), (appendInt_fixed m 2), (appendInt_fixed d 2),
    (appendInt_fixed (secs / 3600) 2), (appendInt_fixed (secs mod 3600 / 60) 2),
    (appendInt_fixed (secs mod 60) 2) by (cbn; lia).
  rewrite parseRFC3339_dateTime by (assumption || lia).
  rewrite parseFraction_appendNano by (assumption || apply appendZone_start).
  rewrite Date_UTC by assumption. rewrite Hdays.
  assert (Hunix : abs / 86400 * 86400 + secs / 3600 * 3600 + secs mod 3600 / 60 * 60 + secs mod 60
                  = abs).
  { subst secs. Z.div_mod_to_equations. lia. }
  rewrite Hunix.
  assert (Hnano : unixNano t = unixSec t * 1000000000 + Nanosecond t).
  { unfold unixSec, Nanosecond. pose proof (Z.div_mod (unixNano t) 1000000000). lia. }
  unfold appendZone. destruct (Z.eqb_spec off 0) as [Hz | Hnz].
  - (* the offset is zero: Z *)
    cbn [String.eqb Ascii.eqb Bool.eqb].
    eexists. split; [reflexivity|]. split; cbn [unixNano loc].
    + subst abs. lia.
    + cbn. lia.
  - (* a numeric offset *)
    set (zone := Z.quot off 60).
    assert (Hzone : off = zone * 60).
    { assert (Hdiv : (60 | off)) by (apply Z.mod_divide; lia).
      apply Z.rem_divide in Hdiv; [|lia].
      pose proof (Z.quot_rem off 60 ltac:(lia)). subst zone. lia. }
    assert (Hhr : 0 <= Z.abs zone / 60 <= 23) by (Z.div_mod_to_equations; lia).
    assert (Hmm : 0 <= Z.abs zone mod 60 <= 59) by (Z.div_mod_to_equations; lia).
    rewrite (appendInt_fixed (Z.abs zone / 60) 2), (appendInt_fixed (Z.abs zone mod 60) 2)
      by (cbn; lia).
    rewrite !fixedDigits_2.
    assert (Hval : (Z.abs zone / 60 * 60 + Z.abs zone mod 60) * 60 = Z.abs off)
      by (Z.div_mod_to_equations; lia).
    destruct (Z.ltb_spec zone 0) as [Hneg | Hpos]; simpl append;
      cbn [String.eqb Ascii.eqb Bool.eqb String.length Nat.eqb negb substring charAt String.get];
      rewrite (parseUint_2 (Z.abs zone / 60)) by lia; cbn [mbind option_bind];
      rewrite (parseUint_2 (Z.abs zone mod 60)) by lia; cbn [mbind option_bind];
      cbn [Ascii.eqb Bool.eqb orb andb negb]; rewrite Hval;
      eexists; (split; [reflexivity|]); split; cbn [unixNano loc].
    + subst abs. lia.
    + unfold unixSec at 1. cbn [unixNano loc]. rewrite sameOffset_parsed. fold off. lia.
    + subst abs. lia.
    + unfold unixSec at 1. cbn [unixNano loc]. rewrite sameOffset_parsed. fold off. lia.
Qed.

End TimeLayout.

(** Runs the steps of the monad and the primitives of the environment,
    and leaves the library functions folded. *)
Ltac run :=
  cbv beta iota zeta delta
    [googlegeocode.admit_ googlegeocode.exchange googlegeocode.observe
     googlegeocode.GetResults googlegeocode.inWorld googlegeocode.instance
     googlegeocode.assign googlegeocode.Lock googlegeocode.Unlock
     sys.bind sys.ret sys.defer sys.panic sys.get sys.put
     sys.Now sys.Since sys.Sleep sys.LoadLocation sys.Parse
     http.Get http.ReadAll http.Close http.Body http.noResponse
     googlegeocode.world googlegeocode.geocoderInstance googlegeocode.mutex
     googlegeocode.apiKey googlegeocode.lastQuery googlegeocode.queryLimitReached
     googlegeocode.queryLimitExpiration googlegeocode.fileStore
     googlegeocode.setMutex googlegeocode.setApiKey googlegeocode.setLastQuery
     googlegeocode.setQueryLimitReached googlegeocode.setQueryLimitExpiration
     googlegeocode.setFileStore
     sys.clock sys.Local sys.zoneinfo sys.disk sys.files sys.stdin sys.network sys.trace
     sys.setClock sys.setDisk sys.setFiles sys.setStdin sys.setNetwork sys.emit
     sys.latency sys.reply fst snd] in *.

(** Takes the cases of the innermost [match] the hypotheses are stuck on. *)
Ltac split_match :=
  match goal with
  | H : context [match ?x with _ => _ end] |- _ =>
      lazymatch x with
      | context [match _ with _ => _ end] => fail
      | _ => let E := fresh "E" in destruct x eqn:E; run
      end
  end.

Section Program.
Import sys googlegeocode spec.
Variable Unmarshal : String.string → Results * option error.

Lemma admit_frame address s r s' :
  admit_ Unmarshal address s = (r, s') → r ≠ Blocked ∧ Frame s s'.
Proof.
  intros H. run.
  destruct s as [[] []]. run.
  repeat split_match; try discriminate;
    injection H as <- <-; (split; [discriminate | constructor; reflexivity]).
Qed.

(** [store] on an open regular file: the bytes of [g.string()] go over
    the start of the file, and what the file held behind them stays. *)
Lemma store_returns g w fd o old :
  fileStore g = Some fd → files w !! fd = Some o → disk w !! path o = Some (File old) →
  ∃ w', store g w = (Return tt, w') ∧
    disk w' = <[path o := File (string g +:+ slice.drop (String.length (string g)) old)]> (disk w) ∧
    files w' = <[fd := {| path := path o; offset := String.length (string g) |}]> (files w) ∧
    trace w' = Wrote (path o) (string g) :: trace w ∧
    clock w' = clock w ∧ Local w' = Local w ∧ zoneinfo w' = zoneinfo w ∧
    stdin w' = stdin w ∧ network w' = network w.
Proof.
  intros Hf Ho Hd. unfold store, os.Seek, os.Write, sys.bind, sys.ret.
  rewrite Hf, Ho. cbn [Z.ltb Z.compare Z.to_nat].
  cbn [files setFiles disk].
  rewrite list_lookup_insert_eq by (eapply lookup_lt_Some; eassumption).
  cbn [path offset]. rewrite Hd. eexists. split; [reflexivity|].
  cbn [disk files trace clock Local zoneinfo stdin network emit setFiles setDisk os.overwrite].
  rewrite list_insert_insert_eq. repeat split; reflexivity.
Qed.

Lemma ready_inv s : spec.ready s = true →
  mutex (geocoderInstance s) = false ∧
  ∃ fd o old, fileStore (geocoderInstance s) = Some fd ∧ files (world s) !! fd = Some o ∧
              disk (world s) !! path o = Some (File old).
Proof.
  unfold spec.ready, spec.storeFile, spec.fileContent. intros H.
  apply andb_true_iff in H as [Hm H]. apply negb_true_iff in Hm. split; [exact Hm|].
  destruct (fileStore (geocoderInstance s)) as [fd|] eqn:Hf; [|discriminate]. cbn in H.
  destruct (files (world s) !! fd) as [o|] eqn:Ho; [|discriminate]. cbn in H.
  destruct (disk (world s) !! path o) as [[old|]|] eqn:Hd; try discriminate.
  now exists fd, o, old.
Qed.

(** A call of [GetResults] on an initialised, idle package: the body runs
    under the mutex, the mutex is released, and then [store] writes the
    receiver it was given before the body ran. *)
Lemma GetResults_ready address s : spec.ready s = true →
  ∃ r s2 w', admit_ Unmarshal address (locked s) = (r, s2) ∧ r ≠ Blocked ∧
    Frame (locked s) s2 ∧
    store (geocoderInstance s) (emit Unlocked (world s2)) = (Return tt, w') ∧
    GetResults Unmarshal address s =
      (r, {| world := w'; geocoderInstance := setMutex (geocoderInstance s2) false |}).
Proof.
  intros Hr. destruct (ready_inv s Hr) as (Hm & fd & o & old & Hf & Ho & Hd).
  destruct (admit_ Unmarshal address (locked s)) as [r s2] eqn:E.
  destruct (admit_frame _ _ _ _ E) as [Hnb F].
  destruct (store_returns (geocoderInstance s) (emit Unlocked (world s2)) fd o old)
    as (w' & Hs & _); [exact Hf | | |].
  { cbn [files emit]. rewrite (frame_files _ _ F). exact Ho. }
  { cbn [disk emit]. rewrite (frame_disk _ _ F). exact Hd. }
  exists r, s2, w'. refine (conj eq_refl (conj Hnb (conj F (conj Hs _)))).
  unfold locked in E.
  cbv beta iota delta [GetResults sys.bind sys.defer instance Lock Unlock inWorld].
  rewrite Hm. cbv beta iota. rewrite E.
  destruct r; cbn [world geocoderInstance]; try rewrite Hs; try reflexivity.
  now contradiction Hnb.
Qed.
End Program.

Section Outcomes.
Import sys googlegeocode spec.
Variable Unmarshal : String.string → Results * option error.

Lemma idleTime_nonneg calls : 0 <= idleTime calls.
Proof. induction calls as [|[d a] calls IH]; cbn [idleTime]; lia. Qed.

Lemma bind_returns {S A B} (c : M S A) (k : A → M S B) s b s' :
  sys.bind c k s = (Return b, s') → ∃ a s1, c s = (Return a, s1) ∧ k a s1 = (Return b, s').
Proof.
  unfold sys.bind. destruct (c s) as [[a | msg |] s1]; intros H; try discriminate.
  now exists a, s1.
Qed.

Lemma defer_returns {S A} (d : M S unit) (c : M S A) s a s' :
  sys.defer d c s = (Return a, s') → ∃ s1, c s = (Return a, s1).
Proof.
  unfold sys.defer. destruct (c s) as [[a1 | msg |] s1]; intros H; try discriminate;
    destruct (d s1) as [[[] | msg' |] s2]; try discriminate.
  injection H as <- <-. now exists s1.
Qed.

(** A call that returns went through the body, and the body returned
    the same. *)
Lemma GetResults_returns address s res s' :
  GetResults Unmarshal address s = (Return res, s') →
  ∃ s1 s2, admit_ Unmarshal address s1 = (Return res, s2).
Proof.
  unfold GetResults. intros H.
  apply bind_returns in H as (g & s0 & _ & H).
  apply defer_returns in H as (s3 & H).
  apply bind_returns in H as ([] & s1 & _ & H).
  apply defer_returns in H as (s2 & H).
  now exists s1, s2.
Qed.

Lemma admit_payload address s r e s' :
  admit_ Unmarshal address s = (Return (r, e), s') →
  (e ≠ None → r = zeroResults) ∧ (e = None → Status r ≠ "OVER_QUERY_LIMIT"%string).
Proof.
  intros H. destruct s as [[] []]. run.
  repeat split_match; try discriminate; injection H as <- <- <-;
    (split; [reflexivity || (intros Hn; now contradiction Hn) | try discriminate]).
  all: intros _; now apply String.eqb_neq.
Qed.

(** C8. Whenever [GetResults] returns an error, the payload it returns
    with it is the zero [Results]; and a payload returned without an error
    does not have the status OVER_QUERY_LIMIT. *)
Theorem C8_error_comes_with_zero_payload address s r e s' :
  GetResults Unmarshal address s = (Return (r, e), s') →
  (e ≠ None → r = zeroResults) ∧ (e = None → Status r ≠ "OVER_QUERY_LIMIT"%string).
Proof.
  intros H. apply GetResults_returns in H as (s1 & s2 & H).
  exact (admit_payload _ _ _ _ _ H).
Qed.

(** ** The quota gate *)

Lemma admit_rejects address s :
  queryLimitReached (geocoderInstance s) = true →
  clock (world s) < time.unixNano (queryLimitExpiration (geocoderInstance s)) →
  admit_ Unmarshal address s = (Return (zeroResults, Some quotaError), s).
Proof.
  destruct s as [[] []]. run. intros -> Hlt. unfold time.Before. cbn [time.unixNano].
  apply Z.ltb_lt in Hlt. now rewrite Hlt.
Qed.

Lemma admit_passes address s :
  queryLimitReached (geocoderInstance s) = true →
  time.unixNano (queryLimitExpiration (geocoderInstance s)) <= clock (world s) →
  admit_ Unmarshal address s =
  exchange Unmarshal address
    {| world := world s;
       geocoderInstance := setQueryLimitReached (geocoderInstance s) false |}.
Proof.
  destruct s as [[] []]. intros Hq Hle. cbn [geocoderInstance world queryLimitReached
    queryLimitExpiration clock] in *. subst.
  unfold admit_ at 1.
  cbv beta iota zeta delta [sys.bind instance inWorld Now assign world geocoderInstance
    queryLimitReached queryLimitExpiration clock Local].
  unfold time.Before. cbn [time.unixNano].
  apply Z.ltb_ge in Hle. now rewrite Hle.
Qed.

Lemma setMutex_release g : mutex g = false → setMutex (setMutex g true) false = g.
Proof. destruct g. cbn. now intros ->. Qed.

(** A call while the quota is exceeded and the limit has not expired. *)
Lemma GetResults_rejected address s : ready s = true →
  queryLimitReached (geocoderInstance s) = true →
  clock (world s) < time.unixNano (queryLimitExpiration (geocoderInstance s)) →
  ∃ s', GetResults Unmarshal address s = (Return (zeroResults, Some quotaError), s') ∧
    geocoderInstance s' = geocoderInstance s ∧
    requests (trace (world s')) = requests (trace (world s)) ∧
    network (world s') = network (world s) ∧
    clock (world s') = clock (world s) ∧
    ready s' = true.
Proof.
  intros Hr Hq Hlt.
  destruct (GetResults_ready Unmarshal address s Hr) as (r & s2 & w' & E & _ & _ & Hs & HG).
  rewrite admit_rejects in E by assumption. injection E as <- <-.
  destruct (ready_inv s Hr) as (Hm & fd & o & old & Hf & Ho & Hd).
  destruct (store_returns (geocoderInstance s) (emit Unlocked (world (locked s))) fd o old)
    as (w'' & Hs' & Hdisk & Hfiles & Htrace & Hclock & _ & _ & _ & Hnet);
    [exact Hf | exact Ho | exact Hd |].
  rewrite Hs in Hs'. injection Hs' as <-.
  eexists. split; [exact HG|]. cbn [world geocoderInstance locked].
  split; [now apply setMutex_release|].
  split; [now rewrite Htrace|]. split; [exact Hnet|]. split; [exact Hclock|].
  unfold ready, storeFile, fileContent. cbn [world geocoderInstance setMutex mutex fileStore].
  rewrite Hf, Hfiles. cbn [mbind option_bind].
  rewrite list_lookup_insert_eq by (eapply lookup_lt_Some; exact Ho).
  cbn [mbind option_bind path]. rewrite Hdisk, lookup_insert_eq. reflexivity.
Qed.

Lemma session_rejected calls : ∀ s, ready s = true →
  queryLimitReached (geocoderInstance s) = true →
  clock (world s) + idleTime calls < time.unixNano (queryLimitExpiration (geocoderInstance s)) →
  ∃ s', session Unmarshal calls s =
          (Return (map (fun _ => (zeroResults, Some quotaError)) calls), s') ∧
    geocoderInstance s' = geocoderInstance s ∧
    requests (trace (world s')) = requests (trace (world s)) ∧
    network (world s') = network (world s) ∧
    clock (world s') = clock (world s) + idleTime calls ∧
    ready s' = true.
Proof.
  induction calls as [|[d address] calls IH]; intros s Hr Hq Hlt.
  - exists s. cbn [session idleTime map]. repeat split; try reflexivity; try assumption. lia.
  - cbn [idleTime] in Hlt.
    pose proof (idleTime_nonneg calls) as Hnn.
    set (s0 := {| world := setClock (world s) (clock (world s) + Z.max 0 d);
                  geocoderInstance := geocoderInstance s |}).
    destruct (GetResults_rejected address s0) as (s1 & HG & Hg1 & Ht1 & Hn1 & Hc1 & Hr1).
    { exact Hr. } { exact Hq. } { cbn. lia. }
    destruct (IH s1) as (s' & HS & Hg' & Ht' & Hn' & Hc' & Hr').
    { exact Hr1. } { now rewrite Hg1. } { rewrite Hg1, Hc1. cbn. lia. }
    exists s'. split.
    + cbn [session map]. unfold sys.bind at 1. unfold idle at 1. fold s0.
      unfold sys.bind at 1. rewrite HG. unfold sys.bind at 1. rewrite HS. reflexivity.
    + rewrite Hg', Hg1, Ht', Ht1, Hn', Hn1, Hc', Hc1. cbn [idleTime]. cbn.
      repeat split; try reflexivity; try assumption. lia.
Qed.

(** ** The request *)

(** What one run of the pause, the request and the decoding does to the
    trace and to the rate and quota fields. *)
Lemma exchange_effect address s r s' :
  exchange Unmarshal address s = (r, s') →
  let g := geocoderInstance s in
  let now := {| time.unixNano := clock (world s); time.loc := Local (world s) |} in
  requests (trace (world s')) = requestURL g address :: requests (trace (world s)) ∧
  pauses (trace (world s')) = pacing (lastQuery g) now :: pauses (trace (world s)) ∧
  queryLimitReached (geocoderInstance s') =
    queryLimitReached g || answersOverLimit Unmarshal (world s) ∧
  match transportError (requestURL g address) (world s) with
  | Some e =>
      r = Return (zeroResults, Some ("Error geocoding address: <" +:+ e +:+ ">")) ∧
      lastQuery (geocoderInstance s') = lastQuery g ∧
      queryLimitExpiration (geocoderInstance s') = queryLimitExpiration g
  | None =>
      lastQuery (geocoderInstance s') =
        {| time.unixNano :=
             clock (world s) + Z.max 0 (pacing (lastQuery g) now) + nextLatency (world s);
           time.loc := Local (world s) |}
  end.
Proof.
  intros H. destruct s as [[] []]. run.
  unfold answersOverLimit, transportError, nextLatency, requestURL, pacing.
  cbn [network].
  repeat split_match; try discriminate; injection H as <- <-;
    cbn [world geocoderInstance trace requests pauses queryLimitReached lastQuery
         queryLimitExpiration reply latency];
    rewrite ?orb_false_r, ?orb_true_r; repeat split; reflexivity.
Qed.

Lemma admit_open address s : gateOpen s = true →
  admit_ Unmarshal address (locked s) =
  exchange Unmarshal address
    {| world := emit Locked (world s);
       geocoderInstance := setQueryLimitReached (setMutex (geocoderInstance s) true) false |}.
Proof.
  unfold gateOpen, locked. destruct s as [[] []].
  cbn [geocoderInstance world queryLimitReached queryLimitExpiration clock Local].
  intros H. unfold admit_ at 1.
  cbv beta iota zeta delta [sys.bind instance inWorld Now assign world geocoderInstance
    queryLimitReached queryLimitExpiration clock Local setMutex emit].
  destruct queryLimitReached0; [|reflexivity].
  cbn [negb orb] in H. apply negb_true_iff in H. now rewrite H.
Qed.

(** A call that finds the quota gate open. *)
Lemma GetResults_open address s : ready s = true → gateOpen s = true →
  ∃ r s', GetResults Unmarshal address s = (r, s') ∧
    let g := geocoderInstance s in
    let now := {| time.unixNano := clock (world s); time.loc := Local (world s) |} in
    requests (trace (world s')) = requestURL g address :: requests (trace (world s)) ∧
    pauses (trace (world s')) = pacing (lastQuery g) now :: pauses (trace (world s)) ∧
    queryLimitReached (geocoderInstance s') = answersOverLimit Unmarshal (world s) ∧
    match transportError (requestURL g address) (world s) with
    | Some e =>
        r = Return (zeroResults, Some ("Error geocoding address: <" +:+ e +:+ ">")) ∧
        lastQuery (geocoderInstance s') = lastQuery g ∧
        queryLimitExpiration (geocoderInstance s') = queryLimitExpiration g
    | None =>
        lastQuery (geocoderInstance s') =
          {| time.unixNano :=
               clock (world s) + Z.max 0 (pacing (lastQuery g) now) + nextLatency (world s);
             time.loc := Local (world s) |}
    end.
Proof.
  intros Hr Ho.
  destruct (GetResults_ready Unmarshal address s Hr) as (r & s2 & w' & E & _ & F & Hs & HG).
  rewrite admit_open in E by assumption.
  apply exchange_effect in E. cbv zeta in E.
  cbn [world geocoderInstance emit trace requests pauses clock Local network
       setQueryLimitReached setMutex lastQuery queryLimitReached queryLimitExpiration
       apiKey orb] in E.
  destruct E as (Hreq & Hp & Hq & Ht).
  destruct (ready_inv s Hr) as (Hm & fd & o & old & Hf & Ho' & Hd).
  destruct (store_returns (geocoderInstance s) (emit Unlocked (world s2)) fd o old)
    as (w'' & Hs' & _ & _ & Htrace & _); [exact Hf | | |].
  { cbn [files emit]. rewrite (frame_files _ _ F). exact Ho'. }
  { cbn [disk emit]. rewrite (frame_disk _ _ F). exact Hd. }
  rewrite Hs in Hs'. injection Hs' as <-.
  exists r, {| world := w'; geocoderInstance := setMutex (geocoderInstance s2) false |}.
  split; [exact HG|]. cbv zeta.
  cbn [world geocoderInstance setMutex lastQuery queryLimitReached queryLimitExpiration].
  rewrite Htrace. cbn [requests pauses emit trace].
  unfold answersOverLimit, transportError, nextLatency, requestURL in *.
  cbn [apiKey network emit] in *.
  repeat split; assumption.
Qed.

Lemma ready_idle d s : ready (snd (idle d s)) = ready s.
Proof. reflexivity. Qed.

Lemma gateOpen_expired s :
  time.unixNano (queryLimitExpiration (geocoderInstance s)) <= clock (world s) →
  gateOpen s = true.
Proof.
  intros H. unfold gateOpen, time.Before. cbn [time.unixNano].
  apply Z.ltb_ge in H. rewrite H. apply orb_true_r.
Qed.

(** C2. Once the quota is recorded as exceeded, every call made before
    [queryLimitExpiration] returns the quota error, sends no request and
    leaves the record as it is; the first call made at or after
    [queryLimitExpiration] clears the flag and sends its request (the flag
    is set again only if that request is answered OVER_QUERY_LIMIT). *)
Theorem C2_quota_gate calls d address s :
  ready s = true →
  queryLimitReached (geocoderInstance s) = true →
  clock (world s) + idleTime calls < time.unixNano (queryLimitExpiration (geocoderInstance s)) →
  time.unixNano (queryLimitExpiration (geocoderInstance s))
    <= clock (world s) + idleTime calls + Z.max 0 d →
  ∃ s1 r s2,
    session Unmarshal calls s =
      (Return (map (fun _ => (zeroResults, Some quotaError)) calls), s1) ∧
    geocoderInstance s1 = geocoderInstance s ∧
    requests (trace (world s1)) = requests (trace (world s)) ∧
    network (world s1) = network (world s) ∧
    GetResults Unmarshal address (snd (idle d s1)) = (r, s2) ∧
    requests (trace (world s2)) =
      requestURL (geocoderInstance s) address :: requests (trace (world s)) ∧
    queryLimitReached (geocoderInstance s2) = answersOverLimit Unmarshal (world s1).
Proof.
  intros Hr Hq Hbefore Hafter.
  destruct (session_rejected calls s Hr Hq Hbefore) as (s1 & HS & Hg & Ht & Hn & Hc & Hr1).
  destruct (GetResults_open address (snd (idle d s1))) as (r & s2 & HG & Hreq & _ & Hflag & _).
  { exact Hr1. }
  { apply gateOpen_expired. cbn [idle snd world geocoderInstance clock setClock].
    rewrite Hg, Hc. exact Hafter. }
  exists s1, r, s2.
  split; [exact HS|]. split; [exact Hg|]. split; [exact Ht|]. split; [exact Hn|].
  split; [exact HG|]. split.
  - rewrite Hreq. cbn [idle snd world geocoderInstance trace setClock]. now rewrite Hg, Ht.
  - rewrite Hflag. reflexivity.
Qed.

Lemma transportError_not_answered u w e :
  transportError u w = Some e → answersOverLimit Unmarshal w = false.
Proof.
  unfold transportError, answersOverLimit. destruct (network w) as [|x rest]; [reflexivity|].
  destruct (reply x); (discriminate || reflexivity).
Qed.

(** C10 as amended. When the GET fails in transport, [GetResults] returns
    the transport error and leaves [lastQuery] and [queryLimitExpiration]
    as they were; [queryLimitReached] is false afterwards: unchanged if it
    was false, and cleared if it was true and the limit had expired. *)
Theorem C10_transport_failure address s e :
  ready s = true → gateOpen s = true →
  transportError (requestURL (geocoderInstance s) address) (world s) = Some e →
  ∃ s', GetResults Unmarshal address s =
          (Return (zeroResults, Some ("Error geocoding address: <" +:+ e +:+ ">")), s') ∧
    lastQuery (geocoderInstance s') = lastQuery (geocoderInstance s) ∧
    queryLimitExpiration (geocoderInstance s') = queryLimitExpiration (geocoderInstance s) ∧
    queryLimitReached (geocoderInstance s') = false.
Proof.
  intros Hr Ho He.
  destruct (GetResults_open address s Hr Ho) as (r & s' & HG & _ & _ & Hflag & Ht).
  rewrite He in Ht. destruct Ht as (-> & Hl & Hx).
  exists s'. rewrite Hflag, (transportError_not_answered _ _ _ He). now repeat split.
Qed.

(** C4 as amended. For every request that gets a response, [lastQuery] is
    set to the time read after the pause and after [http.Get] has
    returned; and the pause of a request is 20 ms less the time since the
    [lastQuery] it finds, so it counts from when the previous response
    arrived. *)
Theorem C4_lastQuery_follows_response address s :
  ready s = true → gateOpen s = true →
  transportError (requestURL (geocoderInstance s) address) (world s) = None →
  let now := {| time.unixNano := clock (world s); time.loc := Local (world s) |} in
  let pause := time.wrap64 (20 * time.Millisecond -
                            time.Sub now (lastQuery (geocoderInstance s))) in
  ∃ r s', GetResults Unmarshal address s = (r, s') ∧
    pauses (trace (world s')) = pause :: pauses (trace (world s)) ∧
    lastQuery (geocoderInstance s') =
      {| time.unixNano := clock (world s) + Z.max 0 pause + nextLatency (world s);
         time.loc := Local (world s) |}.
Proof.
  intros Hr Ho He now pause.
  destruct (GetResults_open address s Hr Ho) as (r & s' & HG & _ & Hp & _ & Ht).
  rewrite He in Ht. exists r, s'. now repeat split.
Qed.

End Outcomes.

(** * The lines of the state file *)
Section Lines.
Import strings.

Lemma ContainsRune_append s t c :
  ContainsRune (s +:+ t) c = ContainsRune s c || ContainsRune t c.
Proof.
  induction s as [|a s IH]; simpl; [reflexivity|]. rewrite IH. apply orb_assoc.
Qed.

Lemma Split_line s : ContainsRune s newline = false → Split s newline = [s].
Proof.
  induction s as [|c s IH]; simpl; [reflexivity|]. intros H.
  apply orb_false_iff in H as [Hc Hs]. rewrite Hc, (IH Hs). reflexivity.
Qed.

Lemma Split_append s rest : ContainsRune s newline = false →
  Split (s +:+ String newline rest) newline = s :: Split rest newline.
Proof.
  induction s as [|c s IH]; intros H.
  - reflexivity.
  - simpl in H. apply orb_false_iff in H as [Hc Hs].
    change (String c s +:+ String newline rest) with (String c (s +:+ String newline rest)).
    cbn [Split]. rewrite Hc, (IH Hs). reflexivity.
Qed.

Lemma Join_cons l l' lines sep :
  Join (l :: l' :: lines) sep = l +:+ sep +:+ Join (l' :: lines) sep.
Proof. reflexivity. Qed.

(** Splitting what was joined gives the lines back. *)
Lemma Split_Join l lines : forallb spec.isLine (l :: lines) = true →
  Split (Join (l :: lines) (String newline "")) newline = l :: lines.
Proof.
  revert l; induction lines as [|l' lines IH]; intros l H;
    cbn [forallb] in H; apply andb_true_iff in H as [Hl H];
    unfold spec.isLine in Hl; apply negb_true_iff in Hl.
  - cbn [Join]. now apply Split_line.
  - rewrite Join_cons.
    change (String newline "" +:+ Join (l' :: lines) (String newline ""))
      with (String newline (Join (l' :: lines) (String newline ""))).
    rewrite Split_append by assumption. now rewrite IH.
Qed.

End Lines.

(** * Loading the state file *)
Section Load.
Import sys googlegeocode spec.

(** The switch with its fallthroughs restores what the lines stand for. *)
Lemma restore_lines l lines f w :
  ∃ err, restore (l :: lines) (setFileStore zeroGeocoder f) w =
         (Return (setFileStore (recordOfLines (Local w) (l :: lines)) f, err), w).
Proof.
  destruct lines as [|l2 [|l3 [|l4 rest]]]; unfold restore; cbv zeta; cbn [length];
    repeat match goal with
      | |- context [Z.ltb ?a ?b] => destruct (Z.ltb_spec a b); try lia
      | |- context [Z.eqb ?a ?b] => destruct (Z.eqb_spec a b); try lia
      end;
    cbn [orb]; cbv beta iota delta [sys.bind sys.ret sys.Parse nth];
    repeat (match goal with
      | |- context [time.Parse ?a ?b ?c] =>
          let E := fresh "E" in destruct (time.Parse a b c) eqn:E
      | |- context [strconv.ParseBool ?a] =>
          let E := fresh "E" in destruct (strconv.ParseBool a) eqn:E
      end; cbv beta iota delta [sys.bind sys.ret sys.Parse nth]);
    unfold recordOfLines;
    repeat match goal with
      | E : time.Parse _ _ _ = _ |- _ => rewrite E; clear E
      | E : strconv.ParseBool _ = _ |- _ => rewrite E; clear E
      end;
    eexists; reflexivity.
Qed.

Lemma Split_nonempty s c : ∃ l lines, strings.Split s c = l :: lines.
Proof.
  induction s as [|a s (l & lines & IH)]; cbn [strings.Split]; [now eexists _, _|].
  destruct (Ascii.eqb a c); [now eexists _, _|]. rewrite IH. now eexists _, _.
Qed.

(** The world after [os.Create] has made the file anew. *)
Lemma Create_file filename w : disk w !! filename ≠ Some Dir →
  os.Create filename w =
  (Return (Some (length (files w)), None),
   setFiles (setDisk w (<[filename := File ""]> (disk w)))
            (files w ++ [{| path := filename; offset := 0 |}])).
Proof. unfold os.Create. destruct (disk w !! filename) as [[c|]|]; congruence. Qed.

(** Loading a file that holds the given lines. *)
Lemma loadState_lines filename w l lines :
  disk w !! filename = Some (File (strings.Join (l :: lines) (String newline ""))) →
  forallb isLine (l :: lines) = true →
  loadState filename w =
  (Return (setFileStore (recordOfLines (Local w) (l :: lines)) (Some (length (files w))), None),
   snd (os.Create filename w)).
Proof.
  intros Hd Hl. unfold loadState, sys.bind at 1, os.ReadFile. rewrite Hd.
  cbv beta iota. unfold sys.bind at 1. rewrite Create_file by (rewrite Hd; discriminate).
  rewrite Split_Join by assumption. unfold sys.bind.
  match goal with |- context [restore ?ls ?g ?w'] =>
    destruct (restore_lines l lines (Some (length (files w))) w') as [err ->] end.
  reflexivity.
Qed.

(** Loading when there is no file. *)
Lemma loadState_absent filename w : disk w !! filename = None →
  loadState filename w =
  (Return (setFileStore zeroGeocoder (Some (length (files w))), None),
   snd (os.Create filename w)).
Proof.
  intros Hd. unfold loadState, sys.bind at 1, os.ReadFile. rewrite Hd.
  cbv beta iota. cbn [os.IsNotExist os.Err negb]. unfold sys.bind at 1.
  rewrite Create_file by (rewrite Hd; discriminate). reflexivity.
Qed.

(** A record with a credential is returned as it was loaded, and nothing
    is asked. *)
Lemma newGeocoderFromFile_lines filename w l lines :
  disk w !! filename = Some (File (strings.Join (l :: lines) (String newline ""))) →
  forallb isLine (l :: lines) = true → l ≠ ""%string →
  newGeocoderFromFile filename w =
  (Return (setFileStore (recordOfLines (Local w) (l :: lines)) (Some (length (files w))), None),
   snd (os.Create filename w)).
Proof.
  intros Hd Hl Hne. unfold newGeocoderFromFile, sys.bind at 1.
  rewrite (loadState_lines _ _ _ _ Hd Hl). unfold sys.bind, sys.get.
  apply String.eqb_neq in Hne. cbn [acquireKey setFileStore recordOfLines apiKey nth].
  now rewrite Hne.
Qed.

(** C7. A state file of one, two or three lines loads as the fields it
    holds, in the order credential, [lastQuery], [queryLimitReached],
    [queryLimitExpiration], with the zero value for the fields that are
    missing; lines after the fourth change nothing; and when there is no
    file the record loaded is the default one, without an error.  (Loading
    is [newGeocoderFromFile] up to the prompt for a credential, which is
    not reached when the first line is not empty.) *)
Theorem C7_load_takes_the_lines_present :
  (∀ filename w l lines,
     disk w !! filename = Some (File (strings.Join (l :: lines) (String newline ""))) →
     forallb isLine (l :: lines) = true →
     (∃ w', loadState filename w =
            (Return (setFileStore (recordOfLines (Local w) (l :: lines))
                       (Some (length (files w))), None), w')) ∧
     (l ≠ ""%string →
      ∃ w', newGeocoderFromFile filename w =
            (Return (setFileStore (recordOfLines (Local w) (l :: lines))
                       (Some (length (files w))), None), w') ∧
            trace w' = trace w)) ∧
  (∀ filename w, disk w !! filename = None →
     ∃ w', loadState filename w =
           (Return (setFileStore zeroGeocoder (Some (length (files w))), None), w')).
Proof.
  split.
  - intros filename w l lines Hd Hl. split.
    + eexists. now apply loadState_lines.
    + intros Hne. eexists. split; [now apply newGeocoderFromFile_lines|].
      rewrite Create_file by (rewrite Hd; discriminate). reflexivity.
  - intros filename w Hd. eexists. now apply loadState_absent.
Qed.

Lemma loadState_disk filename w g w1 :
  loadState filename w = (Return (g, None), w1) →
  disk w1 = <[filename := File ""]> (disk w) ∧ Local w1 = Local w ∧
  files w1 = files w ++ [{| path := filename; offset := 0 |}].
Proof.
  unfold loadState, sys.bind at 1, os.ReadFile.
  destruct (Split_nonempty "" newline) as (l0 & lines0 & E0).
  destruct (disk w !! filename) as [[c|]|] eqn:Hd.
  - destruct (Split_nonempty c newline) as (l & lines & E).
    cbv beta iota. unfold sys.bind at 1. rewrite Create_file by (rewrite Hd; discriminate).
    rewrite E. unfold sys.bind.
    match goal with |- context [restore ?ls ?g ?w'] =>
      destruct (restore_lines l lines (Some (length (files w))) w') as [err ->] end.
    intros H. injection H as <- <-. now repeat split.
  - cbv beta iota. cbn [os.IsNotExist os.Err negb option_map]. unfold sys.ret. discriminate.
  - cbv beta iota. cbn [os.IsNotExist os.Err negb]. unfold sys.bind at 1.
    rewrite Create_file by (rewrite Hd; discriminate).
    rewrite E0. unfold sys.bind.
    match goal with |- context [restore ?ls ?g ?w'] =>
      destruct (restore_lines l0 lines0 (Some (length (files w))) w') as [err ->] end.
    intros H. injection H as <- <-. now repeat split.
Qed.

(** The prompt changes the credential and nothing else of the record, and
    neither the disk nor the open files. *)
Lemma acquireKey_frame turns : ∀ g w g' w',
  acquireKey turns g w = (Return (g', None), w') →
  disk w' = disk w ∧ files w' = files w ∧
  mutex g' = mutex g ∧ fileStore g' = fileStore g.
Proof.
  induction turns as [|turns IH]; intros g w g' w'; cbn [acquireKey];
    destruct (String.eqb (apiKey g) ""); unfold sys.ret;
    try (intros H; injection H as <- <-; now repeat split); try discriminate.
  unfold sys.bind at 1, fmt.Print. unfold sys.bind at 1, fmt.Scanln. cbn [stdin emit].
  destruct (stdin w) as [|line rest]; [discriminate|].
  destruct (fmt.token (fmt.skipSpaces line)) as [word tl].
  destruct (String.eqb word ""); [discriminate|].
  destruct (String.eqb (fmt.skipSpaces tl) ""); [|discriminate].
  intros H. apply IH in H as (Hd & Hf & Hm & Hs). now repeat split.
Qed.

Lemma acquireKey_disk turns g w g' w' :
  acquireKey turns g w = (Return (g', None), w') → disk w' = disk w.
Proof. intros H. now apply acquireKey_frame in H. Qed.

(** One turn is enough: a word that was read is not empty, so the loop
    never runs out of turns. *)
Lemma acquireKey_terminates turns g w : fst (acquireKey (S turns) g w) ≠ Blocked.
Proof.
  cbn [acquireKey]. destruct (String.eqb (apiKey g) ""); [|discriminate].
  unfold sys.bind at 1, fmt.Print. unfold sys.bind at 1, fmt.Scanln. cbn [stdin emit].
  destruct (stdin w) as [|line rest]; [discriminate|].
  destruct (fmt.token (fmt.skipSpaces line)) as [word tl].
  destruct (String.eqb word "") eqn:Ew; [discriminate|].
  destruct (String.eqb (fmt.skipSpaces tl) ""); [|discriminate].
  destruct turns; cbn [acquireKey setApiKey apiKey]; rewrite Ew; discriminate.
Qed.

Lemma acquireKey_present turns g w : apiKey g ≠ ""%string →
  acquireKey turns g w = (Return (g, None), w).
Proof.
  intros H. apply String.eqb_neq in H. destruct turns; cbn [acquireKey]; now rewrite H.
Qed.

Lemma newGeocoderFromFile_returns filename w g w' :
  newGeocoderFromFile filename w = (Return (g, None), w') →
  ∃ g0 w1, loadState filename w = (Return (g0, None), w1) ∧
           acquireKey (S (length (stdin w1))) g0 w1 = (Return (g, None), w').
Proof.
  unfold newGeocoderFromFile. intros H.
  apply bind_returns in H as ([g0 [e|]] & w1 & HL & H).
  - unfold sys.ret in H. discriminate.
  - apply bind_returns in H as (w2 & w3 & Hget & H). unfold sys.get in Hget.
    injection Hget as <- <-. now exists g0, w1.
Qed.

(** The record [newGeocoderFromFile] returns has its mutex free and its
    [fileStore] open on the file, which is empty. *)
Lemma newGeocoderFromFile_opens filename w g w' :
  newGeocoderFromFile filename w = (Return (g, None), w') →
  mutex g = false ∧ fileStore g = Some (length (files w)) ∧
  files w' !! length (files w) = Some {| path := filename; offset := 0 |} ∧
  disk w' !! filename = Some (File "").
Proof.
  intros H. apply newGeocoderFromFile_returns in H as (g0 & w1 & HL & HA).
  destruct (loadState_disk _ _ _ _ HL) as (Hd1 & _ & Hf1).
  apply acquireKey_frame in HA as (Hd & Hf & Hm & Hs).
  assert (Hg0 : mutex g0 = false ∧ fileStore g0 = Some (length (files w))).
  { revert HL. unfold loadState, sys.bind at 1, os.ReadFile.
    destruct (disk w !! filename) as [[c|]|] eqn:Hdk; cbv beta iota;
      cbn [os.IsNotExist os.Err negb option_map]; try (unfold sys.ret; discriminate);
      unfold sys.bind at 1; rewrite Create_file by (rewrite Hdk; discriminate);
      [destruct (Split_nonempty c newline) as (l & lines & ->)
      |destruct (Split_nonempty "" newline) as (l & lines & ->)];
      unfold sys.bind;
      match goal with |- context [restore ?ls ?g ?w'] =>
        destruct (restore_lines l lines (Some (length (files w))) w') as [err ->] end;
      intros H; injection H as <- <-; split; reflexivity. }
  destruct Hg0 as [Hm0 Hs0].
  split; [congruence|]. split; [congruence|]. split.
  - rewrite Hf, Hf1. rewrite lookup_app_r by lia. now rewrite Nat.sub_diag.
  - now rewrite Hd, Hd1, lookup_insert_eq.
Qed.

(** [init] leaves the package initialised and idle. *)
Lemma init_ready s0 s : init s0 = (Return tt, s) → ready s = true.
Proof.
  unfold init. intros H.
  apply bind_returns in H as ([g e] & s1 & HN & H).
  apply bind_returns in H as ([] & s2 & HA & H).
  destruct e as [e|]; [discriminate|]. unfold sys.ret in H. injection H as <-.
  unfold assign in HA. injection HA as <-.
  unfold inWorld in HN.
  destruct (newGeocoderFromFile ".geocoder-data" (world s0)) as [r w'] eqn:E.
  injection HN as -> <-.
  destruct (newGeocoderFromFile_opens _ _ _ _ E) as (Hm & Hs & Hf & Hd).
  unfold ready, storeFile, fileContent. cbn [world geocoderInstance].
  rewrite Hm, Hs. cbn [mbind option_bind negb andb]. rewrite Hf.
  cbn [mbind option_bind path]. now rewrite Hd.
Qed.

End Load.

Section Truncation.
Import sys googlegeocode spec.

(** C9. [newGeocoderFromFile] reads the state file and then creates it
    anew, which empties it: when it has returned, the file is empty while
    the record in memory holds what the file held, and the file stays
    empty all through the body of the first [GetResults], until the
    deferred [store] of that call writes it. *)
Theorem C9_loading_empties_the_file filename w g w' :
  newGeocoderFromFile filename w = (Return (g, None), w') →
  fileContent w' filename = Some ""%string ∧
  (∀ l lines,
     disk w !! filename = Some (File (strings.Join (l :: lines) (String newline ""))) →
     forallb isLine (l :: lines) = true → l ≠ ""%string →
     g = setFileStore (recordOfLines (Local w) (l :: lines)) (Some (length (files w)))) ∧
  (∀ Unmarshal address r s2,
     admit_ Unmarshal address (locked {| world := w'; geocoderInstance := g |}) = (r, s2) →
     fileContent (world s2) filename = Some ""%string).
Proof.
  intros H. apply newGeocoderFromFile_returns in H as (g0 & w1 & HL & HA).
  destruct (loadState_disk _ _ _ _ HL) as (Hd1 & _ & _).
  pose proof (acquireKey_disk _ _ _ _ _ HA) as Hd'.
  assert (Hempty : fileContent w' filename = Some ""%string).
  { unfold fileContent. now rewrite Hd', Hd1, lookup_insert_eq. }
  split; [exact Hempty|]. split.
  - intros l lines Hd Hl Hne. rewrite (loadState_lines _ _ _ _ Hd Hl) in HL.
    injection HL as <- <-. rewrite acquireKey_present in HA by exact Hne.
    now injection HA as <-.
  - intros Unmarshal address r s2 E. apply admit_frame in E as [_ F].
    unfold fileContent in *. rewrite (frame_disk _ _ F). exact Hempty.
Qed.

End Truncation.

Section RoundTrip.
Import slice digits calendar time strings.

Lemma digitChar_not_newline d : 0 <= d <= 9 → Ascii.eqb (digitChar d) newline = false.
Proof.
  intros H.
  destruct (digit_cases d H) as [-> | [-> | [-> | [-> | [-> | [-> | [-> | [-> | [-> | ->]]]]]]]]];
    reflexivity.
Qed.

Lemma isLine_fixedDigits w : ∀ u, ContainsRune (fixedDigits w u) newline = false.
Proof.
  induction w as [|w IH]; intros u; cbn [fixedDigits]; [reflexivity|].
  rewrite ContainsRune_append, IH. cbn [ContainsRune orb].
  rewrite digitChar_not_newline; [reflexivity|].
  pose proof (Z.mod_pos_bound u 10). lia.
Qed.

Lemma isLine_trimZeros s c : ContainsRune s c = false → ContainsRune (trimZeros s) c = false.
Proof.
  induction s as [|a s IH]; [reflexivity|]. cbn [ContainsRune trimZeros]. intros H.
  apply orb_false_iff in H as [Ha Hs]. specialize (IH Hs).
  destruct (trimZeros s) as [|b r].
  - destruct (Ascii.eqb a "0"); cbn [ContainsRune]; [reflexivity | now rewrite Ha].
  - cbn [ContainsRune] in *. now rewrite Ha, IH.
Qed.

(** A time that RFC 3339 can write is printed on one line. *)
Lemma isLine_Format t : spec.representable t = true →
  spec.isLine (Format t RFC3339Nano) = true.
Proof.
  unfold spec.representable, spec.isLine, Format, localFields.
  set (off := zoneOffset (loc t) (unixSec t)).
  set (abs := unixSec t + off).
  destruct (civilFromDays (abs / 86400)) as [[y m] d] eqn:Ec.
  intros H. apply andb_true_iff in H as [H Habs]. apply andb_true_iff in H as [H Hmod].
  apply andb_true_iff in H as [Hy0 Hy1].
  apply Z.leb_le in Hy0, Hy1. apply Z.eqb_eq in Hmod. apply Z.ltb_lt in Habs.
  destruct (civilFromDays_valid _ _ _ _ Ec) as (Hm & Hd & Hdays).
  assert (Hd' : d <= 31).
  { unfold daysIn in Hd. destruct (m =? 2); [destruct (isLeap y); lia|].
    destruct ((m =? 4) || (m =? 6) || (m =? 9) || (m =? 11)); lia. }
  set (secs := abs mod 86400).
  assert (Hsecs : 0 <= secs < 86400) by (apply Z.mod_pos_bound; lia).
  assert (Hh : 0 <= secs / 3600 <= 23) by (Z.div_mod_to_equations; lia).
  assert (Hmi : 0 <= secs mod 3600 / 60 <= 59) by (Z.div_mod_to_equations; lia).
  assert (Hs : 0 <= secs mod 60 <= 59) by (Z.div_mod_to_equations; lia).
  assert (Hns : 0 <= Nanosecond t < 1000000000) by (apply Z.mod_pos_bound; lia).
  rewrite (appendInt_fixed y 4), (appendInt_fixed m 2), (appendInt_fixed d 2),
    (appendInt_fixed (secs / 3600) 2), (appendInt_fixed (secs mod 3600 / 60) 2),
    (appendInt_fixed (secs mod 60) 2)
    by (lia || (change (Z.of_nat 2) with 2; lia) || (change (Z.of_nat 4) with 4; lia)).
  apply negb_true_iff.
  rewrite !ContainsRune_append, !isLine_fixedDigits. cbn [ContainsRune orb Ascii.eqb Bool.eqb newline].
  apply orb_false_iff. split.
  - unfold appendNano. destruct (Nanosecond t =? 0); [reflexivity|].
    rewrite appendInt_fixed by (lia || (change (Z.of_nat 9) with 9; lia)).
    cbn [ContainsRune Ascii.eqb Bool.eqb newline orb].
    apply isLine_trimZeros, isLine_fixedDigits.
  - unfold appendZone. destruct (off =? 0); [reflexivity|].
    assert (Hz : 0 <= Z.abs (Z.quot off 60) < 1440).
    { assert (Hdiv : (60 | off)) by (apply Z.mod_divide; lia).
      apply Z.rem_divide in Hdiv; [|lia].
      pose proof (Z.quot_rem off 60 ltac:(lia)). lia. }
    assert (Hzh : 0 <= Z.abs (Z.quot off 60) / 60 <= 23) by (Z.div_mod_to_equations; lia).
    assert (Hzm : 0 <= Z.abs (Z.quot off 60) mod 60 <= 59) by (Z.div_mod_to_equations; lia).
    rewrite (appendInt_fixed (Z.abs (Z.quot off 60) / 60) 2),
      (appendInt_fixed (Z.abs (Z.quot off 60) mod 60) 2)
      by (lia || (change (Z.of_nat 2) with 2; lia)).
    rewrite !ContainsRune_append, !isLine_fixedDigits.
    destruct (Z.quot off 60 <? 0); reflexivity.
Qed.

Lemma ParseBool_FormatBool b : strconv.ParseBool (strconv.FormatBool b) = (b, None).
Proof. destruct b; reflexivity. Qed.

Lemma isLine_FormatBool b : spec.isLine (strconv.FormatBool b) = true.
Proof. destruct b; reflexivity. Qed.

Lemma Parse_Format Local t : spec.representable t = true →
  spec.sameTime (fst (Parse Local RFC3339Nano (Format t RFC3339Nano))) t.
Proof.
  intros H. unfold Parse, parse.
  destruct (parseRFC3339_Format t Local H) as (t' & -> & Hs). exact Hs.
Qed.

End RoundTrip.

Section SaveLoad.
Import sys googlegeocode spec.

(** C5 as amended. For every record whose credential has no newline and
    whose two times RFC 3339 can write (a year from 0 to 9999 in their own
    zone, an offset of whole minutes), loading a file that holds
    [string()] of the record gives the record back: the same credential
    and flag, and the same instants with the same offsets.  The default
    record is one of them. *)
Theorem C5_save_then_load filename w g :
  isLine (apiKey g) = true →
  representable (lastQuery g) = true →
  representable (queryLimitExpiration g) = true →
  disk w !! filename = Some (File (string g)) →
  ∃ g' w', loadState filename w = (Return (g', None), w') ∧ sameRecord g' g.
Proof.
  intros Hk Hl He Hd. unfold string in Hd.
  rewrite (loadState_lines _ _ _ _ Hd).
  - eexists _, _. split; [reflexivity|]. unfold sameRecord, recordOfLines.
    cbn [setFileStore apiKey lastQuery queryLimitReached queryLimitExpiration nth].
    rewrite ParseBool_FormatBool. cbn [fst].
    repeat split; try reflexivity; now apply Parse_Format.
  - cbn [forallb]. now rewrite Hk, !isLine_Format, isLine_FormatBool.
Qed.

End SaveLoad.

Section Persistence.
Import sys googlegeocode spec.
Variable Unmarshal : String.string → Results * option error.

(** What a call leaves in the state file: the bytes of [string()] of the
    record as it was when the call began, over what the file held, and
    written after the mutex was released. *)
Lemma GetResults_stores_receiver address s r s' old :
  ready s = true → storeFile s = Some old →
  GetResults Unmarshal address s = (r, s') →
  storeFile s' =
    Some (string (geocoderInstance s) +:+
          slice.drop (String.length (string (geocoderInstance s))) old) ∧
  ∃ file tr, trace (world s') = Wrote file (string (geocoderInstance s)) :: Unlocked :: tr.
Proof.
  intros Hr Hold HG.
  destruct (GetResults_ready Unmarshal address s Hr) as (r0 & s2 & w' & E & _ & F & Hs & HG').
  rewrite HG in HG'. injection HG' as -> ->.
  destruct (ready_inv s Hr) as (Hm & fd & o & old' & Hf & Ho & Hd).
  assert (old' = old) as ->.
  { unfold storeFile, fileContent in Hold. rewrite Hf in Hold. cbn [mbind option_bind] in Hold.
    rewrite Ho in Hold. cbn [mbind option_bind] in Hold. rewrite Hd in Hold. congruence. }
  destruct (store_returns (geocoderInstance s) (emit Unlocked (world s2)) fd o old)
    as (w'' & Hs' & Hdisk & Hfiles & Htrace & _); [exact Hf | | |].
  { cbn [files emit]. rewrite (frame_files _ _ F). exact Ho. }
  { cbn [disk emit]. rewrite (frame_disk _ _ F). exact Hd. }
  rewrite Hs in Hs'. injection Hs' as <-. split.
  - unfold storeFile, fileContent. cbn [world geocoderInstance setMutex fileStore].
    rewrite (frame_fileStore _ _ F). cbn [locked geocoderInstance setMutex fileStore].
    rewrite Hf, Hfiles. cbn [mbind option_bind].
    rewrite list_lookup_insert_eq
      by (cbn [files emit]; rewrite (frame_files _ _ F); eapply lookup_lt_Some; exact Ho).
    cbn [mbind option_bind path]. now rewrite Hdisk, lookup_insert_eq.
  - eexists _, _. cbn [world]. rewrite Htrace. reflexivity.
Qed.

(** A call leaves the package initialised and idle, however it ends. *)
Lemma GetResults_keeps_ready address s r s' :
  ready s = true → GetResults Unmarshal address s = (r, s') → ready s' = true.
Proof.
  intros Hr HG. destruct (ready_inv s Hr) as (Hm & fd & o & old & Hf & Ho & Hd).
  assert (Hold : storeFile s = Some old).
  { unfold storeFile, fileContent. rewrite Hf. cbn [mbind option_bind]. rewrite Ho.
    cbn [mbind option_bind]. now rewrite Hd. }
  destruct (GetResults_stores_receiver address s r s' old Hr Hold HG) as [Hs _].
  destruct (GetResults_ready Unmarshal address s Hr) as (r0 & s2 & w' & _ & _ & F & _ & HG').
  rewrite HG in HG'. injection HG' as -> ->.
  unfold ready. rewrite Hs. now cbn [geocoderInstance setMutex mutex negb andb].
Qed.

End Persistence.

Section DayStart.
Import slice digits calendar time.

Lemma month_cases m : 1 <= m <= 12 →
  m = 1 ∨ m = 2 ∨ m = 3 ∨ m = 4 ∨ m = 5 ∨ m = 6 ∨ m = 7 ∨ m = 8 ∨ m = 9 ∨ m = 10 ∨
  m = 11 ∨ m = 12.
Proof. lia. Qed.

(** Reading a month name that was printed. *)
Lemma parse_month_name m rest : 1 <= m <= 12 →
  let s := nth (Z.to_nat (m - 1)) shortMonthNames "" +:+ String " " rest in
  lookupName shortMonthNames (take 3 s) 1 = Some m ∧ charAt s 3 " " = true ∧ drop 4 s = rest.
Proof.
  intros H.
  destruct (month_cases m H)
    as [-> | [-> | [-> | [-> | [-> | [-> | [-> | [-> | [-> | [-> | [-> | ->]]]]]]]]]]];
    repeat split; reflexivity.
Qed.

Lemma day_cases d : 1 <= d <= 31 →
  (d = 1 ∨ d = 2 ∨ d = 3 ∨ d = 4 ∨ d = 5 ∨ d = 6 ∨ d = 7 ∨ d = 8 ∨ d = 9 ∨ d = 10) ∨
  (d = 11 ∨ d = 12 ∨ d = 13 ∨ d = 14 ∨ d = 15 ∨ d = 16 ∨ d = 17 ∨ d = 18 ∨ d = 19 ∨ d = 20) ∨
  (d = 21 ∨ d = 22 ∨ d = 23 ∨ d = 24 ∨ d = 25 ∨ d = 26 ∨ d = 27 ∨ d = 28 ∨ d = 29 ∨ d = 30 ∨
   d = 31).
Proof. lia. Qed.

(** Reading a day of the month that was printed without padding. *)
Lemma parse_day d rest : 1 <= d <= 31 →
  spanDigits (appendInt d 0 +:+ String " " rest) = (appendInt d 0, String " " rest) ∧
  parseUint (appendInt d 0) 0 99 = Some d ∧
  (1 <=? Z.of_nat (String.length (appendInt d 0))) &&
  (Z.of_nat (String.length (appendInt d 0)) <=? 2) = true.
Proof.
  intros H.
  destruct (day_cases d H) as
    [[-> | [-> | [-> | [-> | [-> | [-> | [-> | [-> | [-> | ->]]]]]]]]] |
     [[-> | [-> | [-> | [-> | [-> | [-> | [-> | [-> | [-> | ->]]]]]]]]] |
      [-> | [-> | [-> | [-> | [-> | [-> | [-> | [-> | [-> | [-> | ->]]]]]]]]]]]];
    repeat split; reflexivity.
Qed.

(** Printing a time as "Jan 2 2006" and reading it in the same location
    gives the start of its calendar day there. *)
Lemma ParseInLocation_Format_day l now : spec.fourDigitYear l now = true →
  ParseInLocation MonthDayYear (Format (In now l) MonthDayYear) l =
  (spec.localDayStart l now, None).
Proof.
  unfold spec.fourDigitYear, spec.localDayStart, ParseInLocation, parse, Format.
  unfold localFields at 1 2 3.
  set (off := zoneOffset (loc (In now l)) (unixSec (In now l))).
  set (abs := unixSec (In now l) + off).
  destruct (civilFromDays (abs / 86400)) as [[y m] d] eqn:Ec.
  intros H. apply andb_true_iff in H as [Hy0 Hy1]. apply Z.leb_le in Hy0, Hy1.
  destruct (civilFromDays_valid _ _ _ _ Ec) as (Hm & Hd & _).
  assert (Hd' : d <= 31).
  { unfold daysIn in Hd. destruct (m =? 2); [destruct (isLeap y); lia|].
    destruct ((m =? 4) || (m =? 6) || (m =? 9) || (m =? 11)); lia. }
  rewrite (appendInt_fixed y 4) by (lia || (change (Z.of_nat 4) with 4; lia)).
  unfold parseMonthDayYear.
  change (" " +:+ appendInt d 0 +:+ " " +:+ fixedDigits 4 y)
    with (String " " (appendInt d 0 +:+ String " " (fixedDigits 4 y))).
  destruct (parse_month_name m (appendInt d 0 +:+ String " " (fixedDigits 4 y)) Hm)
    as (Hname & Hsp & Hdrop).
  rewrite Hname. cbn [mbind option_bind]. rewrite Hsp, Hdrop. cbn [negb].
  destruct (parse_day d (fixedDigits 4 y) ltac:(lia)) as (Hspan & Hday & Hlen).
  rewrite Hspan, Hday. cbn [mbind option_bind]. rewrite Hlen. cbn [negb].
  rewrite fixedDigits_4. cbn [charAt String.get Ascii.eqb Bool.eqb negb String.length Nat.eqb drop].
  rewrite parseUint_4 by lia. cbn [mbind option_bind].
  destruct (Z.ltb_spec d 1); [lia|]. destruct (Z.ltb_spec (daysIn m y) d); [lia|].
  cbn [orb]. unfold localFields. fold off. fold abs. now rewrite Ec.
Qed.

End DayStart.

Section Expiration.
Import sys googlegeocode spec.

Variable Unmarshal : String.string → Results * option error.

Lemma answersOverLimit_inv w : answersOverLimit Unmarshal w = true →
  ∃ x rest body results, network w = x :: rest ∧ reply x = Answered body ∧
    Unmarshal body = (results, None) ∧ Status results = "OVER_QUERY_LIMIT"%string.
Proof.
  unfold answersOverLimit. destruct (network w) as [|x rest]; [discriminate|].
  destruct (reply x) as [e | body | e] eqn:Er; try discriminate.
  destruct (Unmarshal body) as [results [e|]] eqn:Eu; [discriminate|].
  intros H. apply String.eqb_eq in H. now exists x, rest, body, results.
Qed.

(** What the request does when it is answered OVER_QUERY_LIMIT: the limit
    is recorded, and it expires 24 hours after the start of the Pacific
    day in which the answer was seen. *)
Lemma exchange_over_limit address s :
  answersOverLimit Unmarshal (world s) = true → zoneinfo (world s) = true →
  let g := geocoderInstance s in
  let now := {| time.unixNano := clock (world s); time.loc := Local (world s) |} in
  let seen := {| time.unixNano :=
                   clock (world s) + Z.max 0 (pacing (lastQuery g) now) + nextLatency (world s);
                 time.loc := Local (world s) |} in
  fourDigitYear time.LosAngeles seen = true →
  ∃ s', exchange Unmarshal address s = (Return (zeroResults, Some quotaError), s') ∧
    queryLimitReached (geocoderInstance s') = true ∧
    lastQuery (geocoderInstance s') = seen ∧
    queryLimitExpiration (geocoderInstance s') =
      time.Add (localDayStart time.LosAngeles seen) (time.Hour * 24).
Proof.
  intros Ha Hz. destruct (answersOverLimit_inv _ Ha) as (x & rest & body & results & Hn & Hr & Hu & Hs).
  destruct s as [[] []], x as [lat rep]. cbn [world geocoderInstance network zoneinfo reply] in *.
  subst. cbv zeta. unfold nextLatency, pacing.
  cbn [world geocoderInstance lastQuery clock Local network latency]. intros Hy.
  unfold exchange. run. rewrite Hu. cbv beta iota. rewrite Hs.
  change (String.eqb "OVER_QUERY_LIMIT" "OVER_QUERY_LIMIT") with true. cbv beta iota.
  change (time.LoadLocation true "America/Los_Angeles") with (time.LosAngeles, @None error).
  cbv beta iota.
  match goal with |- context [time.ParseInLocation _ (time.Format (time.In ?t _) _) _] =>
    rewrite (ParseInLocation_Format_day time.LosAngeles t Hy) end.
  eexists. split; [reflexivity|]. repeat split.
Qed.

(** A call that is answered OVER_QUERY_LIMIT returns the quota error and
    records the limit, to expire 24 hours after the start of the Pacific
    day in which the answer was seen. *)
Lemma GetResults_over_limit address s :
  ready s = true → gateOpen s = true →
  answersOverLimit Unmarshal (world s) = true → zoneinfo (world s) = true →
  let g := geocoderInstance s in
  let now := {| time.unixNano := clock (world s); time.loc := Local (world s) |} in
  let seen := {| time.unixNano :=
                   clock (world s) + Z.max 0 (pacing (lastQuery g) now) + nextLatency (world s);
                 time.loc := Local (world s) |} in
  fourDigitYear time.LosAngeles seen = true →
  ∃ s', GetResults Unmarshal address s = (Return (zeroResults, Some quotaError), s') ∧
    queryLimitReached (geocoderInstance s') = true ∧
    lastQuery (geocoderInstance s') = seen ∧
    queryLimitExpiration (geocoderInstance s') =
      time.Add (localDayStart time.LosAngeles seen) (time.Hour * 24).
Proof.
  intros Hr Ho Ha Hz g now seen Hy.
  destruct (GetResults_ready Unmarshal address s Hr) as (r & s2 & w' & E & _ & _ & _ & HG).
  rewrite admit_open in E by assumption.
  destruct (exchange_over_limit address
              {| world := emit Locked (world s);
                 geocoderInstance := setQueryLimitReached (setMutex (geocoderInstance s) true) false |}
              Ha Hz Hy) as (s' & E' & Hq & Hl & Hx).
  rewrite E' in E. injection E as <- <-.
  eexists. split; [exact HG|]. cbn [geocoderInstance setMutex queryLimitReached lastQuery
    queryLimitExpiration]. now repeat split.
Qed.

End Expiration.

(** * The state file under [store] *)
Section Store.
Import sys googlegeocode spec.

Lemma length_drop (n : nat) (s : String.string) :
  String.length (slice.drop n s) = (String.length s - n)%nat.
Proof.
  revert s. induction n as [|n IH]; intros [|c s]; cbn [slice.drop String.length]; try lia.
  rewrite IH. lia.
Qed.

Lemma drop_nil (n : nat) (s : String.string) :
  slice.drop n s = ""%string ↔ (String.length s <= n)%nat.
Proof.
  revert s. induction n as [|n IH]; intros [|c s]; cbn [slice.drop String.length];
    try (split; [lia | reflexivity]); try (split; [discriminate | lia]).
  rewrite IH. lia.
Qed.

Lemma append_nil_inv (s t : String.string) : s +:+ t = s → t = ""%string.
Proof. induction s as [|c s IH]; cbn; [auto|]. intros H. injection H as H. auto. Qed.

(** X1. [store] on an open regular file, whatever the offset of the open
    file was: the file then starts with [g.string()] and goes on with what
    it held beyond that length.  So its length is the larger of the two,
    and it holds exactly [g.string()] if and only if what it held before
    was not longer. *)
Theorem store_overwrites_the_start g w fd o old :
  fileStore g = Some fd → files w !! fd = Some o → disk w !! path o = Some (File old) →
  ∃ w' content,
    store g w = (Return tt, w') ∧
    fileContent w' (path o) = Some content ∧
    content = string g +:+ slice.drop (String.length (string g)) old ∧
    String.length content = Nat.max (String.length (string g)) (String.length old) ∧
    (content = string g ↔ (String.length old <= String.length (string g))%nat) ∧
    (∀ p, p ≠ path o → disk w' !! p = disk w !! p).
Proof.
  intros Hf Ho Hd.
  destruct (store_returns g w fd o old Hf Ho Hd) as (w' & Hs & Hdisk & _).
  exists w', (string g +:+ slice.drop (String.length (string g)) old).
  split; [exact Hs|]. split.
  { unfold fileContent. now rewrite Hdisk, lookup_insert_eq. }
  split; [reflexivity|]. split.
  { rewrite length_append, length_drop. lia. }
  split.
  { rewrite <- drop_nil. split.
    - apply append_nil_inv.
    - intros ->. apply append_nil_r. }
  intros p Hp. rewrite Hdisk. now apply lookup_insert_ne.
Qed.


End Store.

(** * The first run, and the prompt *)
Section Prompt.
Import sys googlegeocode spec.

(** One turn of the loop that asks for the credential. *)
Lemma acquireKey_turn turns g w : apiKey g = ""%string →
  acquireKey (S turns) g w =
  match stdin w with
  | [] => (Return (zeroGeocoder, Some (promptError "EOF")), emit (Printed prompt) w)
  | line :: rest =>
      let w' := setStdin (emit (Printed prompt) w) rest in
      let '(word, tl) := fmt.token (fmt.skipSpaces line) in
      if String.eqb word "" then (Return (zeroGeocoder, Some (promptError "unexpected newline")), w')
      else if String.eqb (fmt.skipSpaces tl) "" then (Return (setApiKey g word, None), w')
      else (Return (zeroGeocoder, Some (promptError "expected newline")), w')
  end.
Proof.
  intros Hk. cbn [acquireKey]. rewrite Hk. cbn [String.eqb].
  unfold sys.bind at 1, fmt.Print. unfold sys.bind at 1, fmt.Scanln. cbn [stdin emit].
  destruct (stdin w) as [|line rest]; [reflexivity|]. cbv zeta.
  destruct (fmt.token (fmt.skipSpaces line)) as [word tl].
  destruct (String.eqb word "") eqn:Ew; [reflexivity|].
  destruct (String.eqb (fmt.skipSpaces tl) ""); [|reflexivity].
  destruct turns; cbn [acquireKey setApiKey apiKey]; rewrite Ew; reflexivity.
Qed.

Lemma skipSpaces_word s : isWord s = true → fmt.skipSpaces s = s.
Proof.
  unfold isWord. destruct s as [|c s]; [reflexivity|]. cbn [strings.ContainsRune fmt.skipSpaces].
  intros H. apply andb_true_iff in H as [_ H]. apply negb_true_iff in H.
  apply orb_false_iff in H as [-> _]. reflexivity.
Qed.

Lemma token_word s : strings.ContainsRune s " " = false → fmt.token s = (s, ""%string).
Proof.
  induction s as [|c s IH]; [reflexivity|]. cbn [strings.ContainsRune fmt.token]. intros H.
  apply orb_false_iff in H as [-> H]. now rewrite IH.
Qed.

(** What [loadState] leaves alone, however it ends. *)
Lemma loadState_frame filename w :
  ∃ g err w1, loadState filename w = (Return (g, err), w1) ∧
    trace w1 = trace w ∧ stdin w1 = stdin w ∧ clock w1 = clock w ∧ network w1 = network w ∧
    Local w1 = Local w ∧ zoneinfo w1 = zoneinfo w ∧
    match err with
    | Some _ => g = zeroGeocoder ∧ w1 = w ∧ disk w !! filename = Some Dir
    | None =>
        disk w !! filename ≠ Some Dir ∧
        disk w1 = <[filename := File ""]> (disk w) ∧
        files w1 = files w ++ [{| path := filename; offset := 0 |}] ∧
        mutex g = false ∧ fileStore g = Some (length (files w))
    end.
Proof.
  unfold loadState, sys.bind at 1, os.ReadFile.
  destruct (disk w !! filename) as [[c|]|] eqn:Hd; cbv beta iota;
    cbn [os.IsNotExist os.Err negb option_map].
  - destruct (Split_nonempty c newline) as (l & lines & E).
    unfold sys.bind at 1. rewrite Create_file by (rewrite Hd; discriminate).
    rewrite E. unfold sys.bind.
    match goal with |- context [restore ?ls ?g ?w'] =>
      destruct (restore_lines l lines (Some (length (files w))) w') as [err ->] end.
    eexists _, None, _. split; [reflexivity|]. cbn. repeat split; discriminate.
  - unfold sys.ret. eexists _, (Some _), _. split; [reflexivity|]. now repeat split.
  - destruct (Split_nonempty "" newline) as (l & lines & E).
    unfold sys.bind at 1. rewrite Create_file by (rewrite Hd; discriminate).
    rewrite E. unfold sys.bind.
    match goal with |- context [restore ?ls ?g ?w'] =>
      destruct (restore_lines l lines (Some (length (files w))) w') as [err ->] end.
    eexists _, None, _. split; [reflexivity|]. cbn. repeat split; discriminate.
Qed.

(** How [newGeocoderFromFile] goes on after the file was read and
    created. *)
Lemma newGeocoderFromFile_unfold filename w g0 w1 :
  loadState filename w = (Return (g0, None), w1) →
  newGeocoderFromFile filename w = acquireKey (S (length (stdin w1))) g0 w1.
Proof. intros H. unfold newGeocoderFromFile, sys.bind at 1. rewrite H. reflexivity. Qed.

Lemma newGeocoderFromFile_fails filename w g0 e w1 :
  loadState filename w = (Return (g0, Some e), w1) →
  newGeocoderFromFile filename w = (Return (zeroGeocoder, Some e), w1).
Proof. intros H. unfold newGeocoderFromFile, sys.bind at 1. rewrite H. reflexivity. Qed.

(** The loop that asks for the credential takes one turn at most. *)
Lemma newGeocoderFromFile_prompt filename w :
  ∃ g err w', newGeocoderFromFile filename w = (Return (g, err), w') ∧
    (trace w' = trace w ∧ stdin w' = stdin w ∨
     trace w' = Printed prompt :: trace w ∧ stdin w' = tl (stdin w)).
Proof.
  destruct (loadState_frame filename w) as (g0 & [e|] & w1 & HL & Ht & Hi & _).
  - rewrite (newGeocoderFromFile_fails _ _ _ _ _ HL). eexists _, _, _. split; [reflexivity|].
    left. now split.
  - rewrite (newGeocoderFromFile_unfold _ _ _ _ HL).
    destruct (String.eqb (apiKey g0) "") eqn:Ek.
    + apply String.eqb_eq in Ek. rewrite (acquireKey_turn _ _ _ Ek). rewrite <- Ht, <- Hi.
      destruct (stdin w1) as [|line rest] eqn:Ei.
      * eexists _, _, _. split; [reflexivity|]. right. cbn [emit trace stdin]. now rewrite Ei.
      * cbv zeta. destruct (fmt.token (fmt.skipSpaces line)) as [word tl'].
        destruct (String.eqb word ""); [|destruct (String.eqb (fmt.skipSpaces tl') "")];
          (eexists _, _, _; split; [reflexivity|]; right; now split).
    + apply String.eqb_neq in Ek. rewrite acquireKey_present by exact Ek.
      eexists _, _, _. split; [reflexivity|]. left. now split.
Qed.

(** What [newGeocoderFromFile] returns: a record with a credential and
    an open [fileStore] when there is no error, and the zero record with
    an error. *)
Lemma newGeocoderFromFile_result filename w g err w' :
  newGeocoderFromFile filename w = (Return (g, err), w') →
  match err with
  | None => apiKey g ≠ ""%string
  | Some _ => g = zeroGeocoder
  end.
Proof.
  destruct (loadState_frame filename w) as (g0 & [e|] & w1 & HL & _).
  - rewrite (newGeocoderFromFile_fails _ _ _ _ _ HL). intros H. now injection H as <- <- <-.
  - rewrite (newGeocoderFromFile_unfold _ _ _ _ HL).
    destruct (String.eqb (apiKey g0) "") eqn:Ek.
    + apply String.eqb_eq in Ek. rewrite (acquireKey_turn _ _ _ Ek).
      destruct (stdin w1) as [|line rest].
      * intros H. now injection H as <- <- <-.
      * cbv zeta. destruct (fmt.token (fmt.skipSpaces line)) as [word tl'].
        destruct (String.eqb word "") eqn:Ew;
          [|destruct (String.eqb (fmt.skipSpaces tl') "")];
          intros H; injection H as <- <- <-; try reflexivity.
        cbn [setApiKey apiKey]. now apply String.eqb_neq.
    + apply String.eqb_neq in Ek. rewrite acquireKey_present by exact Ek.
      intros H. now injection H as <- <- <-.
Qed.

(** X3. The loop that asks for the credential takes one turn at most:
    [newGeocoderFromFile] always returns, and it has either printed nothing
    and read nothing, or printed the prompt once and taken one line of
    the terminal (none if there was none).  Without an error the record
    it returns has a credential; with an error it returns the zero
    record. *)
Theorem newGeocoderFromFile_asks_once filename w :
  ∃ g err w', newGeocoderFromFile filename w = (Return (g, err), w') ∧
    (trace w' = trace w ∧ stdin w' = stdin w ∨
     trace w' = Printed prompt :: trace w ∧ stdin w' = tl (stdin w)) ∧
    match err with
    | None => apiKey g ≠ ""%string
    | Some _ => g = zeroGeocoder
    end.
Proof.
  destruct (newGeocoderFromFile_prompt filename w) as (g & err & w' & HN & Hp).
  exists g, err, w'. split; [exact HN|]. split; [exact Hp|].
  exact (newGeocoderFromFile_result _ _ _ _ _ HN).
Qed.

(** X4. [newGeocoderFromFile] touches the one file it is given, and
    neither the clock nor the network.  When the path is a directory it
    returns an error and has changed nothing; in every other case the file
    exists and is empty when it returns, with or without an error. *)
Theorem newGeocoderFromFile_touches_one_file filename w r w' :
  newGeocoderFromFile filename w = (r, w') →
  (∀ p, p ≠ filename → disk w' !! p = disk w !! p) ∧
  clock w' = clock w ∧ network w' = network w ∧
  requests (trace w') = requests (trace w) ∧
  match disk w !! filename with
  | Some Dir => disk w' = disk w ∧ files w' = files w ∧ ∃ e, r = Return (zeroGeocoder, Some e)
  | _ => fileContent w' filename = Some ""%string
  end.
Proof.
  destruct (loadState_frame filename w)
    as (g0 & [e|] & w1 & HL & Ht & Hi & Hc & Hn & _ & _ & Hcase).
  - rewrite (newGeocoderFromFile_fails _ _ _ _ _ HL). intros H. injection H as <- <-.
    destruct Hcase as (_ & -> & Hd). rewrite Hd. repeat split; eauto.
  - destruct Hcase as (Hnd & Hd & Hf & _).
    rewrite (newGeocoderFromFile_unfold _ _ _ _ HL).
    assert (Hfin : ∀ w2 : World, disk w2 = disk w1 → clock w2 = clock w1 →
              network w2 = network w1 → requests (trace w2) = requests (trace w1) →
              (∀ p, p ≠ filename → disk w2 !! p = disk w !! p) ∧
              clock w2 = clock w ∧ network w2 = network w ∧
              requests (trace w2) = requests (trace w) ∧
              match disk w !! filename with
              | Some Dir => disk w2 = disk w ∧ files w2 = files w ∧
                            ∃ e, r = Return (zeroGeocoder, Some e)
              | _ => fileContent w2 filename = Some ""%string
              end).
    { intros w2 H1 H2 H3 H4. rewrite H1, H2, H3, H4, Hd, Hc, Hn, Ht.
      split; [intros p Hp; now apply lookup_insert_ne|]. repeat split.
      assert (He : fileContent w2 filename = Some ""%string).
      { unfold fileContent. now rewrite H1, Hd, lookup_insert_eq. }
      destruct (disk w !! filename) as [[c|]|]; try exact He. now contradiction Hnd. }
    destruct (String.eqb (apiKey g0) "") eqn:Ek.
    + apply String.eqb_eq in Ek. rewrite (acquireKey_turn _ _ _ Ek).
      destruct (stdin w1) as [|line rest].
      * intros H. injection H as <- <-. now apply Hfin.
      * cbv zeta. destruct (fmt.token (fmt.skipSpaces line)) as [word tl'].
        destruct (String.eqb word ""); [|destruct (String.eqb (fmt.skipSpaces tl') "")];
          intros H; injection H as <- <-; now apply Hfin.
    + apply String.eqb_neq in Ek. rewrite acquireKey_present by exact Ek.
      intros H. injection H as <- <-. now apply Hfin.
Qed.


(** X6. When the credential has to be asked and the terminal gives no
    word, because it is at its end or the line typed is blank,
    [newGeocoderFromFile] returns an error without asking again; the state
    file is empty by then. *)
Theorem newGeocoderFromFile_no_answer filename w :
  disk w !! filename = None →
  match stdin w with
  | [] => True
  | line :: _ => fmt.skipSpaces line = ""%string
  end →
  ∃ w', newGeocoderFromFile filename w =
          (Return (zeroGeocoder,
                   Some (promptError (match stdin w with
                                      | [] => "EOF"
                                      | _ => "unexpected newline"
                                      end))), w') ∧
    trace w' = Printed prompt :: trace w ∧ stdin w' = tl (stdin w) ∧
    fileContent w' filename = Some ""%string.
Proof.
  intros Hd Hi.
  rewrite (newGeocoderFromFile_unfold _ _ _ _ (loadState_absent filename w Hd)).
  rewrite acquireKey_turn by reflexivity.
  rewrite Create_file by (rewrite Hd; discriminate). cbn [snd stdin setFiles setDisk].
  destruct (stdin w) as [|line rest] eqn:Ei.
  - eexists. split; [reflexivity|].
    unfold fileContent. cbn [trace stdin disk emit setFiles setDisk].
    now rewrite Ei, lookup_insert_eq.
  - cbv zeta. rewrite Hi. cbn [fmt.token String.eqb].
    eexists. split; [reflexivity|].
    unfold fileContent. cbn [trace stdin disk emit setFiles setDisk setStdin tl].
    now rewrite lookup_insert_eq.
Qed.

(** X7. [init] never waits: it returns, and then the package is
    initialised and idle, it has a credential, and the state file is
    empty; or it panics, and [geocoderInstance] is the zero record. *)
Theorem init_returns_ready_or_panics s0 :
  ∃ s, (init s0 = (Return tt, s) ∧ ready s = true ∧
        apiKey (geocoderInstance s) ≠ ""%string ∧ storeFile s = Some ""%string) ∨
       (∃ msg, init s0 = (Panic msg, s) ∧ geocoderInstance s = zeroGeocoder).
Proof.
  destruct (newGeocoderFromFile_prompt ".geocoder-data" (world s0))
    as (g & err & w' & HN & _).
  pose proof (newGeocoderFromFile_result _ _ _ _ _ HN) as Hres.
  exists {| world := w'; geocoderInstance := g |}.
  assert (Hinit : init s0 =
            (match err with Some e => Panic e | None => Return tt end,
             {| world := w'; geocoderInstance := g |})).
  { cbv beta iota delta [init sys.bind inWorld assign sys.panic sys.ret].
    rewrite HN. cbv beta iota. now destruct err. }
  rewrite Hinit. destruct err as [e|].
  - right. exists e. split; [reflexivity|]. exact Hres.
  - left. split; [reflexivity|].
    destruct (newGeocoderFromFile_opens _ _ _ _ HN) as (Hm & Hs & Hf & Hd).
    assert (Hsf : storeFile {| world := w'; geocoderInstance := g |} = Some ""%string).
    { unfold storeFile, fileContent. cbn [world geocoderInstance].
      rewrite Hs. cbn [mbind option_bind]. rewrite Hf. cbn [mbind option_bind path].
      now rewrite Hd. }
    split; [|split; [exact Hres | exact Hsf]].
    unfold ready. rewrite Hsf. cbn [geocoderInstance]. now rewrite Hm.
Qed.

End Prompt.

(** * One call, step by step *)
Section Steps.
Import sys googlegeocode spec.
Variable Unmarshal : String.string → Results * option error.

(** The clock, the network and the trace after the pause, the request
    and the decoding, however they end. *)
Lemma exchange_steps address s r s' :
  exchange Unmarshal address s = (r, s') →
  let g := geocoderInstance s in
  let now := {| time.unixNano := clock (world s); time.loc := Local (world s) |} in
  clock (world s') = clock (world s) + Z.max 0 (pacing (lastQuery g) now) + nextLatency (world s) ∧
  network (world s') = tl (network (world s)) ∧
  trace (world s') =
    match transportError (requestURL g address) (world s) with
    | Some _ => []
    | None => [BodyClosed]
    end ++ Requested (requestURL g address) :: Slept (pacing (lastQuery g) now) ::
           trace (world s).
Proof.
  intros H. destruct s as [[] []]. run.
  unfold transportError, nextLatency, requestURL, pacing. cbn [network].
  repeat split_match; try discriminate; injection H as <- <-;
    cbn [world geocoderInstance trace clock network reply latency tl app];
    repeat split; try reflexivity; lia.
Qed.

Lemma gateOpen_false s : gateOpen s = false →
  queryLimitReached (geocoderInstance s) = true ∧
  clock (world s) < time.unixNano (queryLimitExpiration (geocoderInstance s)).
Proof.
  unfold gateOpen, time.Before. cbn [time.unixNano]. intros H.
  apply orb_false_iff in H as [H1 H2]. apply negb_false_iff in H1, H2.
  split; [exact H1 | now apply Z.ltb_lt].
Qed.

(** A call on an initialised, idle package, around its body: the body
    runs under the mutex; then the mutex is released and the receiver of
    [store] is written to the state file. *)
Lemma GetResults_body address s : ready s = true →
  ∃ r s2 s' f,
    admit_ Unmarshal address (locked s) = (r, s2) ∧ r ≠ Blocked ∧ Frame (locked s) s2 ∧
    GetResults Unmarshal address s = (r, s') ∧
    geocoderInstance s' = setMutex (geocoderInstance s2) false ∧
    trace (world s') = Wrote f (string (geocoderInstance s)) :: Unlocked :: trace (world s2) ∧
    clock (world s') = clock (world s2) ∧ network (world s') = network (world s2) ∧
    stdin (world s') = stdin (world s) ∧ Local (world s') = Local (world s) ∧
    zoneinfo (world s') = zoneinfo (world s) ∧
    (∀ p, p ≠ f → disk (world s') !! p = disk (world s) !! p).
Proof.
  intros Hr.
  destruct (GetResults_ready Unmarshal address s Hr) as (r & s2 & w' & E & Hnb & F & Hs & HG).
  destruct (ready_inv s Hr) as (Hm & fd & o & old & Hf & Ho & Hd).
  destruct (store_returns (geocoderInstance s) (emit Unlocked (world s2)) fd o old)
    as (w'' & Hs' & Hdisk & Hfiles & Htrace & Hclock & HLocal & Hzone & Hstdin & Hnet);
    [exact Hf | | |].
  { cbn [files emit]. rewrite (frame_files _ _ F). exact Ho. }
  { cbn [disk emit]. rewrite (frame_disk _ _ F). exact Hd. }
  rewrite Hs in Hs'. injection Hs' as <-.
  exists r, s2, {| world := w'; geocoderInstance := setMutex (geocoderInstance s2) false |}, (path o).
  split; [exact E|]. split; [exact Hnb|]. split; [exact F|]. split; [exact HG|].
  cbn [world geocoderInstance]. split; [reflexivity|]. split; [exact Htrace|].
  split; [exact Hclock|]. split; [exact Hnet|].
  split; [rewrite Hstdin; cbn [stdin emit]; now rewrite (frame_stdin _ _ F)|].
  split; [rewrite HLocal; cbn [Local emit]; now rewrite (frame_Local _ _ F)|].
  split; [rewrite Hzone; cbn [zoneinfo emit]; now rewrite (frame_zoneinfo _ _ F)|].
  intros p Hp. rewrite Hdisk, lookup_insert_ne by congruence.
  cbn [disk emit]. now rewrite (frame_disk _ _ F).
Qed.

(** The trace of the body of a call. *)
Lemma admit_trace address s r s2 :
  admit_ Unmarshal address (locked s) = (r, s2) →
  let g := geocoderInstance s in
  let now := {| time.unixNano := clock (world s); time.loc := Local (world s) |} in
  let url := requestURL g address in
  trace (world s2) =
    (if gateOpen s then
       match transportError url (world s) with
       | Some _ => []
       | None => [BodyClosed]
       end ++ [Requested url; Slept (pacing (lastQuery g) now)]
     else []) ++
    Locked :: trace (world s).
Proof.
  intros E g now url. destruct (gateOpen s) eqn:Hgate.
  - rewrite admit_open in E by assumption.
    apply exchange_steps in E as (_ & _ & E). rewrite E.
    unfold transportError, requestURL.
    cbn [world geocoderInstance network emit trace apiKey lastQuery setQueryLimitReached
         setMutex clock Local].
    fold (requestURL (geocoderInstance s) address). fold url. fold g. fold now.
    now rewrite <- app_assoc.
  - apply gateOpen_false in Hgate as [Hq Hlt].
    rewrite admit_rejects in E; [| exact Hq | exact Hlt].
    now injection E as <- <-.
Qed.

Lemma printed_app tr tr' : printed (tr ++ tr') = printed tr ++ printed tr'.
Proof.
  induction tr as [|e tr IH]; [reflexivity|]. destruct e; cbn [app printed]; now rewrite ?IH.
Qed.

(** A call prints nothing. *)
Lemma GetResults_prints_nothing address s r s' :
  ready s = true → GetResults Unmarshal address s = (r, s') →
  printed (trace (world s')) = printed (trace (world s)).
Proof.
  intros Hr HG.
  destruct (GetResults_body address s Hr)
    as (r0 & s2 & s0 & f & E & _ & _ & HG' & _ & Ht & _).
  rewrite HG in HG'. injection HG' as -> ->.
  rewrite Ht, (admit_trace _ _ _ _ E). cbn [printed]. rewrite printed_app. cbn [printed].
  destruct (gateOpen s); [|reflexivity]. rewrite printed_app.
  now destruct (transportError (requestURL (geocoderInstance s) address) (world s)).
Qed.

(** X8. The steps of a call, in the order they are taken, on every path
    out of [GetResults], a panic included: the mutex is locked; if the
    quota gate is open, the pause and the request follow, and the body of
    a response is closed; then the mutex is unlocked, and last of all the
    record the call began with is written to the state file. *)
Theorem GetResults_steps address s r s' :
  ready s = true → GetResults Unmarshal address s = (r, s') →
  let g := geocoderInstance s in
  let now := {| time.unixNano := clock (world s); time.loc := Local (world s) |} in
  let url := requestURL g address in
  ∃ file,
    trace (world s') =
      Wrote file (string g) :: Unlocked ::
      (if gateOpen s then
         match transportError url (world s) with
         | Some _ => []
         | None => [BodyClosed]
         end ++ [Requested url; Slept (pacing (lastQuery g) now)]
       else []) ++
      Locked :: trace (world s).
Proof.
  intros Hr HG g now url.
  destruct (GetResults_body address s Hr)
    as (r0 & s2 & s0 & f & E & _ & _ & HG' & _ & Ht & _).
  rewrite HG in HG'. injection HG' as -> ->.
  exists f. rewrite Ht. do 2 f_equal. exact (admit_trace _ _ _ _ E).
Qed.

(** The clock when a call that got a response returns. *)
Lemma GetResults_clock address s r s' :
  ready s = true → gateOpen s = true →
  transportError (requestURL (geocoderInstance s) address) (world s) = None →
  GetResults Unmarshal address s = (r, s') →
  clock (world s') = time.unixNano (arrival s).
Proof.
  intros Hr Ho He HG.
  destruct (GetResults_body address s Hr)
    as (r0 & s2 & s0 & f & E & _ & _ & HG' & _ & _ & Hc & _).
  rewrite HG in HG'. injection HG' as <- <-. rewrite Hc.
  rewrite admit_open in E by assumption.
  now apply exchange_steps in E as (-> & _).
Qed.

End Steps.

(** * How a call ends *)
Section Ends.
Import sys googlegeocode spec.
Variable Unmarshal : String.string → Results * option error.

Lemma arrival_opened s : arrival (opened s) = arrival s.
Proof. reflexivity. Qed.

(** The request of a call whose response cannot be used. *)
Lemma exchange_unusable address s e : unusable Unmarshal (world s) = Some e →
  ∃ s', exchange Unmarshal address s = (Return (zeroResults, Some e), s') ∧
    lastQuery (geocoderInstance s') = arrival s ∧
    queryLimitReached (geocoderInstance s') = queryLimitReached (geocoderInstance s) ∧
    queryLimitExpiration (geocoderInstance s') = queryLimitExpiration (geocoderInstance s).
Proof.
  unfold unusable, arrival, nextLatency, pacing. destruct s as [[] []].
  cbn [world geocoderInstance network clock Local lastQuery]. intros H.
  destruct network0 as [|[lat rep] rest]; [discriminate|]. cbn [reply latency] in *.
  unfold exchange. run.
  destruct rep as [e0 | body | e0]; [discriminate | |].
  - cbv beta iota. destruct (Unmarshal body) as [res [e1|]]; [|discriminate].
    injection H as <-. eexists. split; [reflexivity|]. now repeat split.
  - injection H as <-. eexists. split; [reflexivity|]. now repeat split.
Qed.

(** The request of a call that is answered with a payload of another
    status than OVER_QUERY_LIMIT. *)
Lemma exchange_answers address s results :
  answers Unmarshal (world s) results → Status results ≠ "OVER_QUERY_LIMIT"%string →
  ∃ s', exchange Unmarshal address s = (Return (results, None), s') ∧
    lastQuery (geocoderInstance s') = arrival s ∧
    queryLimitReached (geocoderInstance s') = queryLimitReached (geocoderInstance s) ∧
    queryLimitExpiration (geocoderInstance s') = queryLimitExpiration (geocoderInstance s).
Proof.
  intros (x & rest & body & Hn & Hr & Hu) Hs. apply String.eqb_neq in Hs.
  unfold arrival, nextLatency, pacing. destruct s as [[] []], x as [lat rep].
  cbn [world geocoderInstance network clock Local lastQuery reply latency] in *. subst.
  unfold exchange. run. rewrite Hu. cbv beta iota. rewrite Hs.
  eexists. split; [reflexivity|]. now repeat split.
Qed.

(** A payload that comes without an error is the decoded body of the
    response to the request of this call. *)
Lemma exchange_payload address s results s' :
  exchange Unmarshal address s = (Return (results, None), s') →
  answers Unmarshal (world s) results.
Proof.
  intros H. destruct s as [[] []]. unfold answers. cbn [world network]. run.
  repeat split_match; try discriminate; injection H as <- <-.
  all: eexists _, _, _; repeat split; eassumption.
Qed.

(** The request of a call that is answered OVER_QUERY_LIMIT on a system
    without the zone database. *)
Lemma exchange_without_zoneinfo address s :
  answersOverLimit Unmarshal (world s) = true → zoneinfo (world s) = false →
  ∃ s', exchange Unmarshal address s =
          (Panic "Could not find the timezone for 'America/Los_Angeles' which is needed to set limit expiration (unknown time zone America/Los_Angeles)", s') ∧
    queryLimitReached (geocoderInstance s') = true ∧
    lastQuery (geocoderInstance s') = arrival s ∧
    queryLimitExpiration (geocoderInstance s') = queryLimitExpiration (geocoderInstance s).
Proof.
  intros Ha Hz.
  destruct (answersOverLimit_inv _ _ Ha) as (x & rest & body & results & Hn & Hr & Hu & Hs).
  unfold arrival, nextLatency, pacing. destruct s as [[] []], x as [lat rep].
  cbn [world geocoderInstance network zoneinfo clock Local lastQuery reply latency] in *. subst.
  unfold exchange. run. rewrite Hu. cbv beta iota. rewrite Hs.
  change (String.eqb "OVER_QUERY_LIMIT" "OVER_QUERY_LIMIT") with true. cbv beta iota.
  change (time.LoadLocation false "America/Los_Angeles")
    with (time.UTC, Some "unknown time zone America/Los_Angeles"%string).
  cbv beta iota. eexists. split; [reflexivity|]. now repeat split.
Qed.

End Ends.

(** * The outcomes of a call *)
Section Outcome.
Import sys googlegeocode spec.
Variable Unmarshal : String.string → Results * option error.

(** A call that finds the quota gate open, around its request. *)
Lemma GetResults_request address s : ready s = true → gateOpen s = true →
  ∃ r s2 s',
    exchange Unmarshal address (opened s) = (r, s2) ∧
    GetResults Unmarshal address s = (r, s') ∧
    geocoderInstance s' = setMutex (geocoderInstance s2) false ∧
    clock (world s') = clock (world s2) ∧ network (world s') = network (world s2) ∧
    responses (trace (world s')) = responses (trace (world s2)).
Proof.
  intros Hr Ho.
  destruct (GetResults_body Unmarshal address s Hr)
    as (r & s2 & s' & f & E & _ & _ & HG & Hg & Ht & Hc & Hn & _).
  rewrite admit_open in E by assumption. fold (opened s) in E.
  exists r, s2, s'. rewrite Ht. now repeat split.
Qed.

(** X9. [GetResults] returns a payload without an error exactly when the
    quota gate is open and the request of the call is answered with a body
    that decodes to that payload, whose status is not OVER_QUERY_LIMIT.
    Any other status the API reports comes back as a success. *)
Theorem GetResults_succeeds_iff address s results : ready s = true →
  (∃ s', GetResults Unmarshal address s = (Return (results, None), s')) ↔
  gateOpen s = true ∧ answers Unmarshal (world s) results ∧
  Status results ≠ "OVER_QUERY_LIMIT"%string.
Proof.
  intros Hr. split.
  - intros (s' & HG).
    destruct (GetResults_body Unmarshal address s Hr)
      as (r & s2 & s0 & f & E & _ & _ & HG' & _).
    rewrite HG in HG'. injection HG' as <- <-.
    destruct (gateOpen s) eqn:Hgate.
    + split; [reflexivity|]. split.
      * rewrite admit_open in E by assumption. now apply exchange_payload in E.
      * now apply (admit_payload Unmarshal _ _ _ _ _ E).
    + apply gateOpen_false in Hgate as [Hq Hlt].
      rewrite admit_rejects in E by assumption. discriminate.
  - intros (Ho & Ha & Hs).
    destruct (GetResults_request address s Hr Ho) as (r & s2 & s' & E & HG & _).
    pose proof (exchange_answers Unmarshal address (opened s) results Ha Hs) as (s3 & E' & _).
    rewrite E' in E. injection E as <- <-. now exists s'.
Qed.

(** X10. A response that cannot be used, because its body breaks off or
    does not decode, is an error of the call, and it counts as the last
    query all the same: [lastQuery] becomes the time it arrived, and its
    body is closed. *)
Theorem GetResults_unusable_response address s e :
  ready s = true → gateOpen s = true → unusable Unmarshal (world s) = Some e →
  ∃ s', GetResults Unmarshal address s = (Return (zeroResults, Some e), s') ∧
    lastQuery (geocoderInstance s') = arrival s ∧
    queryLimitReached (geocoderInstance s') = false ∧
    queryLimitExpiration (geocoderInstance s') = queryLimitExpiration (geocoderInstance s) ∧
    responses (trace (world s')) = S (responses (trace (world s))).
Proof.
  intros Hr Ho Hu.
  destruct (GetResults_request address s Hr Ho) as (r & s2 & s' & E & HG & Hg & _ & _ & Hresp).
  assert (He : transportError (requestURL (geocoderInstance (opened s)) address)
                 (world (opened s)) = None).
  { revert Hu. unfold unusable, transportError, opened. cbn [world network emit].
    destruct (network (world s)) as [|x rest]; [discriminate|].
    destruct (reply x); (discriminate || reflexivity). }
  pose proof (exchange_unusable Unmarshal address (opened s) e Hu) as (s3 & E' & Hl & Hq & Hx).
  pose proof (exchange_steps Unmarshal _ _ _ _ E) as (_ & _ & Ht). rewrite He in Ht.
  rewrite E' in E. injection E as <- <-.
  exists s'. split; [exact HG|]. rewrite Hg, Hresp, Ht.
  cbn [setMutex lastQuery queryLimitReached queryLimitExpiration].
  rewrite Hl, Hq, Hx. split; [apply arrival_opened|]. now repeat split.
Qed.

(** The request of a call returns, unless it is answered OVER_QUERY_LIMIT
    and then the zone database is missing or the year has more than four
    digits. *)
Lemma exchange_returns address s r s' :
  exchange Unmarshal address s = (r, s') →
  (answersOverLimit Unmarshal (world s) = true →
   zoneinfo (world s) = true ∧ fourDigitYear time.LosAngeles (arrival s) = true) →
  ∃ res, r = Return res.
Proof.
  intros E H. destruct (answersOverLimit Unmarshal (world s)) eqn:Ha.
  - destruct (H eq_refl) as [Hz Hy].
    destruct (exchange_over_limit Unmarshal address s Ha Hz Hy) as (s3 & E' & _).
    rewrite E' in E. injection E as <- <-. now eexists.
  - clear H. unfold answersOverLimit in Ha. destruct s as [[] []]. cbn [world network] in Ha. run.
    repeat split_match; try discriminate; injection E as <- <-; try (now eexists).
Qed.

(** X11. With the zone database installed and a clock in the years 0 to
    9999, [GetResults] does not panic: it returns. *)
Theorem GetResults_returns_without_panic address s :
  ready s = true →
  (answersOverLimit Unmarshal (world s) = true →
   zoneinfo (world s) = true ∧ fourDigitYear time.LosAngeles (arrival s) = true) →
  ∃ res s', GetResults Unmarshal address s = (Return res, s').
Proof.
  intros Hr H.
  destruct (GetResults_body Unmarshal address s Hr)
    as (r & s2 & s' & f & E & _ & _ & HG & _).
  destruct (gateOpen s) eqn:Hgate.
  - rewrite admit_open in E by assumption. fold (opened s) in E.
    apply exchange_returns in E as [res ->]; [now exists res, s'|].
    rewrite arrival_opened. exact H.
  - apply gateOpen_false in Hgate as [Hq Hlt].
    rewrite admit_rejects in E by assumption. injection E as <- <-. eexists _, _; apply HG.
Qed.

(** X12. On a system without the zone database, a call that is answered
    OVER_QUERY_LIMIT panics.  The deferred calls have run by then: the
    package is idle again, with its mutex free.  The limit is recorded as
    reached, but [queryLimitExpiration] is what it was. *)
Theorem GetResults_panics_without_zoneinfo address s :
  ready s = true → gateOpen s = true →
  answersOverLimit Unmarshal (world s) = true → zoneinfo (world s) = false →
  ∃ s', GetResults Unmarshal address s =
          (Panic "Could not find the timezone for 'America/Los_Angeles' which is needed to set limit expiration (unknown time zone America/Los_Angeles)", s') ∧
    ready s' = true ∧
    queryLimitReached (geocoderInstance s') = true ∧
    queryLimitExpiration (geocoderInstance s') = queryLimitExpiration (geocoderInstance s) ∧
    lastQuery (geocoderInstance s') = arrival s.
Proof.
  intros Hr Ho Ha Hz.
  destruct (GetResults_request address s Hr Ho) as (r & s2 & s' & E & HG & Hg & _).
  pose proof (exchange_without_zoneinfo Unmarshal address (opened s) Ha Hz) as (s3 & E' & Hq & Hl & Hx).
  rewrite E' in E. injection E as <- <-.
  exists s'. split; [exact HG|]. split; [exact (GetResults_keeps_ready _ _ _ _ _ Hr HG)|].
  rewrite Hg. cbn [setMutex lastQuery queryLimitReached queryLimitExpiration].
  rewrite Hl, Hq, Hx. split; [reflexivity|]. split; [reflexivity|]. apply arrival_opened.
Qed.

End Outcome.

(** * The rate of the requests *)
Section Rate.
Import sys googlegeocode spec.
Variable Unmarshal : String.string → Results * option error.

(** The pause of a call that finds a [lastQuery] that is not in the
    future: it ends 20 ms after [lastQuery] or later, and lasts 20 ms at
    most. *)
Lemma pacing_bounds lq now : time.unixNano lq <= time.unixNano now →
  time.unixNano lq + 20 * time.Millisecond <= time.unixNano now + Z.max 0 (pacing lq now) ∧
  Z.max 0 (pacing lq now) <= 20 * time.Millisecond.
Proof.
  intros H. unfold pacing, time.Sub, time.wrap64, time.minDuration, time.maxDuration,
    time.Millisecond.
  set (d := time.unixNano now - time.unixNano lq).
  assert (Hd : 0 <= d) by (unfold d; lia).
  replace (time.unixNano lq) with (time.unixNano now - d) by (unfold d; lia).
  clearbody d.
  destruct (Z.ltb_spec d (- 2 ^ 63)); [lia|].
  destruct (Z.ltb_spec (2 ^ 63 - 1) d).
  - rewrite Z.mod_small by lia. lia.
  - rewrite Z.mod_small by lia. lia.
Qed.

Lemma responses_app tr tr' : responses (tr ++ tr') = (responses tr + responses tr')%nat.
Proof.
  induction tr as [|e tr IH]; [reflexivity|]. destruct e; cbn [app responses]; lia.
Qed.

(** What one call does to the clock, to [lastQuery] and to the number of
    responses, whatever [lastQuery] it finds. *)
Lemma GetResults_response address s r s' :
  ready s = true → GetResults Unmarshal address s = (r, s') →
  r ≠ Blocked ∧ ready s' = true ∧ clock (world s) <= clock (world s') ∧
  (responses (trace (world s')) = responses (trace (world s)) ∧
   lastQuery (geocoderInstance s') = lastQuery (geocoderInstance s) ∨
   responses (trace (world s')) = S (responses (trace (world s))) ∧
   time.unixNano (lastQuery (geocoderInstance s')) = clock (world s')).
Proof.
  intros Hr HG.
  pose proof (GetResults_keeps_ready _ _ _ _ _ Hr HG) as Hr'.
  destruct (GetResults_body Unmarshal address s Hr)
    as (r0 & s2 & s0 & f & E & Hnb & _ & HG' & Hg & Ht & Hc & _).
  rewrite HG in HG'. injection HG' as <- <-.
  split; [exact Hnb|]. split; [exact Hr'|].
  assert (Hlat : 0 <= nextLatency (world s)).
  { unfold nextLatency. destruct (network (world s)); lia. }
  rewrite Hg, Ht, Hc. cbn [setMutex lastQuery responses].
  destruct (gateOpen s) eqn:Hgate.
  - rewrite admit_open in E by assumption. fold (opened s) in E.
    pose proof (exchange_steps Unmarshal _ _ _ _ E) as (Hclock & _ & Htrace).
    pose proof (exchange_effect Unmarshal _ _ _ _ E) as (_ & _ & _ & Hlast).
    cbv zeta in Hclock, Htrace, Hlast.
    change (nextLatency (world (opened s))) with (nextLatency (world s)) in *.
    change (clock (world (opened s))) with (clock (world s)) in *.
    change (transportError (requestURL (geocoderInstance (opened s)) address) (world (opened s)))
      with (transportError (requestURL (geocoderInstance s) address) (world s)) in *.
    change (trace (world (opened s))) with (Locked :: trace (world s)) in *.
    rewrite Hclock, Htrace, responses_app. cbn [responses].
    destruct (transportError (requestURL (geocoderInstance s) address) (world s)) as [e|].
    + destruct Hlast as (_ & Hl & _). rewrite Hl. cbn [responses]. split; [lia|]. now left.
    + rewrite Hlast. cbn [responses time.unixNano]. split; [lia|]. now right.
  - apply gateOpen_false in Hgate as [Hq Hlt].
    rewrite admit_rejects in E by assumption. injection E as <- <-.
    cbn [locked world geocoderInstance clock emit trace responses setMutex lastQuery].
    split; [lia|]. now left.
Qed.

(** What one call does to the clock, to [lastQuery] and to the number of
    responses. *)
Lemma GetResults_tick address s r s' :
  ready s = true →
  time.unixNano (lastQuery (geocoderInstance s)) <= clock (world s) →
  GetResults Unmarshal address s = (r, s') →
  r ≠ Blocked ∧ ready s' = true ∧
  clock (world s) <= clock (world s') <= clock (world s) + 20 * time.Millisecond + nextLatency (world s) ∧
  time.unixNano (lastQuery (geocoderInstance s')) <= clock (world s') ∧
  (responses (trace (world s')) = responses (trace (world s)) ∧
   lastQuery (geocoderInstance s') = lastQuery (geocoderInstance s) ∨
   gateOpen s = true ∧
   transportError (requestURL (geocoderInstance s) address) (world s) = None ∧
   responses (trace (world s')) = S (responses (trace (world s))) ∧
   lastQuery (geocoderInstance s') = arrival s ∧
   clock (world s') = time.unixNano (arrival s) ∧
   time.unixNano (lastQuery (geocoderInstance s)) + 20 * time.Millisecond + nextLatency (world s)
     <= time.unixNano (arrival s)).
Proof.
  intros Hr Hlq HG.
  pose proof (GetResults_keeps_ready _ _ _ _ _ Hr HG) as Hr'.
  destruct (GetResults_body Unmarshal address s Hr)
    as (r0 & s2 & s0 & f & E & Hnb & _ & HG' & Hg & Ht & Hc & _).
  rewrite HG in HG'. injection HG' as <- <-.
  split; [exact Hnb|]. split; [exact Hr'|].
  assert (Hlat : 0 <= nextLatency (world s)).
  { unfold nextLatency. destruct (network (world s)); lia. }
  rewrite Hg, Ht, Hc. cbn [setMutex lastQuery responses].
  destruct (gateOpen s) eqn:Hgate.
  - rewrite admit_open in E by assumption. fold (opened s) in E.
    pose proof (exchange_steps Unmarshal _ _ _ _ E) as (Hclock & _ & Htrace).
    pose proof (exchange_effect Unmarshal _ _ _ _ E) as (_ & _ & _ & Hlast).
    cbv zeta in Hclock, Htrace, Hlast.
    change (nextLatency (world (opened s))) with (nextLatency (world s)) in *.
    change (clock (world (opened s))) with (clock (world s)) in *.
    change (Local (world (opened s))) with (Local (world s)) in *.
    change (lastQuery (geocoderInstance (opened s))) with (lastQuery (geocoderInstance s)) in *.
    change (transportError (requestURL (geocoderInstance (opened s)) address) (world (opened s)))
      with (transportError (requestURL (geocoderInstance s) address) (world s)) in *.
    change (trace (world (opened s))) with (Locked :: trace (world s)) in *.
    destruct (pacing_bounds (lastQuery (geocoderInstance s))
                {| time.unixNano := clock (world s); time.loc := Local (world s) |} Hlq)
      as [Hlow Hup].
    cbn [time.unixNano] in Hlow. unfold arrival.
    set (pause := Z.max 0 (pacing (lastQuery (geocoderInstance s))
                    {| time.unixNano := clock (world s); time.loc := Local (world s) |})) in *.
    rewrite Hclock, Htrace, responses_app. cbn [responses]. unfold time.Millisecond in *.
    destruct (transportError (requestURL (geocoderInstance s) address) (world s)) as [e|].
    + destruct Hlast as (_ & Hl & _). rewrite Hl. cbn [responses].
      split; [lia|]. split; [lia|]. now left.
    + rewrite Hlast. cbn [responses time.unixNano].
      split; [lia|]. split; [lia|]. right. repeat split; lia.
  - apply gateOpen_false in Hgate as [Hq Hlt].
    rewrite admit_rejects in E by assumption. injection E as <- <-.
    cbn [locked world geocoderInstance clock emit trace responses setMutex lastQuery].
    unfold time.Millisecond. split; [lia|]. split; [lia|]. now left.
Qed.

(** The pause of a call, when [lastQuery] is not so far ahead of the
    clock that the subtraction leaves int64: what is left of the 20 ms. *)
Lemma pacing_exact lq now :
  time.unixNano lq - time.unixNano now <= time.maxDuration - 20 * time.Millisecond →
  Z.max 0 (pacing lq now) = Z.max 0 (time.unixNano lq + 20 * time.Millisecond - time.unixNano now).
Proof.
  unfold pacing, time.Sub, time.wrap64, time.minDuration, time.maxDuration, time.Millisecond.
  intros H. set (d := time.unixNano now - time.unixNano lq).
  replace (time.unixNano lq + 20 * 1000000 - time.unixNano now) with (20 * 1000000 - d)
    by (unfold d; lia).
  assert (Hd : - (2 ^ 63 - 1 - 20 * 1000000) <= d) by (unfold d; lia). clearbody d.
  destruct (Z.ltb_spec d (- 2 ^ 63)); [lia|].
  destruct (Z.ltb_spec (2 ^ 63 - 1) d); rewrite Z.mod_small by lia; lia.
Qed.

(** The pause of a call that finds [lastQuery] further ahead than that:
    the subtraction wraps around, and the pause is negative. *)
Lemma pacing_wraps lq now :
  time.maxDuration - 20 * time.Millisecond < time.unixNano lq - time.unixNano now →
  pacing lq now < 0.
Proof.
  unfold pacing, time.Sub, time.wrap64, time.minDuration, time.maxDuration, time.Millisecond.
  intros H. set (d := time.unixNano now - time.unixNano lq).
  assert (Hd : d < - (2 ^ 63 - 1 - 20 * 1000000)) by (unfold d; lia). clearbody d.
  destruct (Z.ltb_spec d (- 2 ^ 63)).
  - change ((20 * 1000000 - - 2 ^ 63 + 2 ^ 63) mod 2 ^ 64 - 2 ^ 63) with (20 * 1000000 - 2 ^ 63).
    lia.
  - destruct (Z.ltb_spec (2 ^ 63 - 1) d); [lia|].
    replace (20 * 1000000 - d + 2 ^ 63) with (20 * 1000000 - d - 2 ^ 63 + 1 * 2 ^ 64) by lia.
    rewrite Z.mod_add by lia. rewrite Z.mod_small by lia. lia.
Qed.

(** A call that gets a response, around the pause. *)
Lemma GetResults_arrival address s :
  ready s = true → gateOpen s = true →
  transportError (requestURL (geocoderInstance s) address) (world s) = None →
  ∃ r s', GetResults Unmarshal address s = (r, s') ∧
    lastQuery (geocoderInstance s') = arrival s ∧ clock (world s') = time.unixNano (arrival s).
Proof.
  intros Hr Ho He.
  destruct (GetResults_open Unmarshal address s Hr Ho) as (r & s' & HG & _ & _ & _ & Hlast).
  cbv zeta in Hlast. rewrite He in Hlast.
  exists r, s'. split; [exact HG|]. split; [exact Hlast|].
  exact (GetResults_clock Unmarshal address s r s' Hr Ho He HG).
Qed.

(** X13. The pace of a call that gets a response, when [lastQuery] is not
    more than 2^63 ns less 20 ms ahead of the clock.  The request goes out
    at once if 20 ms have passed since [lastQuery], and 20 ms after
    [lastQuery] if not; [lastQuery] becomes the time at which the response
    arrives, which is the time at which the call returns. *)
Theorem GetResults_keeps_the_pace address s :
  ready s = true → gateOpen s = true →
  transportError (requestURL (geocoderInstance s) address) (world s) = None →
  time.unixNano (lastQuery (geocoderInstance s)) - clock (world s)
    <= time.maxDuration - 20 * time.Millisecond →
  ∃ r s', GetResults Unmarshal address s = (r, s') ∧
    time.unixNano (lastQuery (geocoderInstance s')) =
      Z.max (clock (world s))
            (time.unixNano (lastQuery (geocoderInstance s)) + 20 * time.Millisecond) +
      nextLatency (world s) ∧
    clock (world s') = time.unixNano (lastQuery (geocoderInstance s')).
Proof.
  intros Hr Ho He Hlq.
  destruct (GetResults_arrival address s Hr Ho He) as (r & s' & HG & Hl & Hc).
  exists r, s'. split; [exact HG|]. rewrite Hl, Hc. split; [|reflexivity].
  unfold arrival. cbn [time.unixNano].
  rewrite (pacing_exact (lastQuery (geocoderInstance s))
             {| time.unixNano := clock (world s); time.loc := Local (world s) |} Hlq).
  cbn [time.unixNano]. unfold time.Millisecond. lia.
Qed.

(** X14. A call that finds [lastQuery] more than 2^63 ns less 20 ms ahead
    of the clock (292 years, as a state file can have it) does not pause
    at all: the int64 subtraction of the pause wraps around to a negative
    duration, and the request goes out at once. *)
Theorem GetResults_pause_wraps_around address s :
  ready s = true → gateOpen s = true →
  transportError (requestURL (geocoderInstance s) address) (world s) = None →
  time.maxDuration - 20 * time.Millisecond
    < time.unixNano (lastQuery (geocoderInstance s)) - clock (world s) →
  ∃ r s', GetResults Unmarshal address s = (r, s') ∧
    pauses (trace (world s')) =
      pacing (lastQuery (geocoderInstance s))
        {| time.unixNano := clock (world s); time.loc := Local (world s) |} ::
      pauses (trace (world s)) ∧
    pacing (lastQuery (geocoderInstance s))
      {| time.unixNano := clock (world s); time.loc := Local (world s) |} < 0 ∧
    clock (world s') = clock (world s) + nextLatency (world s) ∧
    time.unixNano (lastQuery (geocoderInstance s')) = clock (world s').
Proof.
  intros Hr Ho He Hlq.
  destruct (GetResults_arrival address s Hr Ho He) as (r & s' & HG & Hl & Hc).
  destruct (GetResults_open Unmarshal address s Hr Ho) as (r0 & s0 & HG' & _ & Hp & _).
  rewrite HG in HG'. injection HG' as <- <-. cbv zeta in Hp.
  pose proof (pacing_wraps (lastQuery (geocoderInstance s))
                {| time.unixNano := clock (world s); time.loc := Local (world s) |} Hlq) as Hneg.
  exists r, s'. split; [exact HG|]. split; [exact Hp|]. split; [exact Hneg|].
  rewrite Hl, Hc. split; [|reflexivity]. unfold arrival. cbn [time.unixNano]. lia.
Qed.

(** What a run of calls does to the clock, to [lastQuery] and to the
    number of responses. *)
Lemma session_tick calls : ∀ s r s',
  ready s = true →
  time.unixNano (lastQuery (geocoderInstance s)) <= clock (world s) →
  session Unmarshal calls s = (r, s') →
  let n := Z.of_nat (responses (trace (world s'))) - Z.of_nat (responses (trace (world s))) in
  r ≠ Blocked ∧ ready s' = true ∧ 0 <= n ∧
  clock (world s) <= clock (world s') ∧
  time.unixNano (lastQuery (geocoderInstance s')) <= clock (world s') ∧
  time.unixNano (lastQuery (geocoderInstance s)) + 20 * time.Millisecond * n
    <= time.unixNano (lastQuery (geocoderInstance s')) ∧
  (1 <= n → clock (world s) + 20 * time.Millisecond * (n - 1)
            <= time.unixNano (lastQuery (geocoderInstance s'))).
Proof.
  induction calls as [|[d address] calls IH]; intros s r s' Hr Hlq HS; cbv zeta.
  - cbn [session] in HS. unfold sys.ret in HS. injection HS as <- <-.
    split; [discriminate|]. split; [exact Hr|]. lia.
  - cbn [session] in HS. unfold sys.bind at 1, idle at 1 in HS.
    set (s0 := {| world := setClock (world s) (clock (world s) + Z.max 0 d);
                  geocoderInstance := geocoderInstance s |}) in HS.
    assert (Hr0 : ready s0 = true) by exact Hr.
    assert (Hlq0 : time.unixNano (lastQuery (geocoderInstance s0)) <= clock (world s0))
      by (cbn [s0 world geocoderInstance clock setClock]; lia).
    unfold sys.bind at 1 in HS.
    destruct (GetResults Unmarshal address s0) as [r1 s1] eqn:HG.
    destruct (GetResults_tick address s0 r1 s1 Hr0 Hlq0 HG) as (Hnb1 & Hr1 & Hc1 & Hlq1 & Hcase).
    change (clock (world s0)) with (clock (world s) + Z.max 0 d) in *.
    change (trace (world s0)) with (trace (world s)) in *.
    change (lastQuery (geocoderInstance s0)) with (lastQuery (geocoderInstance s)) in *.
    assert (Hstep :
      let k := Z.of_nat (responses (trace (world s1))) - Z.of_nat (responses (trace (world s))) in
      0 <= k <= 1 ∧
      time.unixNano (lastQuery (geocoderInstance s)) + 20 * time.Millisecond * k
        <= time.unixNano (lastQuery (geocoderInstance s1)) ∧
      (k = 1 → clock (world s) <= time.unixNano (lastQuery (geocoderInstance s1)))).
    { cbv zeta. destruct Hcase as [[Hresp Hl] | (_ & _ & Hresp & Hl & Hcl & Hlow)].
      - rewrite Hresp, Hl. split; [lia|]. split; lia.
      - rewrite Hresp, Hl. unfold nextLatency in Hlow.
        assert (0 <= match network (world s0) with [] => 0 | x :: _ => Z.max 0 (latency x) end)
          by (destruct (network (world s0)); lia).
        rewrite <- Hcl. split; [lia|]. split; [|lia].
        replace (Z.of_nat (S (responses (trace (world s)))) - Z.of_nat (responses (trace (world s))))
          with 1 by lia. lia. }
    cbv zeta in Hstep. destruct Hstep as (Hk & Hlow1 & Hfirst).
    destruct r1 as [res | msg |].
    + unfold sys.bind at 1 in HS.
      destruct (session Unmarshal calls s1) as [r2 s2] eqn:HS2.
      destruct (IH s1 r2 s2 Hr1 Hlq1 HS2) as (Hnb2 & Hr2 & Hn2 & Hc2 & Hlq2 & Hlow2 & Hfirst2).
      assert (s' = s2 ∧ r ≠ Blocked) as [-> Hnb].
      { destruct r2 as [rs | msg |]; [unfold sys.ret in HS| |]; injection HS as <- <-;
          (split; [reflexivity|]); (discriminate || assumption). }
      split; [exact Hnb|]. split; [exact Hr2|].
      unfold time.Millisecond in *. repeat split; lia.
    + injection HS as <- <-. split; [discriminate|]. split; [exact Hr1|].
      unfold time.Millisecond in *. repeat split; lia.
    + now contradiction Hnb1.
Qed.

(** X15. Responses are 20 ms apart: a run of calls that gets n responses
    takes (n - 1) times 20 ms at least, whatever the idle times between the
    calls, whatever the calls return, and whatever [lastQuery] the run
    begins with. *)
Theorem responses_are_20ms_apart calls : ∀ s r s',
  ready s = true → session Unmarshal calls s = (r, s') →
  20 * time.Millisecond *
    (Z.of_nat (responses (trace (world s'))) - Z.of_nat (responses (trace (world s))) - 1)
  <= clock (world s') - clock (world s).
Proof.
  induction calls as [|[d address] calls IH]; intros s r s' Hr HS.
  - cbn [session] in HS. unfold sys.ret in HS. injection HS as <- <-.
    unfold time.Millisecond. lia.
  - cbn [session] in HS. unfold sys.bind at 1, idle at 1 in HS.
    set (s0 := {| world := setClock (world s) (clock (world s) + Z.max 0 d);
                  geocoderInstance := geocoderInstance s |}) in HS.
    assert (Hr0 : ready s0 = true) by exact Hr.
    unfold sys.bind at 1 in HS.
    destruct (GetResults Unmarshal address s0) as [r1 s1] eqn:HG.
    destruct (GetResults_response address s0 r1 s1 Hr0 HG) as (Hnb1 & Hr1 & Hc1 & Hcase).
    change (clock (world s0)) with (clock (world s) + Z.max 0 d) in *.
    change (trace (world s0)) with (trace (world s)) in *.
    destruct r1 as [res | msg |].
    + unfold sys.bind at 1 in HS.
      destruct (session Unmarshal calls s1) as [r2 s2] eqn:HS2.
      assert (s' = s2) as ->.
      { destruct r2 as [rs | msg |]; [unfold sys.ret in HS| |]; now injection HS as <- <-. }
      destruct Hcase as [[Hresp _] | [Hresp Hl]].
      * specialize (IH s1 r2 s2 Hr1 HS2). rewrite Hresp in IH. unfold time.Millisecond in *. lia.
      * destruct (session_tick calls s1 r2 s2 Hr1 ltac:(lia) HS2)
          as (_ & _ & _ & _ & Hlq2 & Hlow2 & _).
        cbv zeta in Hlow2. rewrite Hresp in *. unfold time.Millisecond in *. lia.
    + injection HS as <- <-.
      destruct Hcase as [[Hresp _] | [Hresp _]]; rewrite Hresp; unfold time.Millisecond; lia.
    + now contradiction Hnb1.
Qed.

(** X16. A run of calls on an initialised, idle package never waits for
    the mutex, and however it ends, with a panic of a call too, the
    package is initialised and idle again, with the credential and the
    open file it had. *)
Theorem session_keeps_the_package_ready calls : ∀ s r s',
  ready s = true → session Unmarshal calls s = (r, s') →
  r ≠ Blocked ∧ ready s' = true ∧
  apiKey (geocoderInstance s') = apiKey (geocoderInstance s) ∧
  fileStore (geocoderInstance s') = fileStore (geocoderInstance s) ∧
  stdin (world s') = stdin (world s).
Proof.
  induction calls as [|[d address] calls IH]; intros s r s' Hr HS.
  - cbn [session] in HS. unfold sys.ret in HS. injection HS as <- <-.
    split; [discriminate|]. now repeat split.
  - cbn [session] in HS. unfold sys.bind at 1, idle at 1 in HS.
    set (s0 := {| world := setClock (world s) (clock (world s) + Z.max 0 d);
                  geocoderInstance := geocoderInstance s |}) in HS.
    assert (Hr0 : ready s0 = true) by exact Hr.
    unfold sys.bind at 1 in HS.
    destruct (GetResults_body Unmarshal address s0 Hr0)
      as (r1 & s2 & s1 & f & E & Hnb1 & F & HG & Hg & _ & _ & _ & Hi & _).
    pose proof (GetResults_keeps_ready _ _ _ _ _ Hr0 HG) as Hr1.
    rewrite HG in HS.
    assert (Hk : apiKey (geocoderInstance s1) = apiKey (geocoderInstance s) ∧
                 fileStore (geocoderInstance s1) = fileStore (geocoderInstance s)).
    { rewrite Hg. cbn [setMutex apiKey fileStore].
      now rewrite (frame_apiKey _ _ F), (frame_fileStore _ _ F). }
    destruct Hk as [Hk Hf]. change (stdin (world s0)) with (stdin (world s)) in Hi.
    destruct r1 as [res | msg |].
    + unfold sys.bind at 1 in HS.
      destruct (session Unmarshal calls s1) as [r2 s3] eqn:HS2.
      destruct (IH s1 r2 s3 Hr1 HS2) as (Hnb2 & Hr2 & Hk2 & Hf2 & Hi2).
      assert (s' = s3 ∧ r ≠ Blocked) as [-> Hnb].
      { destruct r2 as [rs | msg |]; [unfold sys.ret in HS| |]; injection HS as <- <-;
          (split; [reflexivity|]); (discriminate || assumption). }
      split; [exact Hnb|]. split; [exact Hr2|]. repeat split; congruence.
    + injection HS as <- <-. split; [discriminate|]. now repeat split.
    + now contradiction Hnb1.
Qed.

(** X17. A call touches one file, the one behind [fileStore], and
    nothing else of the machine but the clock, the network and the trace:
    every other path of the disk, the terminal, the local zone and the
    zone database are as they were, and so are the credential and
    [fileStore] itself. *)
Theorem GetResults_touches_one_file address s r s' fd o :
  ready s = true →
  fileStore (geocoderInstance s) = Some fd → files (world s) !! fd = Some o →
  GetResults Unmarshal address s = (r, s') →
  (∀ p, p ≠ path o → disk (world s') !! p = disk (world s) !! p) ∧
  stdin (world s') = stdin (world s) ∧ Local (world s') = Local (world s) ∧
  zoneinfo (world s') = zoneinfo (world s) ∧
  apiKey (geocoderInstance s') = apiKey (geocoderInstance s) ∧
  fileStore (geocoderInstance s') = fileStore (geocoderInstance s) ∧
  (network (world s') = network (world s) ∨ network (world s') = tl (network (world s))).
Proof.
  intros Hr Hf Ho HG.
  destruct (GetResults_ready Unmarshal address s Hr) as (r0 & s2 & w' & E & _ & F & Hs & HG').
  rewrite HG in HG'. injection HG' as -> ->.
  destruct (ready_inv s Hr) as (_ & fd' & o' & old & Hf' & Ho' & Hd).
  rewrite Hf in Hf'. injection Hf' as <-. rewrite Ho in Ho'. injection Ho' as <-.
  destruct (store_returns (geocoderInstance s) (emit Unlocked (world s2)) fd o old)
    as (w'' & Hs' & Hdisk & _ & _ & _ & HLocal & Hzone & Hstdin & Hnet); [exact Hf | | |].
  { cbn [files emit]. rewrite (frame_files _ _ F). exact Ho. }
  { cbn [disk emit]. rewrite (frame_disk _ _ F). exact Hd. }
  rewrite Hs in Hs'. injection Hs' as <-. cbn [world geocoderInstance setMutex apiKey fileStore].
  split.
  { intros p Hp. rewrite Hdisk, lookup_insert_ne by congruence.
    cbn [disk emit]. now rewrite (frame_disk _ _ F). }
  rewrite Hstdin, HLocal, Hzone, Hnet. cbn [stdin Local zoneinfo network emit].
  rewrite (frame_stdin _ _ F), (frame_Local _ _ F), (frame_zoneinfo _ _ F),
    (frame_apiKey _ _ F), (frame_fileStore _ _ F).
  repeat (split; [reflexivity|]).
  destruct (gateOpen s) eqn:Hgate.
  - rewrite admit_open in E by assumption. apply exchange_steps in E as (_ & -> & _). now right.
  - apply gateOpen_false in Hgate as [Hq Hlt].
    rewrite admit_rejects in E by assumption. injection E as <- <-. now left.
Qed.

End Rate.

(** * The URL of a request *)
Section URL.
Import url googlegeocode spec.

Lemma append_inv_l (s t t' : String.string) : s +:+ t = s +:+ t' → t = t'.
Proof. induction s as [|c s IH]; cbn; [auto|]. intros H. injection H as H. auto. Qed.

Lemma upperhex_inj d d' : 0 <= d < 16 → 0 <= d' < 16 → upperhex d = upperhex d' → d = d'.
Proof.
  intros Hd Hd' H. apply (f_equal nat_of_ascii) in H. revert H. unfold upperhex.
  destruct (Z.ltb_spec d 10), (Z.ltb_spec d' 10);
    rewrite !nat_ascii_embedding by lia; lia.
Qed.

(** A byte that is escaped as [%XX] is determined by its two digits. *)
Lemma hex_inj c c' :
  upperhex (Z.of_nat (nat_of_ascii c) / 16) = upperhex (Z.of_nat (nat_of_ascii c') / 16) →
  upperhex (Z.of_nat (nat_of_ascii c) mod 16) = upperhex (Z.of_nat (nat_of_ascii c') mod 16) →
  c = c'.
Proof.
  intros Hhi Hlo.
  pose proof (nat_ascii_bounded c) as Hc. pose proof (nat_ascii_bounded c') as Hc'.
  apply upperhex_inj in Hhi; [|Z.div_mod_to_equations; lia ..].
  apply upperhex_inj in Hlo; [|Z.div_mod_to_equations; lia ..].
  assert (Hn : nat_of_ascii c = nat_of_ascii c') by (Z.div_mod_to_equations; lia).
  rewrite <- (ascii_nat_embedding c), <- (ascii_nat_embedding c'). now rewrite Hn.
Qed.

(** An escaped string does not begin with [&]. *)
Lemma QueryEscape_head c s t rest : String "&" t ≠ QueryEscape (String c s) +:+ rest.
Proof.
  cbn [QueryEscape]. destruct (unreserved c) eqn:Hu.
  - cbn. intros H. injection H as H _. subst c. discriminate Hu.
  - destruct (Ascii.eqb c " "); cbn; discriminate.
Qed.

(** The escaped address is set off from what follows it by the first
    [&]. *)
Lemma QueryEscape_inj a : ∀ a' t t',
  QueryEscape a +:+ String "&" t = QueryEscape a' +:+ String "&" t' → a = a' ∧ t = t'.
Proof.
  induction a as [|c a IH]; intros [|c' a'] t t' H.
  - cbn in H. injection H as H. now split.
  - exfalso. change (String "&" t = QueryEscape (String c' a') +:+ String "&" t') in H.
    exact (QueryEscape_head _ _ _ _ H).
  - exfalso. symmetry in H.
    change (String "&" t' = QueryEscape (String c a) +:+ String "&" t) in H.
    exact (QueryEscape_head _ _ _ _ H).
  - cbn [QueryEscape] in H.
    destruct (unreserved c) eqn:Hu, (unreserved c') eqn:Hu'.
    + cbn [String.append] in H. injection H as -> H.
      destruct (IH _ _ _ H) as [-> ->]. now split.
    + destruct (Ascii.eqb c' " "); cbn [String.append] in H; injection H as -> _; discriminate Hu.
    + destruct (Ascii.eqb c " "); cbn [String.append] in H; injection H as <- _; discriminate Hu'.
    + destruct (Ascii.eqb_spec c " ") as [-> | Hc], (Ascii.eqb_spec c' " ") as [-> | Hc'];
        cbn [String.append] in H; try discriminate H.
      * injection H as H. destruct (IH _ _ _ H) as [-> ->]. now split.
      * injection H as Hhi Hlo H. rewrite (hex_inj c c' Hhi Hlo).
        destruct (IH _ _ _ H) as [-> ->]. now split.
Qed.

(** X18. The URL of a request tells the address and the credential: two
    requests with the same URL are for the same address, with the same
    credential.  The address is escaped, so no address can pass for
    another one or add a parameter of its own. *)
Theorem requestURL_tells_address_and_key g g' address address' :
  requestURL g address = requestURL g' address' →
  address = address' ∧ apiKey g = apiKey g'.
Proof.
  unfold requestURL. intros H. apply append_inv_l in H.
  change ("&key=" +:+ apiKey g) with (String "&" ("key=" +:+ apiKey g)) in H.
  change ("&key=" +:+ apiKey g') with (String "&" ("key=" +:+ apiKey g')) in H.
  apply QueryEscape_inj in H as [-> H]. split; [reflexivity|].
  now apply (append_inv_l "key=") in H.
Qed.

End URL.

(** * The example: five addresses in a row *)
Section Example.
Import sys googlegeocode googlegeocode_test spec.
Variable Unmarshal : String.string → Results * option error.
Variable MarshalIndent : list Results → String.string * option error.

(** Printing the error of a call, if there is one. *)
Lemma report_effect (err : option error) s :
  ∃ s', match err with
        | Some e => inWorld (fmt.Println e)
        | None => sys.ret tt
        end s = (Return tt, s') ∧
    geocoderInstance s' = geocoderInstance s ∧ ready s' = ready s ∧
    clock (world s') = clock (world s) ∧ network (world s') = network (world s) ∧
    requests (trace (world s')) = requests (trace (world s)) ∧
    responses (trace (world s')) = responses (trace (world s)) ∧
    printed (trace (world s')) =
      match err with
      | Some e => [e +:+ String newline ""]
      | None => []
      end ++ printed (trace (world s)).
Proof.
  destruct err as [e|]; eexists; (split; [reflexivity|]); now repeat split.
Qed.

Lemma replicate_cons_app {A} (n : nat) (x : A) l :
  replicate n x ++ [x] ++ l = replicate (S n) x ++ l.
Proof. induction n as [|n IH]; [reflexivity|]. cbn [replicate app] in *. now rewrite IH. Qed.

(** The loop while the quota is exceeded and the limit has not expired:
    every call is rejected, and its error is printed. *)
Lemma queries_rejected addresses : ∀ index n s,
  ready s = true → queryLimitReached (geocoderInstance s) = true →
  clock (world s) < time.unixNano (queryLimitExpiration (geocoderInstance s)) →
  ∃ s', queries Unmarshal index addresses (replicate n zeroResults) s =
          (Return (replicate n zeroResults), s') ∧
    ready s' = true ∧ geocoderInstance s' = geocoderInstance s ∧
    requests (trace (world s')) = requests (trace (world s)) ∧
    printed (trace (world s')) =
      replicate (length addresses) (quotaError +:+ String newline "") ++
      printed (trace (world s)).
Proof.
  induction addresses as [|address addresses IH]; intros index n s Hr Hq Hlt.
  - exists s. now repeat split.
  - destruct (GetResults_rejected Unmarshal address s Hr Hq Hlt)
      as (s1 & HG & Hg1 & Hreq1 & _ & Hc1 & Hr1).
    pose proof (GetResults_prints_nothing Unmarshal address s _ _ Hr HG) as Hp1.
    destruct (report_effect (Some quotaError) s1)
      as (s2 & HP & Hg2 & Hr2 & Hc2 & _ & Hreq2 & _ & Hp2).
    destruct (IH (S index) n s2) as (s' & HQ & Hr' & Hg' & Hreq' & Hp').
    { now rewrite Hr2. } { now rewrite Hg2, Hg1. } { now rewrite Hg2, Hg1, Hc2, Hc1. }
    exists s'. split.
    + cbn [queries]. unfold sys.bind at 1. rewrite HG. cbv beta iota zeta.
      rewrite insert_replicate. unfold sys.bind at 1. rewrite HP. exact HQ.
    + split; [exact Hr'|]. split; [congruence|]. split; [congruence|].
      rewrite Hp', Hp2, Hp1. cbn [length]. apply replicate_cons_app.
Qed.

(** X19. The example while the quota is exceeded and the limit has not
    expired: no request is sent; the quota error is printed once for each
    of the five addresses; and five zero payloads are handed to
    [json.MarshalIndent], whose output is printed last. *)
Theorem ExampleGetResults_over_quota s :
  ready s = true → queryLimitReached (geocoderInstance s) = true →
  clock (world s) < time.unixNano (queryLimitExpiration (geocoderInstance s)) →
  ∃ s', ExampleGetResults Unmarshal MarshalIndent s =
          (match MarshalIndent (replicate 5 zeroResults) with
           | (_, Some e) => Panic e
           | (_, None) => Return tt
           end, s') ∧
    requests (trace (world s')) = requests (trace (world s)) ∧
    printed (trace (world s')) =
      match MarshalIndent (replicate 5 zeroResults) with
      | (_, Some _) => []
      | (jsonBytes, None) => [jsonBytes]
      end ++ replicate 5 (quotaError +:+ String newline "") ++ printed (trace (world s)).
Proof.
  intros Hr Hq Hlt.
  destruct (queries_rejected addresses 0 5 s Hr Hq Hlt) as (s1 & HQ & _ & _ & Hreq & Hp).
  unfold ExampleGetResults. change (length addresses) with 5%nat in *.
  unfold sys.bind at 1. rewrite HQ. cbv beta iota.
  destruct (MarshalIndent (replicate 5 zeroResults)) as [jsonBytes [e|]].
  - exists s1. now repeat split.
  - eexists. split; [reflexivity|]. cbn [world trace emit requests printed app].
    rewrite Hreq, Hp. now split.
Qed.

Lemma answersOverLimit_response address s :
  answersOverLimit Unmarshal (world s) = true →
  transportError (requestURL (geocoderInstance s) address) (world s) = None.
Proof.
  intros Ha. destruct (answersOverLimit_inv _ _ Ha) as (x & rest & body & results & Hn & Hx & _).
  unfold transportError. now rewrite Hn, Hx.
Qed.

(** X20. The example when the first address is answered OVER_QUERY_LIMIT
    and the limit it records lies ahead: that request is the only one;
    the other four addresses are rejected without a request; the quota
    error is printed five times, and five zero payloads are handed to
    [json.MarshalIndent]. *)
Theorem ExampleGetResults_stops_asking s :
  ready s = true → gateOpen s = true →
  answersOverLimit Unmarshal (world s) = true → zoneinfo (world s) = true →
  fourDigitYear time.LosAngeles (arrival s) = true →
  time.unixNano (arrival s) <
    time.unixNano (time.Add (localDayStart time.LosAngeles (arrival s)) (time.Hour * 24)) →
  ∃ s', ExampleGetResults Unmarshal MarshalIndent s =
          (match MarshalIndent (replicate 5 zeroResults) with
           | (_, Some e) => Panic e
           | (_, None) => Return tt
           end, s') ∧
    requests (trace (world s')) =
      requestURL (geocoderInstance s) "704 S 2nd St, Minneapolis, MN 55401" ::
      requests (trace (world s)) ∧
    printed (trace (world s')) =
      match MarshalIndent (replicate 5 zeroResults) with
      | (_, Some _) => []
      | (jsonBytes, None) => [jsonBytes]
      end ++ replicate 5 (quotaError +:+ String newline "") ++ printed (trace (world s)).
Proof.
  intros Hr Ho Ha Hz Hy Hlt.
  set (address := "704 S 2nd St, Minneapolis, MN 55401"%string).
  destruct (GetResults_over_limit Unmarshal address s Hr Ho Ha Hz Hy)
    as (s1 & HG & Hq1 & Hl1 & Hx1).
  pose proof (GetResults_keeps_ready _ _ _ _ _ Hr HG) as Hr1.
  pose proof (GetResults_prints_nothing Unmarshal address s _ _ Hr HG) as Hp1.
  pose proof (GetResults_clock Unmarshal address s _ _ Hr Ho
                (answersOverLimit_response address s Ha) HG) as Hc1.
  assert (Hreq1 : requests (trace (world s1)) =
                  requestURL (geocoderInstance s) address :: requests (trace (world s))).
  { destruct (GetResults_open Unmarshal address s Hr Ho) as (r0 & s0 & HG' & Hreq & _).
    rewrite HG in HG'. now injection HG' as <- <-. }
  destruct (report_effect (Some quotaError) s1)
    as (s2 & HP & Hg2 & Hr2 & Hc2 & _ & Hreq2 & _ & Hp2).
  destruct (queries_rejected
              [ "200, Tower Ave, St Paul, MN 55111";
                "240 Summit Ave, St Paul, MN 55102";
                "239 Selby Ave, St Paul, MN 55102";
                "75 Rev Dr Martin Luther King Jr Boulevard., St Paul, MN 55155" ]%string
              1 5 s2) as (s3 & HQ & _ & _ & Hreq3 & Hp3).
  { now rewrite Hr2. } { now rewrite Hg2. } { now rewrite Hg2, Hc2, Hc1, Hx1. }
  assert (HE : queries Unmarshal 0 addresses (replicate 5 zeroResults) s =
               (Return (replicate 5 zeroResults), s3)).
  { unfold addresses. fold address. cbn [queries]. unfold sys.bind at 1. rewrite HG.
    cbv beta iota zeta. rewrite insert_replicate. unfold sys.bind at 1. rewrite HP. exact HQ. }
  unfold ExampleGetResults. change (length addresses) with 5%nat.
  unfold sys.bind at 1. rewrite HE. cbv beta iota.
  assert (Hreq : requests (trace (world s3)) =
                 requestURL (geocoderInstance s) address :: requests (trace (world s))).
  { now rewrite Hreq3, Hreq2, Hreq1. }
  assert (Hp : printed (trace (world s3)) =
               replicate 5 (quotaError +:+ String newline "") ++ printed (trace (world s))).
  { now rewrite Hp3, Hp2, Hp1. }
  destruct (MarshalIndent (replicate 5 zeroResults)) as [jsonBytes [e|]].
  - exists s3. now repeat split.
  - eexists. split; [reflexivity|]. cbn [world trace emit requests printed app].
    rewrite Hreq, Hp. now split.
Qed.

(** The loop once a response has set [lastQuery]: every further
    response moves it on by 20 ms at least. *)
Lemma queries_tick addresses : ∀ index results s r s',
  ready s = true →
  time.unixNano (lastQuery (geocoderInstance s)) <= clock (world s) →
  queries Unmarshal index addresses results s = (r, s') →
  let n := Z.of_nat (responses (trace (world s'))) - Z.of_nat (responses (trace (world s))) in
  r ≠ Blocked ∧ ready s' = true ∧ 0 <= n <= Z.of_nat (length addresses) ∧
  time.unixNano (lastQuery (geocoderInstance s')) <= clock (world s') ∧
  time.unixNano (lastQuery (geocoderInstance s)) + 20 * time.Millisecond * n
    <= time.unixNano (lastQuery (geocoderInstance s')).
Proof.
  induction addresses as [|address addresses IH]; intros index results s r s' Hr Hlq HQ;
    cbv zeta.
  - cbn [queries] in HQ. unfold sys.ret in HQ. injection HQ as <- <-.
    split; [discriminate|]. split; [exact Hr|]. cbn [length]. lia.
  - cbn [queries] in HQ. unfold sys.bind at 1 in HQ.
    destruct (GetResults Unmarshal address s) as [r1 s1] eqn:HG.
    destruct (GetResults_tick Unmarshal address s r1 s1 Hr Hlq HG)
      as (Hnb1 & Hr1 & Hc1 & Hlq1 & Hcase).
    assert (Hstep :
      let k := Z.of_nat (responses (trace (world s1))) - Z.of_nat (responses (trace (world s))) in
      0 <= k <= 1 ∧
      time.unixNano (lastQuery (geocoderInstance s)) + 20 * time.Millisecond * k
        <= time.unixNano (lastQuery (geocoderInstance s1))).
    { cbv zeta. destruct Hcase as [[Hresp Hl] | (_ & _ & Hresp & Hl & Hcl & Hlow)].
      - rewrite Hresp, Hl. lia.
      - rewrite Hresp, Hl.
        assert (0 <= nextLatency (world s)) by (unfold nextLatency; destruct (network (world s)); lia).
        unfold time.Millisecond in *. lia. }
    cbv zeta in Hstep. destruct Hstep as (Hk & Hlow1).
    destruct r1 as [[res err] | msg |].
    + cbv beta iota zeta in HQ. unfold sys.bind at 1 in HQ.
      destruct (report_effect err s1) as (s2 & HP & Hg2 & Hr2 & Hc2 & _ & _ & Hresp2 & _).
      rewrite HP in HQ.
      destruct (IH _ _ s2 r s' ltac:(now rewrite Hr2) ltac:(now rewrite Hg2, Hc2) HQ)
        as (Hnb & Hr' & Hn & Hlq' & Hlow').
      cbv zeta in Hn, Hlow'. rewrite Hresp2 in Hn, Hlow'. rewrite Hg2 in Hlow'.
      split; [exact Hnb|]. split; [exact Hr'|]. cbn [length].
      unfold time.Millisecond in *. repeat split; lia.
    + injection HQ as <- <-. split; [discriminate|]. split; [exact Hr1|]. cbn [length].
      unfold time.Millisecond in *. repeat split; lia.
    + now contradiction Hnb1.
Qed.

Lemma queries_pace addresses : ∀ index results s r s',
  ready s = true → queries Unmarshal index addresses results s = (r, s') →
  let n := Z.of_nat (responses (trace (world s'))) - Z.of_nat (responses (trace (world s))) in
  r ≠ Blocked ∧ ready s' = true ∧ n <= Z.of_nat (length addresses) ∧
  20 * time.Millisecond * (n - 1) <= clock (world s') - clock (world s).
Proof.
  induction addresses as [|address addresses IH]; intros index results s r s' Hr HQ; cbv zeta.
  - cbn [queries] in HQ. unfold sys.ret in HQ. injection HQ as <- <-.
    split; [discriminate|]. split; [exact Hr|]. cbn [length]. unfold time.Millisecond. lia.
  - cbn [queries] in HQ. unfold sys.bind at 1 in HQ.
    destruct (GetResults Unmarshal address s) as [r1 s1] eqn:HG.
    destruct (GetResults_response Unmarshal address s r1 s1 Hr HG) as (Hnb1 & Hr1 & Hc1 & Hcase).
    destruct r1 as [[res err] | msg |].
    + cbv beta iota zeta in HQ. unfold sys.bind at 1 in HQ.
      destruct (report_effect err s1) as (s2 & HP & Hg2 & Hr2 & Hc2 & _ & _ & Hresp2 & _).
      rewrite HP in HQ.
      assert (Hr2' : ready s2 = true) by now rewrite Hr2.
      destruct Hcase as [[Hresp _] | [Hresp Hl]].
      * destruct (IH _ _ s2 r s' Hr2' HQ) as (Hnb & Hr' & Hn & Hpace).
        cbv zeta in Hn, Hpace. rewrite Hresp2, Hresp in Hn, Hpace. rewrite Hc2 in Hpace.
        split; [exact Hnb|]. split; [exact Hr'|]. cbn [length].
        unfold time.Millisecond in *. split; lia.
      * destruct (queries_tick addresses _ _ s2 r s' Hr2' ltac:(rewrite Hg2, Hc2; lia) HQ)
          as (Hnb & Hr' & Hn & Hlq' & Hlow').
        cbv zeta in Hn, Hlow'. rewrite Hresp2, Hresp in Hn, Hlow'. rewrite Hg2 in Hlow'.
        split; [exact Hnb|]. split; [exact Hr'|]. cbn [length]. rewrite Hresp in *.
        unfold time.Millisecond in *. split; lia.
    + injection HQ as <- <-. split; [discriminate|]. split; [exact Hr1|]. cbn [length].
      destruct Hcase as [[Hresp _] | [Hresp _]]; rewrite Hresp; unfold time.Millisecond; split; lia.
    + now contradiction Hnb1.
Qed.

(** X21. The example never waits for the mutex, and it leaves the package
    initialised and idle.  It gets five responses at most, and if it gets
    n of them it has taken (n - 1) times 20 ms at least: 80 ms when every
    address gets its response. *)
Theorem ExampleGetResults_pace s r s' :
  ready s = true → ExampleGetResults Unmarshal MarshalIndent s = (r, s') →
  let n := Z.of_nat (responses (trace (world s'))) - Z.of_nat (responses (trace (world s))) in
  r ≠ Blocked ∧ ready s' = true ∧ n <= 5 ∧
  20 * time.Millisecond * (n - 1) <= clock (world s') - clock (world s).
Proof.
  intros Hr HE. unfold ExampleGetResults in HE. unfold sys.bind at 1 in HE.
  destruct (queries Unmarshal 0 addresses (replicate (length addresses) zeroResults) s)
    as [r1 s1] eqn:HQ.
  destruct (queries_pace addresses _ _ s r1 s1 Hr HQ) as (Hnb1 & Hr1 & Hn & Hpace).
  cbv zeta in *. change (Z.of_nat (length addresses)) with 5 in Hn.
  destruct r1 as [results | msg |].
  - destruct (MarshalIndent results) as [jsonBytes [e|]].
    + unfold sys.panic in HE. injection HE as <- <-. split; [discriminate|]. now repeat split.
    + unfold inWorld, fmt.Printf, fmt.Print in HE. injection HE as <- <-.
      split; [discriminate|]. split; [exact Hr1|]. cbn [world trace emit responses clock].
      now split.
  - injection HE as <- <-. split; [discriminate|]. now repeat split.
  - now contradiction Hnb1.
Qed.

End Example.

(** * Midnight in Los Angeles *)
Section Midnight.
Import calendar time spec.

(** Unfolds the day count of dates whose month is known. *)
Ltac days :=
  unfold daysFromCivil, dayOfEra;
  cbv beta iota zeta delta [Z.leb Z.ltb Z.compare Pos.compare Pos.compare_cont];
  Z.div_mod_to_equations; lia.

Lemma march_1 y : daysFromCivil y 1 1 + 59 <= daysFromCivil y 3 1 <= daysFromCivil y 1 1 + 60.
Proof. days. Qed.

Lemma january_1_next y : daysFromCivil (y + 1) 1 1 = daysFromCivil y 3 1 + 306.
Proof.
  unfold daysFromCivil, dayOfEra.
  cbv beta iota zeta delta [Z.leb Z.ltb Z.compare Pos.compare Pos.compare_cont].
  replace (y + 1 - 1) with y by lia. Z.div_mod_to_equations; lia.
Qed.

Lemma november_1_last y : daysFromCivil (y - 1) 11 1 = daysFromCivil y 1 1 - 61.
Proof. days. Qed.

Lemma march_8 y : daysFromCivil y 3 8 = daysFromCivil y 3 1 + 7.
Proof. days. Qed.

Lemma november_1 y : daysFromCivil y 11 1 = daysFromCivil y 3 1 + 245.
Proof. days. Qed.

Lemma next_day y m d : daysFromCivil y m (d + 1) = daysFromCivil y m d + 1.
Proof. unfold daysFromCivil, dayOfEra. lia. Qed.

(** A date of the year [y] lies between its January 1 and its December
    31. *)
Lemma within_year y m d : 1 <= m <= 12 → 1 <= d <= 31 →
  daysFromCivil y 1 1 <= daysFromCivil y m d <= daysFromCivil y 3 1 + 305.
Proof.
  intros Hm Hd. pose proof (march_1 y) as Hmar.
  destruct (month_cases m Hm)
    as [-> | [-> | [-> | [-> | [-> | [-> | [-> | [-> | [-> | [-> | [-> | ->]]]]]]]]]]];
    revert Hmar; days.
Qed.

Lemma sundayOnOrAfter_bounds z : z <= sundayOnOrAfter z <= z + 6.
Proof. unfold sundayOnOrAfter, weekday. Z.div_mod_to_equations; lia. Qed.

(** Midnight of a day in Los Angeles: eight hours after midnight UTC, or
    seven from the day after the second Sunday of March to the first
    Sunday of November. *)
Lemma Date_midnight y m d D y2 m2 d2 :
  1 <= m <= 12 → daysFromCivil y m d = D → civilFromDays D = (y2, m2, d2) →
  Date y m d 0 0 0 0 LosAngeles =
  {| unixNano :=
       (D * 86400 +
        (if (sundayOnOrAfter (daysFromCivil y2 3 8) <? D) &&
            (D <=? sundayOnOrAfter (daysFromCivil y2 11 1))
         then 25200 else 28800)) * 1000000000;
     loc := LosAngeles |}.
Proof.
  intros Hm HD Ec. unfold Date.
  replace ((m - 1) / 12) with 0 by (Z.div_mod_to_equations; lia).
  replace ((m - 1) mod 12 + 1) with m by (Z.div_mod_to_equations; lia).
  replace (y + 0) with y by lia. rewrite HD.
  replace (D * 86400 + 0 * 3600 + 0 * 60 + 0) with (D * 86400) by lia.
  unfold lookup. rewrite Z.div_mul by lia. rewrite Ec.
  destruct (civilFromDays_valid _ _ _ _ Ec) as (Hm2 & Hd2 & HD2).
  assert (Hd2' : 1 <= d2 <= 31).
  { unfold daysIn in Hd2. destruct (m2 =? 2); [destruct (isLeap y2); lia|].
    destruct ((m2 =? 4) || (m2 =? 6) || (m2 =? 9) || (m2 =? 11)); lia. }
  pose proof (within_year y2 m2 d2 Hm2 Hd2') as Hin. rewrite HD2 in Hin.
  pose proof (march_1 y2) as Hmar. pose proof (march_8 y2) as Hb. pose proof (november_1 y2) as He.
  pose proof (november_1_last y2) as Hlast. pose proof (january_1_next y2) as Hnext.
  pose proof (march_1 (y2 + 1)) as Hmar'. pose proof (march_8 (y2 + 1)) as Hb'.
  pose proof (sundayOnOrAfter_bounds (daysFromCivil y2 3 8)) as Sb.
  pose proof (sundayOnOrAfter_bounds (daysFromCivil y2 11 1)) as Se.
  pose proof (sundayOnOrAfter_bounds (daysFromCivil (y2 - 1) 11 1)) as Slast.
  pose proof (sundayOnOrAfter_bounds (daysFromCivil (y2 + 1) 3 8)) as Snext.
  unfold dstBegins, dstEnds.
  set (Db := sundayOnOrAfter (daysFromCivil y2 3 8)) in *.
  set (De := sundayOnOrAfter (daysFromCivil y2 11 1)) in *.
  set (Dl := sundayOnOrAfter (daysFromCivil (y2 - 1) 11 1)) in *.
  set (Dn := sundayOnOrAfter (daysFromCivil (y2 + 1) 3 8)) in *.
  destruct (Z.ltb_spec Db D), (Z.leb_spec D De); cbn [andb];
    repeat match goal with
      | |- context [Z.ltb ?a ?b] => destruct (Z.ltb_spec a b); try lia
      | |- context [Z.leb ?a ?b] => destruct (Z.leb_spec a b); try lia
      end;
    cbn [Z.eqb orb]; f_equal; lia.
Qed.

Lemma january_1_mono a b : a <= b → daysFromCivil a 1 1 + 365 * (b - a) <= daysFromCivil b 1 1.
Proof. intros H. days. Qed.

(** The day after a day of the year [y] is in the same year, or it is
    January 1 of the next. *)
Lemma year_of_next_day D y m d y2 m2 d2 :
  civilFromDays D = (y, m, d) → civilFromDays (D + 1) = (y2, m2, d2) →
  y2 = y ∨ y2 = y + 1 ∧ D + 1 = daysFromCivil (y + 1) 1 1.
Proof.
  intros Ec Ec2.
  destruct (civilFromDays_valid _ _ _ _ Ec) as (Hm & Hd & HD).
  destruct (civilFromDays_valid _ _ _ _ Ec2) as (Hm2 & Hd2 & HD2).
  assert (Hd' : 1 <= d <= 31).
  { unfold daysIn in Hd. destruct (m =? 2); [destruct (isLeap y); lia|].
    destruct ((m =? 4) || (m =? 6) || (m =? 9) || (m =? 11)); lia. }
  assert (Hd2' : 1 <= d2 <= 31).
  { unfold daysIn in Hd2. destruct (m2 =? 2); [destruct (isLeap y2); lia|].
    destruct ((m2 =? 4) || (m2 =? 6) || (m2 =? 9) || (m2 =? 11)); lia. }
  pose proof (within_year y m d Hm Hd') as Hin. rewrite HD in Hin.
  pose proof (within_year y2 m2 d2 Hm2 Hd2') as Hin2. rewrite HD2 in Hin2.
  pose proof (january_1_next y) as Hn. pose proof (january_1_next y2) as Hn2.
  destruct (Z.lt_trichotomy y2 y) as [Hlt | [-> | Hgt]].
  - pose proof (january_1_mono (y2 + 1) y ltac:(lia)). lia.
  - now left.
  - right. pose proof (january_1_mono (y + 1) y2 ltac:(lia)). split; lia.
Qed.

(** Twenty-four hours after the start of the Pacific day of [now] is the
    next Pacific midnight, except on the two days of the year on which the
    clocks change: on the second Sunday of March it is an hour after that
    midnight, and on the first Sunday of November an hour before it. *)
Lemma day_start_plus_24_hours now :
  Add (localDayStart LosAngeles now) (Hour * 24) =
  Add (nextLocalMidnight LosAngeles now)
    (if springForward (localDay LosAngeles now) then Hour
     else if fallBack (localDay LosAngeles now) then - Hour
     else 0).
Proof.
  unfold localDayStart, nextLocalMidnight, localFields, springForward, fallBack, localDay, In,
    unixSec.
  cbn [loc unixNano]. cbv zeta.
  set (D := (unixNano now / 1000000000 + zoneOffset LosAngeles (unixNano now / 1000000000)) / 86400).
  destruct (civilFromDays D) as [[y m] d] eqn:Ec.
  destruct (civilFromDays (D + 1)) as [[y2 m2] d2] eqn:Ec2.
  destruct (civilFromDays_valid _ _ _ _ Ec) as (Hm & Hd & HD).
  rewrite (Date_midnight y m d D y m d Hm HD Ec).
  rewrite (Date_midnight y m (d + 1) (D + 1) y2 m2 d2 Hm ltac:(rewrite next_day; lia) Ec2).
  assert (Hd' : 1 <= d <= 31).
  { unfold daysIn in Hd. destruct (m =? 2); [destruct (isLeap y); lia|].
    destruct ((m =? 4) || (m =? 6) || (m =? 9) || (m =? 11)); lia. }
  pose proof (within_year y m d Hm Hd') as Hin. rewrite HD in Hin.
  pose proof (march_8 y) as Hb. pose proof (november_1 y) as He.
  pose proof (sundayOnOrAfter_bounds (daysFromCivil y 3 8)) as Sb.
  pose proof (sundayOnOrAfter_bounds (daysFromCivil y 11 1)) as Se.
  unfold Add, Hour, Second. cbn [unixNano loc]. f_equal.
  destruct (year_of_next_day D y m d y2 m2 d2 Ec Ec2) as [-> | [-> Hjan]].
  - set (Db := sundayOnOrAfter (daysFromCivil y 3 8)) in *.
    set (De := sundayOnOrAfter (daysFromCivil y 11 1)) in *.
    destruct (Z.eqb_spec D Db), (Z.eqb_spec D De);
      repeat match goal with
        | |- context [Z.ltb ?a ?b] => destruct (Z.ltb_spec a b); try lia
        | |- context [Z.leb ?a ?b] => destruct (Z.leb_spec a b); try lia
        end; cbn [andb]; lia.
  - pose proof (january_1_next y) as Hn. pose proof (march_1 (y + 1)) as Hmar'.
    pose proof (march_8 (y + 1)) as Hb'.
    pose proof (sundayOnOrAfter_bounds (daysFromCivil (y + 1) 3 8)) as Sb'.
    set (Db := sundayOnOrAfter (daysFromCivil y 3 8)) in *.
    set (De := sundayOnOrAfter (daysFromCivil y 11 1)) in *.
    set (Db' := sundayOnOrAfter (daysFromCivil (y + 1) 3 8)) in *.
    destruct (Z.eqb_spec D Db), (Z.eqb_spec D De);
      repeat match goal with
        | |- context [Z.ltb ?a ?b] => destruct (Z.ltb_spec a b); try lia
        | |- context [Z.leb ?a ?b] => destruct (Z.leb_spec a b); try lia
        end; cbn [andb]; lia.
Qed.

(** Twenty-four hours after the start of the Pacific day of [now] lie
    ahead of [now], unless the day is the first Sunday of November, which
    has 25 hours. *)
Lemma day_start_plus_24_hours_ahead now : fallBack (localDay LosAngeles now) = false →
  unixNano now < unixNano (Add (localDayStart LosAngeles now) (Hour * 24)).
Proof.
  unfold localDayStart, localFields, fallBack, localDay, In, unixSec.
  cbn [loc unixNano]. cbv zeta.
  set (sec := unixNano now / 1000000000).
  assert (Hns : unixNano now < (sec + 1) * 1000000000)
    by (unfold sec; Z.div_mod_to_equations; lia).
  set (D := (sec + zoneOffset LosAngeles sec) / 86400).
  destruct (civilFromDays D) as [[y m] d] eqn:Ec. intros Hfall.
  destruct (civilFromDays_valid _ _ _ _ Ec) as (Hm & Hd & HD).
  rewrite (Date_midnight y m d D y m d Hm HD Ec).
  unfold Add, Hour, Second. cbn [unixNano].
  assert (Hd' : 1 <= d <= 31).
  { unfold daysIn in Hd. destruct (m =? 2); [destruct (isLeap y); lia|].
    destruct ((m =? 4) || (m =? 6) || (m =? 9) || (m =? 11)); lia. }
  pose proof (within_year y m d Hm Hd') as Hin. rewrite HD in Hin.
  pose proof (march_8 y) as Hb. pose proof (november_1 y) as He.
  pose proof (sundayOnOrAfter_bounds (daysFromCivil y 3 8)) as Sb.
  pose proof (sundayOnOrAfter_bounds (daysFromCivil y 11 1)) as Se.
  pose proof (january_1_next y) as Hn. pose proof (march_1 (y + 1)) as Hmar'.
  pose proof (march_8 (y + 1)) as Hb'. pose proof (november_1 (y + 1)) as He'.
  pose proof (sundayOnOrAfter_bounds (daysFromCivil (y + 1) 3 8)) as Sb'.
  pose proof (sundayOnOrAfter_bounds (daysFromCivil (y + 1) 11 1)) as Se'.
  (* the offset in effect at [now], by the date of [now] in UTC *)
  assert (Hoff : ∃ yu mu du, civilFromDays (sec / 86400) = (yu, mu, du) ∧
            zoneOffset LosAngeles sec =
              if sec <? dstBegins yu then -28800
              else if sec <? dstEnds yu then -25200 else -28800).
  { destruct (civilFromDays (sec / 86400)) as [[yu mu] du] eqn:Eu. exists yu, mu, du.
    split; [reflexivity|]. unfold zoneOffset, lookup. rewrite Eu.
    destruct (sec <? dstBegins yu); [reflexivity|]. now destruct (sec <? dstEnds yu). }
  destruct Hoff as (yu & mu & du & Eu & Hoff).
  assert (HU : D = sec / 86400 ∨ D + 1 = sec / 86400).
  { unfold D. rewrite Hoff.
    destruct (sec <? dstBegins yu); [|destruct (sec <? dstEnds yu)];
      Z.div_mod_to_equations; lia. }
  assert (Hyu : yu = y ∨ yu = y + 1 ∧ D + 1 = daysFromCivil (y + 1) 1 1).
  { destruct HU as [HU | HU]; rewrite <- HU in Eu.
    - left. congruence.
    - exact (year_of_next_day D y m d yu mu du Ec Eu). }
  assert (HD' : D * 86400 <= sec + zoneOffset LosAngeles sec < D * 86400 + 86400)
    by (unfold D; Z.div_mod_to_equations; lia).
  rewrite Hoff in HD'. unfold dstBegins, dstEnds in HD'.
  apply Z.eqb_neq in Hfall.
  set (Db := sundayOnOrAfter (daysFromCivil y 3 8)) in *.
  set (De := sundayOnOrAfter (daysFromCivil y 11 1)) in *.
  set (Db' := sundayOnOrAfter (daysFromCivil (y + 1) 3 8)) in *.
  set (De' := sundayOnOrAfter (daysFromCivil (y + 1) 11 1)) in *.
  clearbody D sec.
  destruct Hyu as [-> | [-> Hjan]]; fold Db De Db' De' in HD';
    repeat match goal with
      | H : context [Z.ltb ?a ?b] |- _ => destruct (Z.ltb_spec a b); try lia
      | |- context [Z.ltb ?a ?b] => destruct (Z.ltb_spec a b); try lia
      | |- context [Z.leb ?a ?b] => destruct (Z.leb_spec a b); try lia
      end; cbn [andb]; lia.
Qed.

End Midnight.

(** * The limit of the quota, and a restart *)
Section Limit.
Import sys googlegeocode spec.
Variable Unmarshal : String.string → Results * option error.



End Limit.

Section Restart.
Import sys googlegeocode spec.
Variable Unmarshal : String.string → Results * option error.

(** X24. What a restart finds.  After a call on a state file that held no
    more than the record the call began with takes to write (the empty file
    that [init] leaves, for one), [newGeocoderFromFile] on that file loads
    the record the call began with: the credential and the flag, and the
    two times as the same instants with the same offsets.  What the call
    itself did to the record is not in the file. *)
Theorem restart_loads_the_record_at_entry address s r s' fd o old :
  ready s = true →
  fileStore (geocoderInstance s) = Some fd → files (world s) !! fd = Some o →
  disk (world s) !! path o = Some (File old) →
  (String.length old <= String.length (string (geocoderInstance s)))%nat →
  apiKey (geocoderInstance s) ≠ ""%string → isLine (apiKey (geocoderInstance s)) = true →
  representable (lastQuery (geocoderInstance s)) = true →
  representable (queryLimitExpiration (geocoderInstance s)) = true →
  GetResults Unmarshal address s = (r, s') →
  ∃ g' w', newGeocoderFromFile (path o) (world s') = (Return (g', None), w') ∧
    sameRecord g' (geocoderInstance s).
Proof.
  intros Hr Hf Ho Hd Hlen Hne Hk Hl He HG.
  destruct (GetResults_ready Unmarshal address s Hr) as (r0 & s2 & w' & E & _ & F & Hs & HG').
  rewrite HG in HG'. injection HG' as -> ->.
  destruct (store_returns (geocoderInstance s) (emit Unlocked (world s2)) fd o old)
    as (w'' & Hs' & Hdisk & _); [exact Hf | | |].
  { cbn [files emit]. rewrite (frame_files _ _ F). exact Ho. }
  { cbn [disk emit]. rewrite (frame_disk _ _ F). exact Hd. }
  rewrite Hs in Hs'. injection Hs' as <-.
  assert (Hfile : disk w' !! path o = Some (File (string (geocoderInstance s)))).
  { rewrite Hdisk, lookup_insert_eq. do 2 f_equal.
    replace (slice.drop (String.length (string (geocoderInstance s))) old) with ""%string
      by (symmetry; now apply drop_nil).
    apply append_nil_r. }
  cbn [world]. unfold string in Hfile.
  rewrite (newGeocoderFromFile_lines _ _ _ _ Hfile).
  - eexists _, _. split; [reflexivity|]. unfold sameRecord, recordOfLines.
    cbn [setFileStore apiKey lastQuery queryLimitReached queryLimitExpiration nth].
    rewrite ParseBool_FormatBool. cbn [fst].
    repeat split; try reflexivity; now apply Parse_Format.
  - cbn [forallb]. now rewrite Hk, !isLine_Format, isLine_FormatBool.
  - exact Hne.
Qed.

End Restart.

Section Runs.
Import sys googlegeocode spec.

(** C1. A fresh start and a request that is answered OK after 5 ms:
    [GetResults] returns the payload, [lastQuery] in memory is the time the
    response arrived, and the state file holds the record as it was when
    the call began, with the zero [lastQuery]; and the file was written
    after the mutex was released. *)
Theorem C1_store_writes_the_record_at_entry :
  fst (GetResults demo.decode demo.address demo.firstCall) =
    Return ({| Results_ := []; Status := "OK" |}, None) ∧
  time.unixNano (lastQuery (geocoderInstance (demo.after demo.address demo.firstCall))) =
    demo.may1_noon + 5000000 ∧
  lastQuery (geocoderInstance demo.firstCall) = time.zero ∧
  storeFile (demo.after demo.address demo.firstCall) =
    Some (string (geocoderInstance demo.firstCall)) ∧
  storeFile (demo.after demo.address demo.firstCall) ≠
    Some (string (geocoderInstance (demo.after demo.address demo.firstCall))) ∧
  firstn 2 (trace (world (demo.after demo.address demo.firstCall))) =
    [Wrote ".geocoder-data" (string (geocoderInstance demo.firstCall)); Unlocked].
Proof.
  repeat split; try (vm_compute; reflexivity).
  intros H. vm_compute in H. discriminate H.
Qed.

(** C3. A request answered OVER_QUERY_LIMIT at 23:30 Pacific time on
    November 3, 2024, the day daylight time ends: [queryLimitExpiration]
    becomes 23:00 of the same day, the start of the day plus 24 hours,
    which is half an hour before the observation and an hour before the
    next local midnight. *)
Theorem C3_expiration_on_a_day_of_25_hours :
  let now := {| time.unixNano := demo.nov3_2330_pst; time.loc := time.UTC |} in
  let s' := demo.after demo.address demo.transitionDay in
  queryLimitReached (geocoderInstance s') = true ∧
  queryLimitExpiration (geocoderInstance s') =
    time.Add (localDayStart time.LosAngeles now) (time.Hour * 24) ∧
  time.Format (queryLimitExpiration (geocoderInstance s')) time.RFC3339Nano =
    "2024-11-03T23:00:00-08:00"%string ∧
  time.Format (nextLocalMidnight time.LosAngeles now) time.RFC3339Nano =
    "2024-11-04T00:00:00-08:00"%string ∧
  time.Before (queryLimitExpiration (geocoderInstance s')) now = true ∧
  time.Equal (queryLimitExpiration (geocoderInstance s'))
    (nextLocalMidnight time.LosAngeles now) = false.
Proof. repeat split; vm_compute; reflexivity. Qed.

(** On the day daylight time begins, which has 23 hours, the limit
    expires at 01:00 of the next day. *)
Example expiration_on_a_day_of_23_hours :
  let now := {| time.unixNano := demo.mar10_1300_pdt; time.loc := time.UTC |} in
  let s' := demo.after demo.address demo.springDay in
  time.Format (queryLimitExpiration (geocoderInstance s')) time.RFC3339Nano =
    "2024-03-11T01:00:00-07:00"%string ∧
  time.Format (nextLocalMidnight time.LosAngeles now) time.RFC3339Nano =
    "2024-03-11T00:00:00-07:00"%string.
Proof. split; vm_compute; reflexivity. Qed.

(** On a day of 24 hours the limit expires at the next local midnight. *)
Example expiration_on_a_day_of_24_hours :
  let now := {| time.unixNano := demo.may1_noon; time.loc := time.UTC |} in
  queryLimitExpiration (geocoderInstance demo.overLimit) =
    nextLocalMidnight time.LosAngeles now ∧
  time.Format (queryLimitExpiration (geocoderInstance demo.overLimit)) time.RFC3339Nano =
    "2024-05-02T00:00:00-07:00"%string.
Proof. split; vm_compute; reflexivity. Qed.

(** C6. Three requests in a row: the second call stores a [lastQuery] of
    30 bytes, the third one of 20; the third [store] leaves the last ten
    bytes of the second in the file, behind the four lines. *)
Theorem C6_store_leaves_old_bytes :
  let s2 := demo.after "b" (demo.after "a" demo.threeCalls) in
  let s3 := demo.after "c" s2 in
  storeFile s3 = Some (string (geocoderInstance s2) +:+ "T00:00:00Z")%string ∧
  storeFile s3 ≠ Some (string (geocoderInstance s2)) ∧
  storeFile s3 ≠ Some (string (geocoderInstance s3)) ∧
  (String.length (string (geocoderInstance s2)) < String.length (string (geocoderInstance
     (demo.after "a" demo.threeCalls))))%nat.
Proof.
  repeat split; try (vm_compute; reflexivity).
  - intros H. vm_compute in H. discriminate H.
  - intros H. vm_compute in H. discriminate H.
  - vm_compute. lia.
Qed.

End Runs.

Section Examples.
Import sys googlegeocode spec.

(** C2 at work: the quota was recorded at noon UTC of May 1, two calls in
    the next two hours are rejected, and a call twenty hours later goes
    out. *)
Lemma C2_witness :
  ready demo.overLimit = true ∧
  queryLimitReached (geocoderInstance demo.overLimit) = true ∧
  ∃ s1 r s2,
    session demo.decode [(3600000000000, "a"); (3600000000000, "b")]%string demo.overLimit =
      (Return (map (fun _ => (zeroResults, Some quotaError))
                 [(3600000000000, "a"); (3600000000000, "b")]%string), s1) ∧
    geocoderInstance s1 = geocoderInstance demo.overLimit ∧
    requests (trace (world s1)) = requests (trace (world demo.overLimit)) ∧
    network (world s1) = network (world demo.overLimit) ∧
    GetResults demo.decode "c" (snd (idle 72000000000000 s1)) = (r, s2) ∧
    requests (trace (world s2)) =
      requestURL (geocoderInstance demo.overLimit) "c" ::
      requests (trace (world demo.overLimit)) ∧
    queryLimitReached (geocoderInstance s2) = answersOverLimit demo.decode (world s1).
Proof.
  split; [vm_compute; reflexivity|]. split; [vm_compute; reflexivity|].
  apply (C2_quota_gate demo.decode
           [(3600000000000, "a"); (3600000000000, "b")]%string 72000000000000 "c"
           demo.overLimit); vm_compute; (reflexivity || discriminate).
Defined.

(** The claim C4 fails: the response arrives 5 ms after the request was
    admitted, and [lastQuery] is the time of arrival; a second request
    made at once then pauses the whole 20 ms, not the 15 ms that are left
    since the first was admitted. *)
Lemma C4_counterexample :
  gateOpen demo.firstCall = true ∧
  time.unixNano (lastQuery (geocoderInstance (demo.after demo.address demo.firstCall))) =
    clock (world demo.firstCall) + 5000000 ∧
  time.unixNano (lastQuery (geocoderInstance (demo.after demo.address demo.firstCall))) ≠
    clock (world demo.firstCall) ∧
  clock (world (demo.after demo.address demo.firstCall)) = clock (world demo.firstCall) + 5000000 ∧
  hd 0 (pauses (trace (world (demo.after "b" (demo.after demo.address demo.firstCall))))) =
    20 * time.Millisecond.
Proof.
  repeat split; try (vm_compute; reflexivity).
  intros H. vm_compute in H. discriminate H.
Qed.

Lemma C4_witness :
  ready demo.firstCall = true ∧ gateOpen demo.firstCall = true ∧
  transportError (requestURL (geocoderInstance demo.firstCall) demo.address)
    (world demo.firstCall) = None ∧
  let now := {| time.unixNano := clock (world demo.firstCall);
                time.loc := Local (world demo.firstCall) |} in
  let pause := time.wrap64 (20 * time.Millisecond -
                            time.Sub now (lastQuery (geocoderInstance demo.firstCall))) in
  ∃ r s', GetResults demo.decode demo.address demo.firstCall = (r, s') ∧
    pauses (trace (world s')) = pause :: pauses (trace (world demo.firstCall)) ∧
    lastQuery (geocoderInstance s') =
      {| time.unixNano := clock (world demo.firstCall) + Z.max 0 pause +
                          nextLatency (world demo.firstCall);
         time.loc := Local (world demo.firstCall) |}.
Proof.
  split; [vm_compute; reflexivity|]. split; [vm_compute; reflexivity|].
  split; [vm_compute; reflexivity|].
  apply (C4_lastQuery_follows_response demo.decode demo.address demo.firstCall);
    vm_compute; reflexivity.
Defined.

(** The claim C10 fails: the record was loaded with the quota exceeded and
    a limit that has expired; the request is refused, and
    [queryLimitReached] has changed from true to false. *)
Lemma C10_counterexample :
  queryLimitReached (geocoderInstance demo.expired) = true ∧
  fst (GetResults demo.decode demo.address demo.expired) =
    Return (zeroResults, Some "Error geocoding address: <timeout>"%string) ∧
  queryLimitReached (geocoderInstance (demo.after demo.address demo.expired)) = false.
Proof. repeat split; vm_compute; reflexivity. Qed.

Lemma C10_witness :
  ready demo.refused = true ∧ gateOpen demo.refused = true ∧
  transportError (requestURL (geocoderInstance demo.refused) demo.address)
    (world demo.refused) = Some "timeout"%string ∧
  ∃ s', GetResults demo.decode demo.address demo.refused =
          (Return (zeroResults, Some ("Error geocoding address: <" +:+ "timeout" +:+ ">")), s') ∧
    lastQuery (geocoderInstance s') = lastQuery (geocoderInstance demo.refused) ∧
    queryLimitExpiration (geocoderInstance s') =
      queryLimitExpiration (geocoderInstance demo.refused) ∧
    queryLimitReached (geocoderInstance s') = false.
Proof.
  split; [vm_compute; reflexivity|]. split; [vm_compute; reflexivity|].
  split; [vm_compute; reflexivity|].
  apply (C10_transport_failure demo.decode demo.address demo.refused "timeout");
    vm_compute; reflexivity.
Defined.

(** The claim C5 fails: a [lastQuery] in the year 10000 is printed with five
    digits for the year, which [Parse] rejects, and the record loaded has
    the zero [lastQuery]. *)
Lemma C5_counterexample :
  isLine (apiKey demo.farFuture) = true ∧
  time.Format (lastQuery demo.farFuture) time.RFC3339Nano = "10000-01-01T00:00:00Z"%string ∧
  ∃ g' w',
    loadState ".geocoder-data"
      (demo.machineWith (string demo.farFuture) demo.may1_noon []) = (Return (g', None), w') ∧
    lastQuery g' = time.zero ∧
    time.Equal (lastQuery g') (lastQuery demo.farFuture) = false.
Proof.
  split; [vm_compute; reflexivity|]. split; [vm_compute; reflexivity|].
  eexists _, _. split; [vm_compute; reflexivity|]. split; vm_compute; reflexivity.
Qed.

Lemma C5_witness :
  isLine (apiKey zeroGeocoder) = true ∧
  representable (lastQuery zeroGeocoder) = true ∧
  representable (queryLimitExpiration zeroGeocoder) = true ∧
  disk (demo.machineWith (string zeroGeocoder) demo.may1_noon []) !! ".geocoder-data"%string =
    Some (File (string zeroGeocoder)) ∧
  ∃ g' w',
    loadState ".geocoder-data" (demo.machineWith (string zeroGeocoder) demo.may1_noon []) =
      (Return (g', None), w') ∧
    sameRecord g' zeroGeocoder.
Proof.
  split; [vm_compute; reflexivity|]. split; [vm_compute; reflexivity|].
  split; [vm_compute; reflexivity|]. split; [vm_compute; reflexivity|].
  apply (C5_save_then_load ".geocoder-data"
           (demo.machineWith (string zeroGeocoder) demo.may1_noon []) zeroGeocoder);
    vm_compute; reflexivity.
Defined.

Lemma C7_witness :
  (disk (demo.machineWith (strings.Join demo.threeLines (String newline "")) demo.may1_noon [])
     !! ".geocoder-data"%string =
     Some (File (strings.Join demo.threeLines (String newline ""))) ∧
   forallb isLine demo.threeLines = true ∧
   ∃ w', loadState ".geocoder-data"
           (demo.machineWith (strings.Join demo.threeLines (String newline ""))
              demo.may1_noon []) =
         (Return (setFileStore (recordOfLines time.UTC demo.threeLines) (Some 0%nat), None), w')) ∧
  (disk (demo.machine demo.may1_noon []) !! ".geocoder-data"%string = None ∧
   ∃ w', loadState ".geocoder-data" (demo.machine demo.may1_noon []) =
         (Return (setFileStore zeroGeocoder (Some 0%nat), None), w')).
Proof.
  split.
  - split; [vm_compute; reflexivity|]. split; [vm_compute; reflexivity|].
    apply (proj1 C7_load_takes_the_lines_present ".geocoder-data"
             (demo.machineWith (strings.Join demo.threeLines (String newline ""))
                demo.may1_noon []) "KEY"%string (tl demo.threeLines));
      vm_compute; reflexivity.
  - split; [vm_compute; reflexivity|].
    apply (proj2 C7_load_takes_the_lines_present ".geocoder-data"
             (demo.machine demo.may1_noon [])); vm_compute; reflexivity.
Defined.

Lemma C8_witness :
  GetResults demo.decode demo.address demo.refused =
    (Return (zeroResults, Some "Error geocoding address: <timeout>"%string),
     demo.after demo.address demo.refused) ∧
  ((Some "Error geocoding address: <timeout>"%string ≠ None → zeroResults = zeroResults) ∧
   (Some "Error geocoding address: <timeout>"%string = None →
    Status zeroResults ≠ "OVER_QUERY_LIMIT"%string)).
Proof.
  split; [vm_compute; reflexivity|].
  apply (C8_error_comes_with_zero_payload demo.decode demo.address demo.refused
           zeroResults (Some "Error geocoding address: <timeout>"%string)
           (demo.after demo.address demo.refused)).
  vm_compute; reflexivity.
Defined.

Lemma C9_witness :
  newGeocoderFromFile ".geocoder-data" (demo.machineWith demo.expiredContent demo.may1_noon []) =
    (Return (demo.loaded (demo.machineWith demo.expiredContent demo.may1_noon []), None),
     snd (newGeocoderFromFile ".geocoder-data"
            (demo.machineWith demo.expiredContent demo.may1_noon []))) ∧
  (fileContent (snd (newGeocoderFromFile ".geocoder-data"
                       (demo.machineWith demo.expiredContent demo.may1_noon [])))
     ".geocoder-data" = Some ""%string ∧
   (∀ l lines,
      disk (demo.machineWith demo.expiredContent demo.may1_noon []) !! ".geocoder-data"%string =
        Some (File (strings.Join (l :: lines) (String newline ""))) →
      forallb isLine (l :: lines) = true → l ≠ ""%string →
      demo.loaded (demo.machineWith demo.expiredContent demo.may1_noon []) =
        setFileStore
          (recordOfLines (Local (demo.machineWith demo.expiredContent demo.may1_noon []))
             (l :: lines))
          (Some (length (files (demo.machineWith demo.expiredContent demo.may1_noon []))))) ∧
   (∀ Unmarshal address r s2,
      admit_ Unmarshal address
        (locked {| world := snd (newGeocoderFromFile ".geocoder-data"
                                   (demo.machineWith demo.expiredContent demo.may1_noon []));
                   geocoderInstance :=
                     demo.loaded (demo.machineWith demo.expiredContent demo.may1_noon []) |}) =
        (r, s2) →
      fileContent (world s2) ".geocoder-data" = Some ""%string)).
Proof.
  split; [vm_compute; reflexivity|].
  apply (C9_loading_empties_the_file ".geocoder-data"
           (demo.machineWith demo.expiredContent demo.may1_noon [])
           (demo.loaded (demo.machineWith demo.expiredContent demo.may1_noon []))
           (snd (newGeocoderFromFile ".geocoder-data"
                   (demo.machineWith demo.expiredContent demo.may1_noon [])))).
  vm_compute; reflexivity.
Defined.

(** The record that was loaded in that run. *)
Example C9_record_in_memory :
  apiKey (demo.loaded (demo.machineWith demo.expiredContent demo.may1_noon [])) = "KEY"%string ∧
  queryLimitReached (demo.loaded (demo.machineWith demo.expiredContent demo.may1_noon [])) = true ∧
  time.Format
    (queryLimitExpiration (demo.loaded (demo.machineWith demo.expiredContent demo.may1_noon [])))
    time.RFC3339Nano = "2024-05-01T07:00:00Z"%string.
Proof. repeat split; vm_compute; reflexivity. Qed.

End Examples.

(** * The laws at work *)
Section Instances.
Import sys googlegeocode googlegeocode_test spec.

(** The first [store] after a fresh start, on the empty file. *)
Lemma store_overwrites_the_start_witness :
  fileStore (geocoderInstance demo.firstCall) = Some 0%nat ∧
  files (world demo.firstCall) !! 0%nat = Some demo.stateFile ∧
  disk (world demo.firstCall) !! path demo.stateFile = Some (File "") ∧
  ∃ w' content,
    store (geocoderInstance demo.firstCall) (world demo.firstCall) = (Return tt, w') ∧
    fileContent w' (path demo.stateFile) = Some content ∧
    content = string (geocoderInstance demo.firstCall) +:+
              slice.drop (String.length (string (geocoderInstance demo.firstCall))) "" ∧
    String.length content =
      Nat.max (String.length (string (geocoderInstance demo.firstCall))) (String.length "") ∧
    (content = string (geocoderInstance demo.firstCall) ↔
     (String.length "" <= String.length (string (geocoderInstance demo.firstCall)))%nat) ∧
    (∀ p, p ≠ path demo.stateFile → disk w' !! p = disk (world demo.firstCall) !! p).
Proof.
  split; [vm_compute; reflexivity|]. split; [vm_compute; reflexivity|].
  split; [vm_compute; reflexivity|].
  apply (store_overwrites_the_start (geocoderInstance demo.firstCall) (world demo.firstCall)
           0%nat demo.stateFile ""); vm_compute; reflexivity.
Defined.


(** A start from a state file of four lines. *)
Lemma newGeocoderFromFile_touches_one_file_witness :
  newGeocoderFromFile ".geocoder-data" (demo.machineWith demo.expiredContent demo.may1_noon []) =
    (fst (newGeocoderFromFile ".geocoder-data"
            (demo.machineWith demo.expiredContent demo.may1_noon [])),
     snd (newGeocoderFromFile ".geocoder-data"
            (demo.machineWith demo.expiredContent demo.may1_noon []))) ∧
  ((∀ p, p ≠ ".geocoder-data"%string →
      disk (snd (newGeocoderFromFile ".geocoder-data"
                   (demo.machineWith demo.expiredContent demo.may1_noon []))) !! p =
      disk (demo.machineWith demo.expiredContent demo.may1_noon []) !! p) ∧
   clock (snd (newGeocoderFromFile ".geocoder-data"
                 (demo.machineWith demo.expiredContent demo.may1_noon []))) =
     clock (demo.machineWith demo.expiredContent demo.may1_noon []) ∧
   network (snd (newGeocoderFromFile ".geocoder-data"
                   (demo.machineWith demo.expiredContent demo.may1_noon []))) =
     network (demo.machineWith demo.expiredContent demo.may1_noon []) ∧
   requests (trace (snd (newGeocoderFromFile ".geocoder-data"
                           (demo.machineWith demo.expiredContent demo.may1_noon [])))) =
     requests (trace (demo.machineWith demo.expiredContent demo.may1_noon [])) ∧
   match disk (demo.machineWith demo.expiredContent demo.may1_noon []) !! ".geocoder-data"%string with
   | Some Dir =>
       disk (snd (newGeocoderFromFile ".geocoder-data"
                    (demo.machineWith demo.expiredContent demo.may1_noon []))) =
         disk (demo.machineWith demo.expiredContent demo.may1_noon []) ∧
       files (snd (newGeocoderFromFile ".geocoder-data"
                     (demo.machineWith demo.expiredContent demo.may1_noon []))) =
         files (demo.machineWith demo.expiredContent demo.may1_noon []) ∧
       ∃ e, fst (newGeocoderFromFile ".geocoder-data"
                   (demo.machineWith demo.expiredContent demo.may1_noon [])) =
            Return (zeroGeocoder, Some e)
   | _ =>
       fileContent (snd (newGeocoderFromFile ".geocoder-data"
                           (demo.machineWith demo.expiredContent demo.may1_noon [])))
         ".geocoder-data" = Some ""%string
   end).
Proof.
  split; [vm_compute; reflexivity|].
  apply (newGeocoderFromFile_touches_one_file ".geocoder-data"
           (demo.machineWith demo.expiredContent demo.may1_noon [])).
  vm_compute; reflexivity.
Defined.


(** The first run with nobody at the terminal. *)
Lemma newGeocoderFromFile_no_answer_witness :
  disk (demo.unattended demo.may1_noon) !! ".geocoder-data"%string = None ∧
  stdin (demo.unattended demo.may1_noon) = [] ∧
  ∃ w', newGeocoderFromFile ".geocoder-data" (demo.unattended demo.may1_noon) =
          (Return (zeroGeocoder,
                   Some (promptError (match stdin (demo.unattended demo.may1_noon) with
                                      | [] => "EOF"
                                      | _ => "unexpected newline"
                                      end))), w') ∧
    trace w' = Printed prompt :: trace (demo.unattended demo.may1_noon) ∧
    stdin w' = tl (stdin (demo.unattended demo.may1_noon)) ∧
    fileContent w' ".geocoder-data" = Some ""%string.
Proof.
  split; [vm_compute; reflexivity|]. split; [vm_compute; reflexivity|].
  apply (newGeocoderFromFile_no_answer ".geocoder-data" (demo.unattended demo.may1_noon));
    vm_compute; (reflexivity || exact I).
Defined.

(** The steps of the first call after a fresh start. *)
Lemma GetResults_steps_witness :
  ready demo.firstCall = true ∧
  GetResults demo.decode demo.address demo.firstCall =
    (fst (GetResults demo.decode demo.address demo.firstCall),
     demo.after demo.address demo.firstCall) ∧
  ∃ file,
    trace (world (demo.after demo.address demo.firstCall)) =
      Wrote file (string (geocoderInstance demo.firstCall)) :: Unlocked ::
      (if gateOpen demo.firstCall then
         match transportError (requestURL (geocoderInstance demo.firstCall) demo.address)
                 (world demo.firstCall) with
         | Some _ => []
         | None => [BodyClosed]
         end ++
         [Requested (requestURL (geocoderInstance demo.firstCall) demo.address);
          Slept (pacing (lastQuery (geocoderInstance demo.firstCall))
                   {| time.unixNano := clock (world demo.firstCall);
                      time.loc := Local (world demo.firstCall) |})]
       else []) ++
      Locked :: trace (world demo.firstCall).
Proof.
  split; [vm_compute; reflexivity|]. split; [vm_compute; reflexivity|].
  apply (GetResults_steps demo.decode demo.address demo.firstCall
           (fst (GetResults demo.decode demo.address demo.firstCall))
           (demo.after demo.address demo.firstCall)); vm_compute; reflexivity.
Defined.

Lemma GetResults_succeeds_iff_witness :
  ready demo.firstCall = true ∧
  ((∃ s', GetResults demo.decode demo.address demo.firstCall =
            (Return ({| Results_ := []; Status := "OK" |}, None), s')) ↔
   gateOpen demo.firstCall = true ∧
   answers demo.decode (world demo.firstCall) {| Results_ := []; Status := "OK" |} ∧
   Status {| Results_ := []; Status := "OK" |} ≠ "OVER_QUERY_LIMIT"%string).
Proof.
  split; [vm_compute; reflexivity|].
  apply (GetResults_succeeds_iff demo.decode demo.address demo.firstCall
           {| Results_ := []; Status := "OK" |}); vm_compute; reflexivity.
Defined.

(** A response whose body does not decode. *)
Lemma GetResults_unusable_response_witness :
  ready demo.garbled = true ∧ gateOpen demo.garbled = true ∧
  unusable demo.decode (world demo.garbled) =
    Some "Error unmarshaling geocoder result: <invalid character>"%string ∧
  ∃ s', GetResults demo.decode demo.address demo.garbled =
          (Return (zeroResults,
                   Some "Error unmarshaling geocoder result: <invalid character>"%string), s') ∧
    lastQuery (geocoderInstance s') = arrival demo.garbled ∧
    queryLimitReached (geocoderInstance s') = false ∧
    queryLimitExpiration (geocoderInstance s') =
      queryLimitExpiration (geocoderInstance demo.garbled) ∧
    responses (trace (world s')) = S (responses (trace (world demo.garbled))).
Proof.
  split; [vm_compute; reflexivity|]. split; [vm_compute; reflexivity|].
  split; [vm_compute; reflexivity|].
  apply (GetResults_unusable_response demo.decode demo.address demo.garbled
           "Error unmarshaling geocoder result: <invalid character>");
    vm_compute; reflexivity.
Defined.

Lemma GetResults_returns_without_panic_witness :
  ready demo.quotaHit = true ∧
  (zoneinfo (world demo.quotaHit) = true ∧
   fourDigitYear time.LosAngeles (arrival demo.quotaHit) = true) ∧
  ∃ res s', GetResults demo.decode demo.address demo.quotaHit = (Return res, s').
Proof.
  split; [vm_compute; reflexivity|]. split; [split; vm_compute; reflexivity|].
  apply (GetResults_returns_without_panic demo.decode demo.address demo.quotaHit);
    [vm_compute; reflexivity | intros _; split; vm_compute; reflexivity].
Defined.

Lemma GetResults_panics_without_zoneinfo_witness :
  ready demo.noZones = true ∧ gateOpen demo.noZones = true ∧
  answersOverLimit demo.decode (world demo.noZones) = true ∧
  zoneinfo (world demo.noZones) = false ∧
  ∃ s', GetResults demo.decode demo.address demo.noZones =
          (Panic "Could not find the timezone for 'America/Los_Angeles' which is needed to set limit expiration (unknown time zone America/Los_Angeles)", s') ∧
    ready s' = true ∧
    queryLimitReached (geocoderInstance s') = true ∧
    queryLimitExpiration (geocoderInstance s') =
      queryLimitExpiration (geocoderInstance demo.noZones) ∧
    lastQuery (geocoderInstance s') = arrival demo.noZones.
Proof.
  split; [vm_compute; reflexivity|]. split; [vm_compute; reflexivity|].
  split; [vm_compute; reflexivity|]. split; [vm_compute; reflexivity|].
  apply (GetResults_panics_without_zoneinfo demo.decode demo.address demo.noZones);
    vm_compute; reflexivity.
Defined.

Lemma GetResults_keeps_the_pace_witness :
  ready demo.firstCall = true ∧ gateOpen demo.firstCall = true ∧
  transportError (requestURL (geocoderInstance demo.firstCall) demo.address)
    (world demo.firstCall) = None ∧
  time.unixNano (lastQuery (geocoderInstance demo.firstCall)) - clock (world demo.firstCall)
    <= time.maxDuration - 20 * time.Millisecond ∧
  ∃ r s', GetResults demo.decode demo.address demo.firstCall = (r, s') ∧
    time.unixNano (lastQuery (geocoderInstance s')) =
      Z.max (clock (world demo.firstCall))
            (time.unixNano (lastQuery (geocoderInstance demo.firstCall)) +
             20 * time.Millisecond) +
      nextLatency (world demo.firstCall) ∧
    clock (world s') = time.unixNano (lastQuery (geocoderInstance s')).
Proof.
  split; [vm_compute; reflexivity|]. split; [vm_compute; reflexivity|].
  split; [vm_compute; reflexivity|]. split; [vm_compute; discriminate|].
  apply (GetResults_keeps_the_pace demo.decode demo.address demo.firstCall);
    vm_compute; (reflexivity || discriminate).
Defined.

(** A state file that puts [lastQuery] in the year 9999. *)
Lemma GetResults_pause_wraps_around_witness :
  ready demo.farAhead = true ∧ gateOpen demo.farAhead = true ∧
  transportError (requestURL (geocoderInstance demo.farAhead) demo.address)
    (world demo.farAhead) = None ∧
  time.maxDuration - 20 * time.Millisecond
    < time.unixNano (lastQuery (geocoderInstance demo.farAhead)) - clock (world demo.farAhead) ∧
  ∃ r s', GetResults demo.decode demo.address demo.farAhead = (r, s') ∧
    pauses (trace (world s')) =
      pacing (lastQuery (geocoderInstance demo.farAhead))
        {| time.unixNano := clock (world demo.farAhead);
           time.loc := Local (world demo.farAhead) |} ::
      pauses (trace (world demo.farAhead)) ∧
    pacing (lastQuery (geocoderInstance demo.farAhead))
      {| time.unixNano := clock (world demo.farAhead);
         time.loc := Local (world demo.farAhead) |} < 0 ∧
    clock (world s') = clock (world demo.farAhead) + nextLatency (world demo.farAhead) ∧
    time.unixNano (lastQuery (geocoderInstance s')) = clock (world s').
Proof.
  split; [vm_compute; reflexivity|]. split; [vm_compute; reflexivity|].
  split; [vm_compute; reflexivity|]. split; [vm_compute; reflexivity|].
  apply (GetResults_pause_wraps_around demo.decode demo.address demo.farAhead);
    vm_compute; reflexivity.
Defined.

(** Three calls in a row, each of which gets its response. *)
Lemma responses_are_20ms_apart_witness :
  ready demo.threeCalls = true ∧
  session demo.decode [(0, "a"); (0, "b"); (0, "c")]%string demo.threeCalls =
    (fst (session demo.decode [(0, "a"); (0, "b"); (0, "c")]%string demo.threeCalls),
     snd (session demo.decode [(0, "a"); (0, "b"); (0, "c")]%string demo.threeCalls)) ∧
  20 * time.Millisecond *
    (Z.of_nat (responses (trace (world
       (snd (session demo.decode [(0, "a"); (0, "b"); (0, "c")]%string demo.threeCalls))))) -
     Z.of_nat (responses (trace (world demo.threeCalls))) - 1)
  <= clock (world (snd (session demo.decode [(0, "a"); (0, "b"); (0, "c")]%string
                          demo.threeCalls))) -
     clock (world demo.threeCalls).
Proof.
  split; [vm_compute; reflexivity|]. split; [vm_compute; reflexivity|].
  apply (responses_are_20ms_apart demo.decode [(0, "a"); (0, "b"); (0, "c")]%string
           demo.threeCalls
           (fst (session demo.decode [(0, "a"); (0, "b"); (0, "c")]%string demo.threeCalls)));
    vm_compute; reflexivity.
Defined.

Lemma session_keeps_the_package_ready_witness :
  ready demo.threeCalls = true ∧
  session demo.decode [(0, "a"); (0, "b"); (0, "c")]%string demo.threeCalls =
    (fst (session demo.decode [(0, "a"); (0, "b"); (0, "c")]%string demo.threeCalls),
     snd (session demo.decode [(0, "a"); (0, "b"); (0, "c")]%string demo.threeCalls)) ∧
  (fst (session demo.decode [(0, "a"); (0, "b"); (0, "c")]%string demo.threeCalls) ≠ Blocked ∧
   ready (snd (session demo.decode [(0, "a"); (0, "b"); (0, "c")]%string demo.threeCalls)) =
     true ∧
   apiKey (geocoderInstance
             (snd (session demo.decode [(0, "a"); (0, "b"); (0, "c")]%string demo.threeCalls))) =
     apiKey (geocoderInstance demo.threeCalls) ∧
   fileStore (geocoderInstance
                (snd (session demo.decode [(0, "a"); (0, "b"); (0, "c")]%string
                        demo.threeCalls))) =
     fileStore (geocoderInstance demo.threeCalls) ∧
   stdin (world (snd (session demo.decode [(0, "a"); (0, "b"); (0, "c")]%string
                        demo.threeCalls))) =
     stdin (world demo.threeCalls)).
Proof.
  split; [vm_compute; reflexivity|]. split; [vm_compute; reflexivity|].
  apply (session_keeps_the_package_ready demo.decode [(0, "a"); (0, "b"); (0, "c")]%string
           demo.threeCalls); vm_compute; reflexivity.
Defined.

Lemma GetResults_touches_one_file_witness :
  ready demo.firstCall = true ∧
  fileStore (geocoderInstance demo.firstCall) = Some 0%nat ∧
  files (world demo.firstCall) !! 0%nat = Some demo.stateFile ∧
  GetResults demo.decode demo.address demo.firstCall =
    (fst (GetResults demo.decode demo.address demo.firstCall),
     demo.after demo.address demo.firstCall) ∧
  ((∀ p, p ≠ path demo.stateFile →
      disk (world (demo.after demo.address demo.firstCall)) !! p =
      disk (world demo.firstCall) !! p) ∧
   stdin (world (demo.after demo.address demo.firstCall)) = stdin (world demo.firstCall) ∧
   Local (world (demo.after demo.address demo.firstCall)) = Local (world demo.firstCall) ∧
   zoneinfo (world (demo.after demo.address demo.firstCall)) =
     zoneinfo (world demo.firstCall) ∧
   apiKey (geocoderInstance (demo.after demo.address demo.firstCall)) =
     apiKey (geocoderInstance demo.firstCall) ∧
   fileStore (geocoderInstance (demo.after demo.address demo.firstCall)) =
     fileStore (geocoderInstance demo.firstCall) ∧
   (network (world (demo.after demo.address demo.firstCall)) = network (world demo.firstCall) ∨
    network (world (demo.after demo.address demo.firstCall)) =
      tl (network (world demo.firstCall)))).
Proof.
  split; [vm_compute; reflexivity|]. split; [vm_compute; reflexivity|].
  split; [vm_compute; reflexivity|]. split; [vm_compute; reflexivity|].
  apply (GetResults_touches_one_file demo.decode demo.address demo.firstCall
           (fst (GetResults demo.decode demo.address demo.firstCall))
           (demo.after demo.address demo.firstCall) 0%nat demo.stateFile);
    vm_compute; reflexivity.
Defined.

Lemma requestURL_tells_address_and_key_witness :
  requestURL (geocoderInstance demo.firstCall) demo.address =
    requestURL (geocoderInstance demo.refused) demo.address ∧
  (demo.address = demo.address ∧
   apiKey (geocoderInstance demo.firstCall) = apiKey (geocoderInstance demo.refused)).
Proof.
  split; [vm_compute; reflexivity|].
  apply (requestURL_tells_address_and_key (geocoderInstance demo.firstCall)
           (geocoderInstance demo.refused) demo.address demo.address).
  vm_compute; reflexivity.
Defined.

(** The example run while the quota recorded at noon of May 1 holds. *)
Lemma ExampleGetResults_over_quota_witness :
  ready demo.overLimit = true ∧
  queryLimitReached (geocoderInstance demo.overLimit) = true ∧
  clock (world demo.overLimit) <
    time.unixNano (queryLimitExpiration (geocoderInstance demo.overLimit)) ∧
  ∃ s', ExampleGetResults demo.decode demo.marshal demo.overLimit =
          (match demo.marshal (replicate 5 zeroResults) with
           | (_, Some e) => Panic e
           | (_, None) => Return tt
           end, s') ∧
    requests (trace (world s')) = requests (trace (world demo.overLimit)) ∧
    printed (trace (world s')) =
      match demo.marshal (replicate 5 zeroResults) with
      | (_, Some _) => []
      | (jsonBytes, None) => [jsonBytes]
      end ++ replicate 5 (quotaError +:+ String newline "") ++
      printed (trace (world demo.overLimit)).
Proof.
  split; [vm_compute; reflexivity|]. split; [vm_compute; reflexivity|].
  split; [vm_compute; reflexivity|].
  apply (ExampleGetResults_over_quota demo.decode demo.marshal demo.overLimit);
    vm_compute; reflexivity.
Defined.

(** The example run when the first answer is OVER_QUERY_LIMIT. *)
Lemma ExampleGetResults_stops_asking_witness :
  ready demo.quotaHit = true ∧ gateOpen demo.quotaHit = true ∧
  answersOverLimit demo.decode (world demo.quotaHit) = true ∧
  zoneinfo (world demo.quotaHit) = true ∧
  fourDigitYear time.LosAngeles (arrival demo.quotaHit) = true ∧
  time.unixNano (arrival demo.quotaHit) <
    time.unixNano (time.Add (localDayStart time.LosAngeles (arrival demo.quotaHit))
                     (time.Hour * 24)) ∧
  ∃ s', ExampleGetResults demo.decode demo.marshal demo.quotaHit =
          (match demo.marshal (replicate 5 zeroResults) with
           | (_, Some e) => Panic e
           | (_, None) => Return tt
           end, s') ∧
    requests (trace (world s')) =
      requestURL (geocoderInstance demo.quotaHit) "704 S 2nd St, Minneapolis, MN 55401" ::
      requests (trace (world demo.quotaHit)) ∧
    printed (trace (world s')) =
      match demo.marshal (replicate 5 zeroResults) with
      | (_, Some _) => []
      | (jsonBytes, None) => [jsonBytes]
      end ++ replicate 5 (quotaError +:+ String newline "") ++
      printed (trace (world demo.quotaHit)).
Proof.
  split; [vm_compute; reflexivity|]. split; [vm_compute; reflexivity|].
  split; [vm_compute; reflexivity|]. split; [vm_compute; reflexivity|].
  split; [vm_compute; reflexivity|]. split; [vm_compute; reflexivity|].
  apply (ExampleGetResults_stops_asking demo.decode demo.marshal demo.quotaHit);
    vm_compute; reflexivity.
Defined.

Lemma ExampleGetResults_pace_witness :
  ready demo.threeCalls = true ∧
  ExampleGetResults demo.decode demo.marshal demo.threeCalls =
    (fst (ExampleGetResults demo.decode demo.marshal demo.threeCalls),
     snd (ExampleGetResults demo.decode demo.marshal demo.threeCalls)) ∧
  (let n := Z.of_nat (responses (trace (world
                (snd (ExampleGetResults demo.decode demo.marshal demo.threeCalls))))) -
            Z.of_nat (responses (trace (world demo.threeCalls))) in
   fst (ExampleGetResults demo.decode demo.marshal demo.threeCalls) ≠ Blocked ∧
   ready (snd (ExampleGetResults demo.decode demo.marshal demo.threeCalls)) = true ∧
   n <= 5 ∧
   20 * time.Millisecond * (n - 1) <=
     clock (world (snd (ExampleGetResults demo.decode demo.marshal demo.threeCalls))) -
     clock (world demo.threeCalls)).
Proof.
  split; [vm_compute; reflexivity|]. split; [vm_compute; reflexivity|].
  apply (ExampleGetResults_pace demo.decode demo.marshal demo.threeCalls);
    vm_compute; reflexivity.
Defined.



(** A restart after the first call of a fresh start. *)
Lemma restart_loads_the_record_at_entry_witness :
  ready demo.firstCall = true ∧
  fileStore (geocoderInstance demo.firstCall) = Some 0%nat ∧
  files (world demo.firstCall) !! 0%nat = Some demo.stateFile ∧
  disk (world demo.firstCall) !! path demo.stateFile = Some (File "") ∧
  (String.length "" <= String.length (string (geocoderInstance demo.firstCall)))%nat ∧
  apiKey (geocoderInstance demo.firstCall) ≠ ""%string ∧
  isLine (apiKey (geocoderInstance demo.firstCall)) = true ∧
  representable (lastQuery (geocoderInstance demo.firstCall)) = true ∧
  representable (queryLimitExpiration (geocoderInstance demo.firstCall)) = true ∧
  GetResults demo.decode demo.address demo.firstCall =
    (fst (GetResults demo.decode demo.address demo.firstCall),
     demo.after demo.address demo.firstCall) ∧
  ∃ g' w', newGeocoderFromFile (path demo.stateFile)
             (world (demo.after demo.address demo.firstCall)) = (Return (g', None), w') ∧
    sameRecord g' (geocoderInstance demo.firstCall).
Proof.
  split; [vm_compute; reflexivity|]. split; [vm_compute; reflexivity|].
  split; [vm_compute; reflexivity|]. split; [vm_compute; reflexivity|].
  split; [vm_compute; lia|]. split; [vm_compute; discriminate|].
  split; [vm_compute; reflexivity|]. split; [vm_compute; reflexivity|].
  split; [vm_compute; reflexivity|]. split; [vm_compute; reflexivity|].
  apply (restart_loads_the_record_at_entry demo.decode demo.address demo.firstCall
           (fst (GetResults demo.decode demo.address demo.firstCall))
           (demo.after demo.address demo.firstCall) 0%nat demo.stateFile "");
    vm_compute; (reflexivity || discriminate || lia).
Defined.

End Instances.
